(** * ChatbotPage: the task lifecycle controller and the conversation controller

    A shallow embedding of the React component [ChatbotPage] (the current
    revision with the report-requirements prompt and the inline HTML result;
    the poll callback and [handleSendMessage] are textually identical in
    [test-ui/app/routes/ChatbotPage.tsx], which only polls every 3 s instead
    of every 10 s).

    - JavaScript strings are sequences of UTF-16 code units: [JsString].
    - The component state is the record [State], one field per [useState].
    - An event handler is a function from the state it closes over (and from
      what the environment answers: HTTP replies, clock readings, the chat
      stream) to the list of effects it performs, in program order: state
      setter calls, network calls and [clearInterval].
    - [dispatch] runs the effects on the state and then re-runs the polling
      [useEffect] when one of its dependencies changed. *)

From Stdlib Require Import List Arith NArith Bool String Ascii Lia DecimalN.
Import ListNotations.


Local Open Scope N_scope.

(* ================================================================== *)
(** ** JavaScript strings *)

Module Js.

(** A string is the list of its UTF-16 code units. *)
Definition JsString := list N.

(** Decoding of a UTF-8 byte sequence into UTF-16 code units; only used to
    write the string literals of the source legibly. *)
Fixpoint utf16_of_utf8 (bs : list N) : JsString :=
  match bs with
  | [] => []
  | b0 :: r0 =>
      if b0 <? 0x80 then b0 :: utf16_of_utf8 r0
      else if b0 <? 0xE0 then
        match r0 with
        | b1 :: r1 => ((b0 - 0xC0) * 64 + (b1 - 0x80)) :: utf16_of_utf8 r1
        | _ => []
        end
      else if b0 <? 0xF0 then
        match r0 with
        | b1 :: b2 :: r2 =>
            ((b0 - 0xE0) * 4096 + (b1 - 0x80) * 64 + (b2 - 0x80))
              :: utf16_of_utf8 r2
        | _ => []
        end
      else
        match r0 with
        | b1 :: b2 :: b3 :: r3 =>
            let cp := (b0 - 0xF0) * 262144 + (b1 - 0x80) * 4096
                      + (b2 - 0x80) * 64 + (b3 - 0x80) in
            (0xD800 + (cp - 0x10000) / 1024)
              :: (0xDC00 + (cp - 0x10000) mod 1024)
              :: utf16_of_utf8 r3
        | _ => []
        end
  end.

(** The literal ["..."] of the source. *)
Definition lit (s : string) : JsString :=
  utf16_of_utf8 (map N_of_ascii (list_ascii_of_string s)).

Definition eqb (a b : JsString) : bool :=
  if list_eq_dec N.eq_dec a b then true else false.

(** Truthiness of a string: the empty string is falsy. *)
Definition truthy (s : JsString) : bool :=
  match s with [] => false | _ :: _ => true end.

(** [a || b] on strings. *)
Definition or_else (a b : JsString) : JsString :=
  if truthy a then a else b.

(** [a || b] where [a] may be [undefined]. *)
Definition opt_or_else (a : option JsString) (b : JsString) : JsString :=
  match a with
  | Some s => or_else s b
  | None => b
  end.

(** Truthiness of an optional string field: [undefined] and [""] are falsy. *)
Definition opt_truthy (a : option JsString) : bool :=
  match a with
  | Some s => truthy s
  | None => false
  end.

(** WhiteSpace and LineTerminator code points of ECMAScript, the characters
    [String.prototype.trim] strips. *)
Definition isWhiteSpace (c : N) : bool :=
  (c =? 0x09) || (c =? 0x0A) || (c =? 0x0B) || (c =? 0x0C) || (c =? 0x0D)
  || (c =? 0x20) || (c =? 0xA0) || (c =? 0x1680)
  || ((0x2000 <=? c) && (c <=? 0x200A))
  || (c =? 0x2028) || (c =? 0x2029) || (c =? 0x202F) || (c =? 0x205F)
  || (c =? 0x3000) || (c =? 0xFEFF).

Fixpoint trimStart (s : JsString) : JsString :=
  match s with
  | [] => []
  | c :: r => if isWhiteSpace c then trimStart r else s
  end.

Definition trimEnd (s : JsString) : JsString := rev (trimStart (rev s)).

(** [s.trim()] *)
Definition trim (s : JsString) : JsString := trimEnd (trimStart s).

(** An empty or whitespace-only string. *)
Definition blank (s : JsString) : bool := forallb isWhiteSpace s.

(** Decimal digits of a number, most significant first. *)
Fixpoint digits (d : Decimal.uint) : JsString :=
  match d with
  | Decimal.Nil => []
  | Decimal.D0 r => 48 :: digits r
  | Decimal.D1 r => 49 :: digits r
  | Decimal.D2 r => 50 :: digits r
  | Decimal.D3 r => 51 :: digits r
  | Decimal.D4 r => 52 :: digits r
  | Decimal.D5 r => 53 :: digits r
  | Decimal.D6 r => 54 :: digits r
  | Decimal.D7 r => 55 :: digits r
  | Decimal.D8 r => 56 :: digits r
  | Decimal.D9 r => 57 :: digits r
  end.

(** [`${n}`] for a non-negative integer [n]. *)
Definition ofNumber (n : N) : JsString := digits (N.to_uint n).

End Js.

Abbreviation JsString := Js.JsString.

(* ================================================================== *)
(** ** Data model *)

Local Open Scope list_scope.

Definition BACKEND_URL : JsString := Js.lit "http://localhost:5001".

(** Frontend's internal state representation. *)
Inductive FrontendAnalysisStatus :=
  idle | loading | success | error | processing.

(** Status values received from the backend. *)
Inductive BackendTaskActualStatus :=
  task_pending | task_processing | task_completed | task_failed.

(** The JSON body of a status poll; the three optional fields are [None]
    when the property is absent. *)
Record TaskStatusResponse := {
  task_id : JsString;
  status : BackendTaskActualStatus;
  message : JsString;
  html_url : option JsString;
  html_content : option JsString;
  error_details : option JsString
}.

(** The only two senders the component ever writes: ['user'] and ['bot']. *)
Inductive Sender := user | bot.

Record ChatMessage := {
  id : JsString;
  sender : Sender;
  text : JsString
}.

Inductive Role := role_system | role_user | role_assistant.

(** An entry of [apiMessages]. *)
Record ApiMessage := {
  role : Role;
  content : JsString
}.

(** The component state, one field per [useState] the controllers use, and
    [pollInterval]: the live [setInterval] of the polling effect together
    with the task identifier its callback closes over ([None] when no
    interval is set). *)
Record State := {
  analysisStatus : FrontendAnalysisStatus;
  taskId : option JsString;
  analysisResultUrl : option JsString;
  htmlReportContent : option JsString;
  statusMessage : JsString;
  errorMessage : option JsString;
  chatMessages : list ChatMessage;
  userInput : JsString;
  reportRequirementsInput : JsString;
  pollInterval : option JsString
}.

(** The state of the first render. *)
Definition initialState : State := {|
  analysisStatus := idle;
  taskId := None;
  analysisResultUrl := None;
  htmlReportContent := None;
  statusMessage := Js.lit "点击按钮开始分析文档。";
  errorMessage := None;
  chatMessages := [];
  userInput := [];
  reportRequirementsInput := Js.lit "生成5月手卫生培训与专项考核报告";
  pollInterval := None
|}.

(* ------------------------------------------------------------------ *)
(** *** What the environment answers *)

(** A value caught by [catch (error)]: an [Error] with its message, or
    anything else. *)
Inductive Thrown :=
| ThrownError (msg : JsString)
| ThrownOther.

(** [await response.json()]: it throws, or yields the parsed body. *)
Inductive JsonBody (A : Type) :=
| BodyThrows (e : Thrown)
| BodyJson (a : A).
Arguments BodyThrows {A} e.
Arguments BodyJson {A} a.

(** The body of a non-2xx reply; [err] is [errorData.error]. *)
Record ErrorData := { err : option JsString }.

(** The body of the reply to the submission; [new_task_id] is
    [data.task_id]. *)
Record StartData := { new_task_id : option JsString }.

(** [await fetch(...)]: it throws (network error), or resolves to a response
    with [response.ok] false and its status, or to one with [response.ok]
    true. *)
Inductive HttpReply (A : Type) :=
| FetchThrows (e : Thrown)
| NotOk (httpStatus : N) (body : JsonBody ErrorData)
| Ok (body : JsonBody A).
Arguments FetchThrows {A} e.
Arguments NotOk {A} httpStatus body.
Arguments Ok {A} body.

(** [chunk.choices[0]?.delta?.content] reads through these. *)
Record Delta := { delta_content : option JsString }.
Record Choice := { delta : option Delta }.
Record Chunk := { choices : list Choice }.

(** The streaming completion: [create] throws, or yields a stream that
    delivers chunks and then ends or throws. *)
Inductive StreamEnd :=
| StreamDone
| StreamThrows (e : Thrown).

Inductive StreamReply :=
| CreateThrows (e : Thrown)
| Stream (chunks : list Chunk) (ending : StreamEnd).

(* ------------------------------------------------------------------ *)
(** *** Effects *)

Inductive Request :=
| PostJson (url : JsString) (prompt : JsString)
| Get (url : JsString).

(** What a handler does, in program order. [Await] marks a point where the
    handler is suspended, so that React renders the updates queued so far. *)
Inductive Effect :=
| SetAnalysisStatus (v : FrontendAnalysisStatus)
| SetTaskId (v : option JsString)
| SetAnalysisResultUrl (v : option JsString)
| SetHtmlReportContent (v : option JsString)
| SetStatusMessage (v : JsString)
| SetErrorMessage (v : option JsString)
| SetChatMessages (f : list ChatMessage -> list ChatMessage)
| SetUserInput (v : JsString)
| SetReportRequirementsInput (v : JsString)
| Fetch (req : Request)
| ChatCompletionsCreate (messages : list ApiMessage)
| ClearInterval
| Await.

Definition isNetworkCall (e : Effect) : bool :=
  match e with
  | Fetch _ | ChatCompletionsCreate _ => true
  | _ => false
  end.

(** The network calls of a run of a handler. *)
Definition networkCalls (effs : list Effect) : list Effect :=
  filter isNetworkCall effs.

Definition applyEffect (s : State) (e : Effect) : State :=
  match e with
  | SetAnalysisStatus v =>
      {| analysisStatus := v; taskId := taskId s;
         analysisResultUrl := analysisResultUrl s;
         htmlReportContent := htmlReportContent s;
         statusMessage := statusMessage s; errorMessage := errorMessage s;
         chatMessages := chatMessages s; userInput := userInput s;
         reportRequirementsInput := reportRequirementsInput s;
         pollInterval := pollInterval s |}
  | SetTaskId v =>
      {| analysisStatus := analysisStatus s; taskId := v;
         analysisResultUrl := analysisResultUrl s;
         htmlReportContent := htmlReportContent s;
         statusMessage := statusMessage s; errorMessage := errorMessage s;
         chatMessages := chatMessages s; userInput := userInput s;
         reportRequirementsInput := reportRequirementsInput s;
         pollInterval := pollInterval s |}
  | SetAnalysisResultUrl v =>
      {| analysisStatus := analysisStatus s; taskId := taskId s;
         analysisResultUrl := v;
         htmlReportContent := htmlReportContent s;
         statusMessage := statusMessage s; errorMessage := errorMessage s;
         chatMessages := chatMessages s; userInput := userInput s;
         reportRequirementsInput := reportRequirementsInput s;
         pollInterval := pollInterval s |}
  | SetHtmlReportContent v =>
      {| analysisStatus := analysisStatus s; taskId := taskId s;
         analysisResultUrl := analysisResultUrl s;
         htmlReportContent := v;
         statusMessage := statusMessage s; errorMessage := errorMessage s;
         chatMessages := chatMessages s; userInput := userInput s;
         reportRequirementsInput := reportRequirementsInput s;
         pollInterval := pollInterval s |}
  | SetStatusMessage v =>
      {| analysisStatus := analysisStatus s; taskId := taskId s;
         analysisResultUrl := analysisResultUrl s;
         htmlReportContent := htmlReportContent s;
         statusMessage := v; errorMessage := errorMessage s;
         chatMessages := chatMessages s; userInput := userInput s;
         reportRequirementsInput := reportRequirementsInput s;
         pollInterval := pollInterval s |}
  | SetErrorMessage v =>
      {| analysisStatus := analysisStatus s; taskId := taskId s;
         analysisResultUrl := analysisResultUrl s;
         htmlReportContent := htmlReportContent s;
         statusMessage := statusMessage s; errorMessage := v;
         chatMessages := chatMessages s; userInput := userInput s;
         reportRequirementsInput := reportRequirementsInput s;
         pollInterval := pollInterval s |}
  | SetChatMessages f =>
      {| analysisStatus := analysisStatus s; taskId := taskId s;
         analysisResultUrl := analysisResultUrl s;
         htmlReportContent := htmlReportContent s;
         statusMessage := statusMessage s; errorMessage := errorMessage s;
         chatMessages := f (chatMessages s); userInput := userInput s;
         reportRequirementsInput := reportRequirementsInput s;
         pollInterval := pollInterval s |}
  | SetUserInput v =>
      {| analysisStatus := analysisStatus s; taskId := taskId s;
         analysisResultUrl := analysisResultUrl s;
         htmlReportContent := htmlReportContent s;
         statusMessage := statusMessage s; errorMessage := errorMessage s;
         chatMessages := chatMessages s; userInput := v;
         reportRequirementsInput := reportRequirementsInput s;
         pollInterval := pollInterval s |}
  | SetReportRequirementsInput v =>
      {| analysisStatus := analysisStatus s; taskId := taskId s;
         analysisResultUrl := analysisResultUrl s;
         htmlReportContent := htmlReportContent s;
         statusMessage := statusMessage s; errorMessage := errorMessage s;
         chatMessages := chatMessages s; userInput := userInput s;
         reportRequirementsInput := v;
         pollInterval := pollInterval s |}
  | ClearInterval =>
      {| analysisStatus := analysisStatus s; taskId := taskId s;
         analysisResultUrl := analysisResultUrl s;
         htmlReportContent := htmlReportContent s;
         statusMessage := statusMessage s; errorMessage := errorMessage s;
         chatMessages := chatMessages s; userInput := userInput s;
         reportRequirementsInput := reportRequirementsInput s;
         pollInterval := None |}
  | Fetch _ | ChatCompletionsCreate _ | Await => s
  end.

(** The state after the effects, with no render in between. *)
Definition applyEffects (s : State) (effs : list Effect) : State :=
  fold_left applyEffect effs s.

(* ================================================================== *)
(** ** Task lifecycle controller *)

Definition FrontendAnalysisStatus_eqb (a b : FrontendAnalysisStatus) : bool :=
  match a, b with
  | idle, idle | loading, loading | success, success
  | error, error | processing, processing => true
  | _, _ => false
  end.

Definition opt_eqb (a b : option JsString) : bool :=
  match a, b with
  | Some x, Some y => Js.eqb x y
  | None, None => true
  | _, _ => false
  end.

(** The message of a caught value: [error instanceof Error ? error.message
    : fallback]. *)
Definition messageOf (e : Thrown) (fallback : JsString) : JsString :=
  match e with
  | ThrownError msg => msg
  | ThrownOther => fallback
  end.

(** [new Error(errorData.error || `HTTP error! status: ${response.status}`)] *)
Definition httpError (httpStatus : N) (errorData : ErrorData) : Thrown :=
  ThrownError
    (Js.opt_or_else (err errorData)
       (Js.lit "HTTP error! status: " ++ Js.ofNumber httpStatus)).

(** The first five statements of [handleStartAnalysis]. *)
Definition startReset : list Effect :=
  [ SetAnalysisStatus loading;
    SetStatusMessage (Js.lit "正在请求开始分析...");
    SetErrorMessage None;
    SetAnalysisResultUrl None;
    SetHtmlReportContent None ].

(** The branch of the validation check of [handleStartAnalysis]. *)
Definition startReject : list Effect :=
  [ SetAnalysisStatus idle;
    SetErrorMessage (Some (Js.lit "报告生成需求不能为空。"));
    SetStatusMessage (Js.lit "请输入报告生成需求后重试。") ].

(** The [catch] block of [handleStartAnalysis]. *)
Definition startCatch (e : Thrown) : list Effect :=
  [ SetAnalysisStatus error;
    SetErrorMessage
      (Some (messageOf e (Js.lit "启动分析失败，请检查后端服务。")));
    SetStatusMessage (Js.lit "分析启动失败。") ].

Definition handleStartAnalysis (s : State) (reply : HttpReply StartData)
  : list Effect :=
  startReset ++
  if negb (Js.truthy (Js.trim (reportRequirementsInput s))) then startReject
  else
    Fetch (PostJson (BACKEND_URL ++ Js.lit "/api/start-analysis")
             (reportRequirementsInput s))
    :: Await
    :: match reply with
       | FetchThrows e => startCatch e
       | NotOk httpStatus body =>
           Await ::
           match body with
           | BodyThrows e => startCatch e
           | BodyJson errorData => startCatch (httpError httpStatus errorData)
           end
       | Ok body =>
           Await ::
           match body with
           | BodyThrows e => startCatch e
           | BodyJson data =>
               [ SetTaskId (new_task_id data);
                 SetAnalysisStatus processing;
                 SetStatusMessage (Js.lit "分析任务已启动，正在处理中...") ]
           end
       end.

(** The [catch] block of the interval callback. *)
Definition pollCatch (e : Thrown) : list Effect :=
  [ SetAnalysisStatus error;
    SetErrorMessage (Some (messageOf e (Js.lit "获取分析状态失败。")));
    SetStatusMessage (Js.lit "获取分析状态时出错。");
    SetTaskId None;
    ClearInterval ].

(** The message of the error thrown on a 404. *)
Definition notFoundMessage (taskId : JsString) : JsString :=
  Js.lit "任务ID " ++ taskId
  ++ Js.lit " 未找到。可能已过期或后端服务已重启。".

(** [data.html_url ? `${BACKEND_URL}${data.html_url}` : null] *)
Definition qualifiedUrl (html_url : option JsString) : option JsString :=
  match html_url with
  | Some u => if Js.truthy u then Some (BACKEND_URL ++ u) else None
  | None => None
  end.

(** The branch [data.status === 'completed']. *)
Definition onCompleted (data : TaskStatusResponse) : list Effect :=
  (if Js.opt_truthy (html_content data) then
     [ SetHtmlReportContent (html_content data);
       SetAnalysisResultUrl None;
       SetStatusMessage
         (Js.or_else (message data)
            (Js.lit "分析成功完成，报告内容已加载！")) ]
   else if Js.opt_truthy (html_url data) then
     [ SetAnalysisResultUrl (qualifiedUrl (html_url data));
       SetHtmlReportContent None;
       SetStatusMessage
         (Js.or_else (message data)
            (Js.lit "分析成功完成，报告链接已获取！")) ]
   else
     [ SetStatusMessage
         (Js.or_else (message data)
            (Js.lit "分析成功完成，但未找到报告输出。")) ])
  ++ [ SetAnalysisStatus success; SetTaskId None; ClearInterval ].

(** The branch [data.status === 'failed']. *)
Definition onFailed (data : TaskStatusResponse) : list Effect :=
  [ SetAnalysisStatus error;
    SetErrorMessage
      (Some (Js.opt_or_else (error_details data)
               (Js.or_else (message data)
                  (Js.lit "分析过程中发生未知错误。"))));
    SetStatusMessage (Js.or_else (message data) (Js.lit "分析失败。"));
    SetTaskId None;
    ClearInterval ].

(** What the interval callback does with a parsed status body. *)
Definition onStatus (data : TaskStatusResponse) : list Effect :=
  SetStatusMessage (Js.or_else (message data) (Js.lit "正在获取状态..."))
  :: match status data with
     | task_completed => onCompleted data
     | task_failed => onFailed data
     | task_processing => [ SetAnalysisStatus processing ]
     | task_pending =>
         [ SetAnalysisStatus processing;
           SetStatusMessage
             (Js.or_else (message data) (Js.lit "任务正在等待执行...")) ]
     end.

(** The callback of [setInterval]; [taskId] is the identifier the effect
    closed over. *)
Definition pollCallback (taskId : JsString)
    (reply : HttpReply TaskStatusResponse) : list Effect :=
  Fetch (Get (BACKEND_URL ++ Js.lit "/api/analysis-status/" ++ taskId))
  :: Await
  :: match reply with
     | FetchThrows e => pollCatch e
     | NotOk httpStatus body =>
         if httpStatus =? 404 then
           pollCatch (ThrownError (notFoundMessage taskId))
         else
           Await ::
           match body with
           | BodyThrows e => pollCatch e
           | BodyJson errorData => pollCatch (httpError httpStatus errorData)
           end
     | Ok body =>
         Await ::
         match body with
         | BodyThrows e => pollCatch e
         | BodyJson data => onStatus data
         end
     end.

(* ------------------------------------------------------------------ *)
(** *** The polling effect and the run of a handler *)

(** The condition of the polling [useEffect]. *)
Definition pollGuard (s : State) : bool :=
  Js.opt_truthy (taskId s)
  && (FrontendAnalysisStatus_eqb (analysisStatus s) processing
      || FrontendAnalysisStatus_eqb (analysisStatus s) loading).

(** The dependency array [[taskId, analysisStatus]] differs between two
    renders. *)
Definition depsChanged (rendered next : State) : bool :=
  negb (opt_eqb (taskId rendered) (taskId next)
        && FrontendAnalysisStatus_eqb (analysisStatus rendered)
             (analysisStatus next)).

Definition setPollInterval (v : option JsString) (s : State) : State :=
  {| analysisStatus := analysisStatus s; taskId := taskId s;
     analysisResultUrl := analysisResultUrl s;
     htmlReportContent := htmlReportContent s;
     statusMessage := statusMessage s; errorMessage := errorMessage s;
     chatMessages := chatMessages s; userInput := userInput s;
     reportRequirementsInput := reportRequirementsInput s;
     pollInterval := v |}.

(** A render: when a dependency changed, the cleanup of the polling effect
    clears the old interval and the effect sets a new one if its condition
    holds. *)
Definition commit (rendered next : State) : State :=
  if depsChanged rendered next then
    setPollInterval (if pollGuard next then taskId next else None) next
  else next.

(** [run rendered cur effs]: the effects [effs] on the state [cur], where
    [rendered] is the state of the last render; a render happens at each
    [Await] and at the end. *)
Fixpoint run (rendered cur : State) (effs : list Effect) : State :=
  match effs with
  | [] => commit rendered cur
  | Await :: rest => let c := commit rendered cur in run c c rest
  | e :: rest => run rendered (applyEffect cur e) rest
  end.

Definition dispatch (s : State) (effs : list Effect) : State := run s s effs.

(** The user presses the start button. *)
Definition startAnalysis (s : State) (reply : HttpReply StartData) : State :=
  dispatch s (handleStartAnalysis s reply).

(** One tick of the interval, the reply handled before anything else
    happens: nothing when no interval is set. (Ticks that overlap, and
    replies that arrive after the interval is cleared, are in [occur]
    below.) *)
Definition pollTick (s : State) (reply : HttpReply TaskStatusResponse)
  : State :=
  match pollInterval s with
  | Some tid => dispatch s (pollCallback tid reply)
  | None => s
  end.

(** The poll cycle over the successive replies of the backend, each
    handled before the next tick. *)
Definition pollCycle (s : State) (replies : list (HttpReply TaskStatusResponse))
  : State :=
  fold_left pollTick replies s.

(** The network calls of the poll cycle. *)
Fixpoint pollCalls (s : State) (replies : list (HttpReply TaskStatusResponse))
  : list Effect :=
  match replies with
  | [] => []
  | reply :: rest =>
      match pollInterval s with
      | Some tid => networkCalls (pollCallback tid reply)
      | None => []
      end ++ pollCalls (pollTick s reply) rest
  end.

(* ================================================================== *)
(** ** Conversation controller *)

(** [arr.push(x)] *)
Definition push {A : Type} (arr : list A) (x : A) : list A := arr ++ [x].

(** [arr.slice(-n)]: the last [n] elements, all of them when there are fewer. *)
Definition slice_last {A : Type} (n : nat) (arr : list A) : list A :=
  skipn (List.length arr - n) arr.

Definition systemInline : JsString :=
  Js.lit "You are an AI assistant. The user is viewing an HTML analysis report directly within their interface. Please answer their questions based on this document context that they are seeing. If a question seems unrelated to the document, use your general knowledge. Keep responses helpful and concise. The actual HTML content is: ".

Definition systemLinkBefore : JsString :=
  Js.lit "You are an AI assistant. The user has analyzed a document, and the analysis report is available at: ".

Definition systemLinkAfter : JsString :=
  Js.lit ". Please answer questions based on this document. If the question seems unrelated to the document, use your general knowledge. Keep responses helpful and concise.".

(** The system prompt logic: the inline report, else the link, else
    nothing. *)
Definition pushSystem (s : State) (apiMessages : list ApiMessage)
  : list ApiMessage :=
  let elseIfUrl :=
    match analysisResultUrl s with
    | Some url =>
        if Js.truthy url then
          push apiMessages
            {| role := role_system;
               content := systemLinkBefore ++ url ++ systemLinkAfter |}
        else apiMessages
    | None => apiMessages
    end in
  match htmlReportContent s with
  | Some html =>
      if Js.truthy html then
        push apiMessages
          {| role := role_system; content := systemInline ++ html |}
      else elseIfUrl
  | None => elseIfUrl
  end.

(** The body of the [forEach] over the recent history. *)
Definition pushHistory (apiMessages : list ApiMessage) (msg : ChatMessage)
  : list ApiMessage :=
  match sender msg with
  | user => push apiMessages {| role := role_user; content := text msg |}
  | bot => push apiMessages {| role := role_assistant; content := text msg |}
  end.

(** [msg.text.trim() !== ''] *)
Definition nonEmptyText (msg : ChatMessage) : bool :=
  negb (Js.eqb (Js.trim (text msg)) []).

(** The [apiMessages] of a turn, built from the state the handler closes
    over. *)
Definition buildApiMessages (s : State) (currentUserInput : JsString)
  : list ApiMessage :=
  let apiMessages := pushSystem s [] in
  let apiMessages :=
    fold_left pushHistory
      (slice_last 6 (filter nonEmptyText (chatMessages s))) apiMessages in
  push apiMessages {| role := role_user; content := currentUserInput |}.

(** [{ ...msg, text: t }] for the message with identifier [target], the
    message itself otherwise. *)
Definition setTextById (target t : JsString) (msg : ChatMessage)
  : ChatMessage :=
  if Js.eqb (id msg) target
  then {| id := id msg; sender := sender msg; text := t |}
  else msg.

(** [chunk.choices[0]?.delta?.content] *)
Definition chunkContent (chunk : Chunk) : option JsString :=
  match choices chunk with
  | c :: _ =>
      match delta c with
      | Some d => delta_content d
      | None => None
      end
  | [] => None
  end.

(** [chunk.choices[0]?.delta?.content || ""] *)
Definition contentDelta (chunk : Chunk) : JsString :=
  Js.opt_or_else (chunkContent chunk) [].

(** The [for await] loop over the stream, from the text accumulated so
    far. *)
Fixpoint streamLoop (botMessageId accumulatedBotText : JsString)
    (chunks : list Chunk) : list Effect :=
  match chunks with
  | [] => []
  | chunk :: rest =>
      Await ::
      if Js.truthy (contentDelta chunk) then
        let accumulatedBotText := accumulatedBotText ++ contentDelta chunk in
        SetChatMessages (map (setTextById botMessageId accumulatedBotText))
        :: streamLoop botMessageId accumulatedBotText rest
      else streamLoop botMessageId accumulatedBotText rest
  end.

(** The [catch] block of [handleSendMessage]. *)
Definition sendCatch (botMessageId : JsString) (e : Thrown) : list Effect :=
  let errorResponseMessage :=
    messageOf e (Js.lit "与大模型通信失败或处理回复时出错。") in
  [ SetChatMessages
      (map (setTextById botMessageId
              (Js.lit "错误: " ++ errorResponseMessage)));
    SetStatusMessage (Js.lit "消息发送或处理回复失败。");
    SetErrorMessage (Some errorResponseMessage) ].

(** [now1] and [now2] are the two readings of [Date.now()]. *)
Definition handleSendMessage (s : State) (now1 now2 : N)
    (reply : StreamReply) : list Effect :=
  if negb (Js.truthy (Js.trim (userInput s))) then []
  else
    let currentUserInput := userInput s in
    let newUserMessage :=
      {| id := Js.lit "user-" ++ Js.ofNumber now1;
         sender := user; text := currentUserInput |} in
    let apiMessages := buildApiMessages s currentUserInput in
    let botMessageId := Js.lit "bot-" ++ Js.ofNumber now2 in
    [ SetChatMessages (fun prevMessages => prevMessages ++ [newUserMessage]);
      SetUserInput [];
      SetStatusMessage (Js.lit "正在向大模型发送消息...");
      SetErrorMessage None;
      SetChatMessages
        (fun prevMessages =>
           prevMessages
           ++ [{| id := botMessageId; sender := bot; text := [] |}]);
      SetStatusMessage (Js.lit "大模型正在思考...");
      ChatCompletionsCreate apiMessages;
      Await ]
    ++ match reply with
       | CreateThrows e => sendCatch botMessageId e
       | Stream chunks StreamDone =>
           streamLoop botMessageId [] chunks
           ++ [ Await; SetStatusMessage (Js.lit "大模型已回复。") ]
       | Stream chunks (StreamThrows e) =>
           streamLoop botMessageId [] chunks
           ++ Await :: sendCatch botMessageId e
       end.

(** The user sends the text in the input box. *)
Definition sendMessage (s : State) (now1 now2 : N) (reply : StreamReply)
  : State :=
  dispatch s (handleSendMessage s now1 now2 reply).

(** One chat turn: the user types [typed] ([onChange]), then sends it. *)
Record Turn := {
  typed : JsString;
  clock1 : N;
  clock2 : N;
  reply : StreamReply
}.

Definition chatTurn (s : State) (t : Turn) : State :=
  sendMessage (dispatch s [SetUserInput (typed t)])
    (clock1 t) (clock2 t) (reply t).

(** A session of successive chat turns. *)
Definition chatSession (s : State) (turns : list Turn) : State :=
  fold_left chatTurn turns s.

(* ================================================================== *)
(** ** A session of the page *)

(** What can happen to the page: the user edits one of the two inputs,
    presses the start button, sends a chat text, or the interval ticks. *)
Inductive Event :=
| TypePrompt (v : JsString)
| TypeChat (v : JsString)
| PressStart (startReply : HttpReply StartData)
| Tick (pollReply : HttpReply TaskStatusResponse)
| Send (now1 now2 : N) (streamReply : StreamReply).

Definition step (s : State) (ev : Event) : State :=
  match ev with
  | TypePrompt v => dispatch s [SetReportRequirementsInput v]
  | TypeChat v => dispatch s [SetUserInput v]
  | PressStart startReply => startAnalysis s startReply
  | Tick pollReply => pollTick s pollReply
  | Send now1 now2 streamReply => sendMessage s now1 now2 streamReply
  end.

(** The state of the page after the events, from the first render. *)
Definition session (events : list Event) : State :=
  fold_left step events initialState.

(** The interval, when set, polls the task of the state. *)
Definition intervalMatchesTask (s : State) : Prop :=
  forall tid, pollInterval s = Some tid -> taskId s = Some tid.

(* ================================================================== *)
(** ** Notions used in the statements *)

(** The state fields of interest, without the interval. *)
Definition sameFields (a b : State) : Prop :=
  analysisStatus a = analysisStatus b /\ taskId a = taskId b
  /\ analysisResultUrl a = analysisResultUrl b
  /\ htmlReportContent a = htmlReportContent b
  /\ statusMessage a = statusMessage b /\ errorMessage a = errorMessage b
  /\ chatMessages a = chatMessages b /\ userInput a = userInput b
  /\ reportRequirementsInput a = reportRequirementsInput b.

(** The effects end with [setTaskId(null); clearInterval(intervalId)]. *)
Fixpoint endsStopping (effs : list Effect) : bool :=
  match effs with
  | [] => false
  | [SetTaskId None; ClearInterval] => true
  | _ :: rest => endsStopping rest
  end.

(** A reply after which the poll cycle goes on: a parsed body whose status
    is [pending] or [processing]. *)
Definition continues (reply : HttpReply TaskStatusResponse) : bool :=
  match reply with
  | Ok (BodyJson data) =>
      match status data with
      | task_pending | task_processing => true
      | task_completed | task_failed => false
      end
  | _ => false
  end.

(** Polling has stopped in [s]: the task identifier is null, no interval is
    set, and whatever the backend would answer, no further tick changes the
    state or issues a request. *)
Definition pollingStopped (s : State) : Prop :=
  taskId s = None /\ pollInterval s = None
  /\ forall more, pollCycle s more = s /\ pollCalls s more = [].

(* ================================================================== *)
(** ** Concrete runs *)

Module Sample.

Definition taskAbc : JsString := Js.lit "abc123".

(** The first render, the default prompt submitted and accepted as task
    [abc123]. *)
Definition submitted : State :=
  startAnalysis initialState
    (Ok (BodyJson {| new_task_id := Some taskAbc |})).

Definition statusBody (st : BackendTaskActualStatus) (msg : JsString)
    (url html details : option JsString) : TaskStatusResponse :=
  {| task_id := taskAbc; status := st; message := msg;
     html_url := url; html_content := html; error_details := details |}.

Definition stillProcessing : HttpReply TaskStatusResponse :=
  Ok (BodyJson (statusBody task_processing (Js.lit "working") None None None)).

Definition okReport : TaskStatusResponse :=
  statusBody task_completed [] None (Some (Js.lit "<h1>OK</h1>")) None.

Definition linkedReport : TaskStatusResponse :=
  statusBody task_completed [] (Some (Js.lit "/reports/abc123.html")) None
    None.

Definition parseFailure : TaskStatusResponse :=
  statusBody task_failed (Js.lit "failed") None None
    (Some (Js.lit "parse error")).

(** [completed] with [html_content: ""] and no [html_url]. *)
Definition emptyInline : TaskStatusResponse :=
  statusBody task_completed [] None (Some []) None.

(** [completed] with no [html_content] and [html_url: ""]. *)
Definition emptyLink : TaskStatusResponse :=
  statusBody task_completed [] (Some []) None None.

(** [completed] with neither [html_content] nor [html_url]. *)
Definition noReport : TaskStatusResponse :=
  statusBody task_completed (Js.lit "done") None None None.

(** [failed] with no [error_details] and [message: ""]. *)
Definition silentFailure : TaskStatusResponse :=
  statusBody task_failed [] None None None.

(** The report of [okReport] on display. *)
Definition reportShown : State :=
  pollCycle submitted [stillProcessing; stillProcessing; Ok (BodyJson okReport)].

Definition chunkOf (t : JsString) : Chunk :=
  {| choices := [ {| delta := Some {| delta_content := Some t |} |} ] |}.

Definition turnAt (now : N) (question : JsString) (answer : list JsString)
  : Turn :=
  {| typed := question; clock1 := now; clock2 := now;
     reply := Stream (map chunkOf answer) StreamDone |}.

End Sample.


(** What an effect does to the transcript. *)
Definition chatApply (transcript : list ChatMessage) (e : Effect)
  : list ChatMessage :=
  match e with
  | SetChatMessages f => f transcript
  | _ => transcript
  end.

(** The transcript of a turn in progress: the entries [prior] that were
    there before the turn, at their places and with their senders, then the
    user's entry, then the single entry of the bot holding the text
    accumulated so far. *)
Definition turnShape (prior : list ChatMessage) (userMessage : ChatMessage)
    (botMessageId accumulated : JsString) (transcript : list ChatMessage)
  : Prop :=
  exists hist,
    transcript
    = hist ++ [ userMessage;
                {| id := botMessageId; sender := bot; text := accumulated |} ]
    /\ List.length hist = List.length prior
    /\ map sender hist = map sender prior.

(* ================================================================== *)
(** ** Notions of the specification *)

(** A result payload is set: the inline HTML or the remote URL. *)
Definition resultSet (s : State) : bool :=
  match htmlReportContent s, analysisResultUrl s with
  | None, None => false
  | _, _ => true
  end.

(** An error detail is set. *)
Definition errorSet (s : State) : bool :=
  match errorMessage s with
  | Some _ => true
  | None => false
  end.

(** [completed] with neither a non-empty [html_content] nor a non-empty
    [html_url]. *)
Definition completedWithoutReport (data : TaskStatusResponse) : bool :=
  match status data with
  | task_completed =>
      negb (Js.opt_truthy (html_content data))
      && negb (Js.opt_truthy (html_url data))
  | _ => false
  end.


(** The history entry of a transcript entry: the user's turns keep the role
    [user], the bot's get the role [assistant]. *)
Definition historyEntry (msg : ChatMessage) : ApiMessage :=
  {| role := match sender msg with user => role_user | bot => role_assistant end;
     content := text msg |}.

(** The number of transcript entries of the bot. *)
Definition botEntries (transcript : list ChatMessage) : nat :=
  List.length
    (filter (fun msg => match sender msg with bot => true | user => false end)
       transcript).

(** The identifiers a turn gives to its two transcript entries; a turn whose
    text is blank adds no entry. *)
Definition turnIds (t : Turn) : list JsString :=
  if Js.truthy (Js.trim (typed t)) then
    [ Js.lit "user-" ++ Js.ofNumber (clock1 t);
      Js.lit "bot-" ++ Js.ofNumber (clock2 t) ]
  else [].

Module Scenario.

(** The report of [Sample.okReport] on display, and a blank prompt typed
    into the requirements box. *)
Definition blankPrompt : State :=
  dispatch Sample.reportShown [SetReportRequirementsInput (Js.lit "  ")].

(** The same, with a blank text typed into the chat box. *)
Definition blankChat : State :=
  dispatch Sample.reportShown [SetUserInput (Js.lit "  ")].

(** The report on display and a question typed into the chat box. *)
Definition asking : State :=
  dispatch Sample.reportShown [SetUserInput (Js.lit "hi")].

(** Three chunks, the second without a choice. *)
Definition threeChunks : list Chunk :=
  [ Sample.chunkOf (Js.lit "a"); {| choices := [] |};
    Sample.chunkOf (Js.lit "b") ].

(** A transcript of eight entries, the third one blank, and a question
    typed into the chat box. *)
Definition longTranscript : State :=
  dispatch Sample.reportShown
    [ SetChatMessages
        (fun _ =>
           map (fun n =>
                  {| id := Js.lit "m-" ++ Js.ofNumber n;
                     sender := if N.even n then user else bot;
                     text := if n =? 2 then Js.lit " "
                             else Js.lit "t" ++ Js.ofNumber n |})
             [0; 1; 2; 3; 4; 5; 6; 7]);
      SetUserInput (Js.lit "next") ].

(** Two turns whose clock readings are all 1000. *)
Definition sameClockTurns : list Turn :=
  [ Sample.turnAt 1000 (Js.lit "hi") [Js.lit "a"; Js.lit "b"];
    Sample.turnAt 1000 (Js.lit "yo") [Js.lit "c"] ].

(** Two turns with increasing clock readings. *)
Definition laterClockTurns : list Turn :=
  [ Sample.turnAt 1000 (Js.lit "hi") [Js.lit "a"; Js.lit "b"];
    Sample.turnAt 2000 (Js.lit "yo") [Js.lit "c"] ].

End Scenario.

(* ================================================================== *)
(** ** What the page shows *)

(** The conditions of the JSX of the page, on the rendered state. *)

(** [analysisStatus === 'error' && errorMessage]: the line with the error
    detail under the status message. *)
Definition showsErrorDetail (s : State) : bool :=
  FrontendAnalysisStatus_eqb (analysisStatus s) error
  && Js.opt_truthy (errorMessage s).

(** [analysisStatus !== 'success']: the requirements box, the upload area
    and the start button. *)
Definition showsStartControls (s : State) : bool :=
  negb (FrontendAnalysisStatus_eqb (analysisStatus s) success).

(** The [disabled] attribute of the start button. *)
Definition startButtonDisabled (s : State) : bool :=
  FrontendAnalysisStatus_eqb (analysisStatus s) loading
  || FrontendAnalysisStatus_eqb (analysisStatus s) processing
  || negb (Js.truthy (Js.trim (reportRequirementsInput s))).

(** [analysisStatus === 'success' && (htmlReportContent ||
    analysisResultUrl)]: the section with the result frame. *)
Definition showsResult (s : State) : bool :=
  FrontendAnalysisStatus_eqb (analysisStatus s) success
  && (Js.opt_truthy (htmlReportContent s)
      || Js.opt_truthy (analysisResultUrl s)).

(** What the result frame loads: the inline content ([srcDoc]) or the
    address ([src]). *)
Inductive FrameSource :=
| SrcDoc (html : JsString)
| Src (url : JsString).

(** [htmlReportContent ? <iframe srcDoc> : analysisResultUrl ? <iframe src>
    : null] *)
Definition resultFrame (s : State) : option FrameSource :=
  let elseUrl :=
    match analysisResultUrl s with
    | Some url => if Js.truthy url then Some (Src url) else None
    | None => None
    end in
  match htmlReportContent s with
  | Some html => if Js.truthy html then Some (SrcDoc html) else elseUrl
  | None => elseUrl
  end.

(** [(analysisStatus === 'loading' || analysisStatus === 'processing') &&
    !analysisResultUrl && !htmlReportContent]: the spinner. *)
Definition showsSpinner (s : State) : bool :=
  (FrontendAnalysisStatus_eqb (analysisStatus s) loading
   || FrontendAnalysisStatus_eqb (analysisStatus s) processing)
  && negb (Js.opt_truthy (analysisResultUrl s))
  && negb (Js.opt_truthy (htmlReportContent s)).

(** [analysisStatus === 'success']: the chat section. *)
Definition showsChat (s : State) : bool :=
  FrontendAnalysisStatus_eqb (analysisStatus s) success.

(** The [disabled] attribute of the send button. *)
Definition sendButtonDisabled (s : State) : bool :=
  negb (Js.truthy (Js.trim (userInput s)))
  || negb (FrontendAnalysisStatus_eqb (analysisStatus s) success).

(** The event can come from the page as shown: the requirements box and the
    start button are in the start controls, and the button must not be
    disabled; the chat box is in the chat section, and so is the Enter key
    that calls [handleSendMessage] (the send button asks in addition for a
    non-blank text, which the handler checks itself); the interval ticks
    on its own. *)
Definition offered (s : State) (ev : Event) : bool :=
  match ev with
  | TypePrompt _ => showsStartControls s
  | PressStart _ => showsStartControls s && negb (startButtonDisabled s)
  | TypeChat _ => showsChat s
  | Send _ _ _ => showsChat s
  | Tick _ => true
  end.

(** An event that the page does not offer does not happen. *)
Definition pageStep (s : State) (ev : Event) : State :=
  if offered s ev then step s ev else s.

(** The page is at rest in a coherent state. *)
Record coherent (s : State) : Prop := {
  coherent_not_loading : analysisStatus s <> loading;
  coherent_task : taskId s <> None -> analysisStatus s = processing;
  coherent_interval :
    pollInterval s
    = if FrontendAnalysisStatus_eqb (analysisStatus s) processing
         && Js.opt_truthy (taskId s)
      then taskId s else None;
  coherent_result : resultSet s = true -> analysisStatus s = success;
  coherent_transcript : chatMessages s <> [] -> analysisStatus s = success
}.

(** The effect touches neither the dependencies of the polling effect nor
    the interval. *)
Definition inert (e : Effect) : bool :=
  match e with
  | SetAnalysisStatus _ | SetTaskId _ | ClearInterval => false
  | _ => true
  end.

Definition notAwait (e : Effect) : bool :=
  match e with
  | Await => false
  | _ => true
  end.

(** The interval is set for the task [tid] of the state. *)
Definition polling (s : State) (tid : JsString) : Prop :=
  pollInterval s = Some tid /\ taskId s = Some tid /\ tid <> [].

(** The request of a tick for the task [tid]. *)
Definition statusRequest (tid : JsString) : Effect :=
  Fetch (Get (BACKEND_URL ++ Js.lit "/api/analysis-status/" ++ tid)).

(** The text of the last transcript entry. *)
Definition lastText (transcript : list ChatMessage) : JsString :=
  List.last (map text transcript) [].

(* ================================================================== *)
(** ** Uploaded files *)

Module Upload.

(** The two properties of a [File] the page reads. *)
Record File := {
  name : JsString;
  size : N
}.

(** The file upload state. *)
Record UploadState := {
  uploadedFiles : list File;
  isDraggingOver : bool
}.

Definition initial : UploadState :=
  {| uploadedFiles := []; isDraggingOver := false |}.

(** [files] is [event.target.files], null or a list. *)
Definition handleFileSelect (files : option (list File)) (u : UploadState)
  : UploadState :=
  match files with
  | Some selected =>
      {| uploadedFiles := uploadedFiles u ++ selected;
         isDraggingOver := isDraggingOver u |}
  | None => u
  end.

Definition handleDragOver (u : UploadState) : UploadState :=
  {| uploadedFiles := uploadedFiles u; isDraggingOver := true |}.

Definition handleDragLeave (u : UploadState) : UploadState :=
  {| uploadedFiles := uploadedFiles u; isDraggingOver := false |}.

(** [files] is [event.dataTransfer.files]. *)
Definition handleDrop (files : option (list File)) (u : UploadState)
  : UploadState :=
  match files with
  | Some (f :: rest) =>
      {| uploadedFiles := uploadedFiles u ++ f :: rest;
         isDraggingOver := false |}
  | _ => {| uploadedFiles := uploadedFiles u; isDraggingOver := false |}
  end.

Definition removeFile (fileName : JsString) (u : UploadState)
  : UploadState :=
  {| uploadedFiles :=
       filter (fun file => negb (Js.eqb (name file) fileName))
         (uploadedFiles u);
     isDraggingOver := isDraggingOver u |}.

(** What the user does in the upload area. *)
Inductive Action :=
| Select (files : option (list File))
| DragOver
| DragLeave
| Drop (files : option (list File))
| Remove (fileName : JsString).

Definition act (u : UploadState) (a : Action) : UploadState :=
  match a with
  | Select files => handleFileSelect files u
  | DragOver => handleDragOver u
  | DragLeave => handleDragLeave u
  | Drop files => handleDrop files u
  | Remove fileName => removeFile fileName u
  end.

(** The files an action brings. *)
Definition brought (a : Action) : list File :=
  match a with
  | Select (Some files) | Drop (Some files) => files
  | _ => []
  end.

End Upload.

(* ================================================================== *)
(** ** Notions used for the replies *)

(** The request ends in the caught value [e]: [fetch] throws it, or
    reading the body throws it, or the status is not a success and the
    error is made from the body. *)
Inductive transportFailure {A : Type} : HttpReply A -> Thrown -> Prop :=
| failure_fetch (e : Thrown) : transportFailure (FetchThrows e) e
| failure_body (e : Thrown) : transportFailure (Ok (BodyThrows e)) e
| failure_status_body (httpStatus : N) (e : Thrown) :
    transportFailure (NotOk httpStatus (BodyThrows e)) e
| failure_status (httpStatus : N) (errorData : ErrorData) :
    transportFailure (NotOk httpStatus (BodyJson errorData))
      (httpError httpStatus errorData).

(** No state is written before the last suspension of the handler. *)
Fixpoint settled (effs : list Effect) : bool :=
  match effs with
  | [] => true
  | Fetch _ :: rest | ChatCompletionsCreate _ :: rest | Await :: rest =>
      settled rest
  | _ :: _ => forallb notAwait effs
  end.

(** The effect writes none of the transcript, the chat box and the
    requirements box. *)
Definition lifecycleOnly (e : Effect) : bool :=
  match e with
  | SetChatMessages _ | SetUserInput _ | SetReportRequirementsInput _ => false
  | _ => true
  end.

(** The effect writes none of the status, the task identifier, the two
    result fields and the requirements box, leaves the interval alone and
    sends nothing to the backend. *)
Definition conversationOnly (e : Effect) : bool :=
  match e with
  | SetAnalysisStatus _ | SetTaskId _ | SetAnalysisResultUrl _
  | SetHtmlReportContent _ | SetReportRequirementsInput _
  | ClearInterval | Fetch _ => false
  | _ => true
  end.

Module Scenario2.



End Scenario2.

(* ================================================================== *)
(** ** Notions used for the chat turns *)

(** The chat request fails with the caught value [e]: [create] throws it,
    or the stream throws it after some chunks. *)
Inductive streamFailure : StreamReply -> Thrown -> Prop :=
| failure_create (e : Thrown) : streamFailure (CreateThrows e) e
| failure_stream (chunks : list Chunk) (e : Thrown) :
    streamFailure (Stream chunks (StreamThrows e)) e.

(** The text the entry of the bot is left with: the deltas of the chunks in
    order when the stream ends, the error marker followed by the message of
    the failure otherwise. *)
Definition finalBotText (streamReply : StreamReply) : JsString :=
  match streamReply with
  | Stream chunks StreamDone => List.concat (map contentDelta chunks)
  | CreateThrows e | Stream _ (StreamThrows e) =>
      Js.lit "错误: "
      ++ messageOf e (Js.lit "与大模型通信失败或处理回复时出错。")
  end.

(** The number of system entries a chat request starts with: one when the
    result frame has something to display, none otherwise. *)
Definition systemEntries (s : State) : nat :=
  match resultFrame s with
  | Some _ => 1
  | None => 0
  end.

Module UploadSample.

Definition reportPdf : Upload.File :=
  {| Upload.name := Js.lit "report.pdf"; Upload.size := 2048 |}.

Definition notesTxt : Upload.File :=
  {| Upload.name := Js.lit "notes.txt"; Upload.size := 10 |}.

(** A second file with the name of [reportPdf]. *)
Definition reportPdfAgain : Upload.File :=
  {| Upload.name := Js.lit "report.pdf"; Upload.size := 4096 |}.

Definition twoFiles : Upload.UploadState :=
  {| Upload.uploadedFiles := [notesTxt];
     Upload.isDraggingOver := true |}.

End UploadSample.

(* ================================================================== *)
(** ** The earlier revision of the submission *)

(** [handleStartAnalysis] of [test-ui/app/routes/ChatbotPage.tsx]. That
    page has no requirements box: its state is the state above without
    [reportRequirementsInput], which the handler neither reads nor
    writes. *)
Module TestUi.

(** What the handler does: an effect of the page, or its request, a POST
    without headers and body. *)
Inductive Step :=
| Do (e : Effect)
| PostEmpty (url : JsString).

Definition handleStartAnalysis (reply : HttpReply StartData) : list Step :=
  map Do startReset ++
  PostEmpty (BACKEND_URL ++ Js.lit "/api/start-dummy-analysis")
  :: Do Await
  :: map Do
       match reply with
       | FetchThrows e => startCatch e
       | NotOk httpStatus body =>
           Await ::
           match body with
           | BodyThrows e => startCatch e
           | BodyJson errorData => startCatch (httpError httpStatus errorData)
           end
       | Ok body =>
           Await ::
           match body with
           | BodyThrows e => startCatch e
           | BodyJson data =>
               [ SetTaskId (new_task_id data);
                 SetAnalysisStatus processing;
                 SetStatusMessage (Js.lit "分析任务已启动，正在处理中...") ]
           end
       end.

(** The effects on the page. *)
Fixpoint effectsOf (steps : list Step) : list Effect :=
  match steps with
  | [] => []
  | Do e :: rest => e :: effectsOf rest
  | PostEmpty _ :: rest => effectsOf rest
  end.

(** The addresses requested. *)
Fixpoint requestsOf (steps : list Step) : list JsString :=
  match steps with
  | [] => []
  | Do _ :: rest => requestsOf rest
  | PostEmpty url :: rest => url :: requestsOf rest
  end.

Definition startAnalysis (s : State) (reply : HttpReply StartData) : State :=
  dispatch s (effectsOf (handleStartAnalysis reply)).

(** The [disabled] attribute of the start button of that page. *)
Definition startButtonDisabled (s : State) : bool :=
  FrontendAnalysisStatus_eqb (analysisStatus s) loading
  || FrontendAnalysisStatus_eqb (analysisStatus s) processing.

End TestUi.

(* ================================================================== *)
(** ** What a chunk brings and which entries count *)

(** What a chunk of the stream brings: a text delta in its first choice
    (whatever else it carries), or none because it has no choice, or its
    first choice has no delta, or that delta has no content. *)
Inductive Arrival :=
| WithText (t : JsString) (others : list Choice)
| NoChoice
| NoDelta (others : list Choice)
| NoContent (others : list Choice).

(** The chunk of an arrival. *)
Definition arrivalChunk (a : Arrival) : Chunk :=
  match a with
  | WithText t others =>
      {| choices :=
           {| delta := Some {| delta_content := Some t |} |} :: others |}
  | NoChoice => {| choices := [] |}
  | NoDelta others => {| choices := {| delta := None |} :: others |}
  | NoContent others =>
      {| choices :=
           {| delta := Some {| delta_content := None |} |} :: others |}
  end.

(** The text delta of an arrival, empty when it brings none. *)
Definition arrivalText (a : Arrival) : JsString :=
  match a with
  | WithText t _ => t
  | _ => []
  end.

(** The text of the entry is neither empty nor made of whitespace only. *)
Definition hasText (msg : ChatMessage) : bool := negb (Js.blank (text msg)).

Module Scenario3.

(** The arrivals of [Scenario.threeChunks]. *)
Definition threeArrivals : list Arrival :=
  [ WithText (Js.lit "a") []; NoChoice; WithText (Js.lit "b") [] ].

End Scenario3.

Module UploadSample2.

(** A file with a third name. *)
Definition dataCsv : Upload.File :=
  {| Upload.name := Js.lit "data.csv"; Upload.size := 77 |}.

(** [report.pdf] picked twice, between files of other names. *)
Definition fourFiles : Upload.UploadState :=
  {| Upload.uploadedFiles :=
       [ UploadSample.notesTxt; UploadSample.reportPdf; dataCsv;
         UploadSample.reportPdfAgain ];
     Upload.isDraggingOver := false |}.

End UploadSample2.

(* ================================================================== *)
(** ** Status requests in flight *)

(** The callback of the interval is asynchronous: when the interval fires,
    the request goes out, and its reply is handled when it arrives,
    whenever that is, by the callback that issued it, with the task
    identifier that callback closed over; nothing keeps the interval from
    firing again while a request is out, and clearing the interval does not
    cancel a request that is out. [inFlight] holds the requests that are
    out, oldest first, each with the task identifier of its callback. The
    callback writes to the state only after its last [await], so that
    handling a reply is one step. Its [clearInterval] names the interval of
    the effect run that created it; an interval is only ever set for the
    task identifier of the render, and every callback that clears also sets
    the task identifier to null, so that the render that follows clears
    whatever interval is set then: [ClearInterval] stands for both. *)
Record Page := {
  shown : State;
  inFlight : list JsString
}.

(** The page of the first render. *)
Definition firstPage : Page := {| shown := initialState; inFlight := [] |}.

(** What happens on the page: the user's events (their handlers taken as
    one step each), the interval firing, and the arrival of the reply to
    the [n]-th request that is out. *)
Inductive Occurrence :=
| PromptTyped (v : JsString)
| ChatTyped (v : JsString)
| StartPressed (startReply : HttpReply StartData)
| MessageSent (now1 now2 : N) (streamReply : StreamReply)
| IntervalFires
| ReplyArrives (n : nat) (pollReply : HttpReply TaskStatusResponse).

(** The list without its [n]-th element. *)
Definition dropNth {A : Type} (n : nat) (l : list A) : list A :=
  firstn n l ++ skipn (S n) l.

(** One occurrence. A user event happens if the page offers it. The
    interval fires only when it is set, and then a request goes out. An
    arriving reply is handled by the callback of its request whether or not
    an interval is still set (the request itself, first in the effects of
    the callback, went out when the interval fired). *)
Definition occur (p : Page) (o : Occurrence) : Page :=
  match o with
  | IntervalFires =>
      match pollInterval (shown p) with
      | Some tid => {| shown := shown p; inFlight := inFlight p ++ [tid] |}
      | None => p
      end
  | ReplyArrives n pollReply =>
      match nth_error (inFlight p) n with
      | Some tid =>
          {| shown := dispatch (shown p) (pollCallback tid pollReply);
             inFlight := dropNth n (inFlight p) |}
      | None => p
      end
  | PromptTyped v =>
      {| shown := pageStep (shown p) (TypePrompt v); inFlight := inFlight p |}
  | ChatTyped v =>
      {| shown := pageStep (shown p) (TypeChat v); inFlight := inFlight p |}
  | StartPressed startReply =>
      {| shown := pageStep (shown p) (PressStart startReply);
         inFlight := inFlight p |}
  | MessageSent now1 now2 streamReply =>
      {| shown := pageStep (shown p) (Send now1 now2 streamReply);
         inFlight := inFlight p |}
  end.

Definition occurAll (p : Page) (os : list Occurrence) : Page :=
  fold_left occur os p.

(** The status requests that go out during the occurrences. *)
Fixpoint statusRequests (p : Page) (os : list Occurrence) : list Effect :=
  match os with
  | [] => []
  | o :: rest =>
      match o, pollInterval (shown p) with
      | IntervalFires, Some tid => [statusRequest tid]
      | _, _ => []
      end ++ statusRequests (occur p o) rest
  end.

(** During the occurrences the interval never fires while a request is
    out: every reply arrives before the next tick. *)
Fixpoint repliesInTime (p : Page) (os : list Occurrence) : bool :=
  match os with
  | [] => true
  | o :: rest =>
      match o, inFlight p with
      | IntervalFires, _ :: _ => false
      | _, _ => true
      end && repliesInTime (occur p o) rest
  end.

(** The occurrences of a poll cycle in which every reply arrives before
    the next tick. *)
Definition inTurn (replies : list (HttpReply TaskStatusResponse))
  : list Occurrence :=
  flat_map (fun reply => [IntervalFires; ReplyArrives 0 reply]) replies.

(** The effect never sets a task identifier. *)
Definition setsNoTask (e : Effect) : bool :=
  match e with
  | SetTaskId (Some _) => false
  | _ => true
  end.

(** The occurrence is no press of the start button. *)
Definition noSubmission (o : Occurrence) : bool :=
  match o with
  | StartPressed _ => false
  | _ => true
  end.

(** With nothing out, or one request out for the task the interval is set
    for. *)
Definition oneAtMost (p : Page) : Prop :=
  inFlight p = []
  \/ exists tid, inFlight p = [tid] /\ pollInterval (shown p) = Some tid.

Module Scenario4.

(** A submission, two ticks before the first reply, a [completed] reply to
    the first request and then a 404 to the second. *)
Definition overlapping : list Occurrence :=
  [ StartPressed (Ok (BodyJson {| new_task_id := Some Sample.taskAbc |}));
    IntervalFires; IntervalFires;
    ReplyArrives 0 (Ok (BodyJson Sample.okReport));
    ReplyArrives 0 (NotOk 404 (BodyThrows ThrownOther)) ].

(** A submission and a poll cycle whose replies arrive in time, then what
    the user may try. *)
Definition orderly : list Occurrence :=
  StartPressed (Ok (BodyJson {| new_task_id := Some Sample.taskAbc |}))
  :: inTurn [Sample.stillProcessing; Ok (BodyJson Sample.okReport)].

Definition afterwards : list Occurrence :=
  [ PromptTyped (Js.lit "again");
    StartPressed (Ok (BodyJson {| new_task_id := Some (Js.lit "t2") |}));
    IntervalFires;
    ReplyArrives 0 (Ok (BodyJson Sample.parseFailure));
    ChatTyped (Js.lit "hi");
    MessageSent 1000 1001 (CreateThrows (ThrownError (Js.lit "down"))) ].

(** The report on display, with a request of an earlier tick still out. *)
Definition lateReplyPending : Page :=
  occurAll firstPage
    [ StartPressed (Ok (BodyJson {| new_task_id := Some Sample.taskAbc |}));
      IntervalFires; IntervalFires;
      ReplyArrives 0 (Ok (BodyJson Sample.okReport)) ].

(** What may still happen then, short of a new submission. *)
Definition lateReplies : list Occurrence :=
  [ IntervalFires;
    ReplyArrives 0 Sample.stillProcessing;
    IntervalFires;
    MessageSent 1000 1001 (Stream [] StreamDone);
    IntervalFires ].

End Scenario4.
(* ================================================================== *)
(** ** Sanity checks *)

Example lit_ascii : Js.lit "bot-" = [98; 111; 116; 45].
Proof. reflexivity. Qed.

Example lit_cjk : Js.lit "任务ID" = [0x4EFB; 0x52A1; 73; 68].
Proof. reflexivity. Qed.

Example ofNumber_404 : Js.ofNumber 404 = Js.lit "404".
Proof. reflexivity. Qed.

Example trim_example : Js.trim (Js.lit "  a b  ") = Js.lit "a b".
Proof. reflexivity. Qed.

(** The scenarios of the specification. *)
Example scenario_completed :
  let s := Sample.reportShown in
  analysisStatus s = success
  /\ htmlReportContent s = Some (Js.lit "<h1>OK</h1>")
  /\ taskId s = None.
Proof. vm_compute. repeat split. Qed.

Example scenario_failed :
  let s := pollCycle Sample.submitted [Ok (BodyJson Sample.parseFailure)] in
  analysisStatus s = error
  /\ errorMessage s = Some (Js.lit "parse error")
  /\ taskId s = None.
Proof. vm_compute. repeat split. Qed.

(* ================================================================== *)
(** ** Facts about strings *)

Module JsFacts.

Lemma eqb_eq (a b : JsString) : Js.eqb a b = true <-> a = b.
Proof.
  unfold Js.eqb. destruct (list_eq_dec N.eq_dec a b); split; intros H;
    congruence.
Qed.

Lemma eqb_refl (a : JsString) : Js.eqb a a = true.
Proof. apply eqb_eq. reflexivity. Qed.

Lemma eqb_neq (a b : JsString) : a <> b -> Js.eqb a b = false.
Proof.
  intros H. destruct (Js.eqb a b) eqn:E; [|reflexivity].
  apply eqb_eq in E. contradiction.
Qed.

Lemma truthy_true (s : JsString) : Js.truthy s = true <-> s <> [].
Proof. destruct s; simpl; split; intros H; congruence. Qed.

Lemma or_else_truthy (a b : JsString) :
  b <> [] -> Js.or_else a b <> [].
Proof. intros Hb. unfold Js.or_else. destruct a; simpl; congruence. Qed.

Lemma opt_or_else_truthy (a : option JsString) (b : JsString) :
  b <> [] -> Js.opt_or_else a b <> [].
Proof.
  intros Hb. destruct a as [a|]; simpl; [apply or_else_truthy|]; assumption.
Qed.

Lemma trimStart_blank (s : JsString) :
  Js.blank s = true -> Js.trimStart s = [].
Proof.
  induction s as [|c r IH]; simpl; [reflexivity|].
  intros H. apply andb_true_iff in H. destruct H as [Hc Hr].
  rewrite Hc. apply IH, Hr.
Qed.

(** A whitespace-only string trims to the empty string. *)
Lemma trim_blank (s : JsString) : Js.blank s = true -> Js.trim s = [].
Proof.
  intros H. unfold Js.trim, Js.trimEnd.
  rewrite (trimStart_blank _ H). reflexivity.
Qed.

Lemma digits_inj (d d' : Decimal.uint) :
  Js.digits d = Js.digits d' -> d = d'.
Proof.
  revert d'. induction d; intros d' H; destruct d'; simpl in H;
    try discriminate; try reflexivity;
    injection H as H; f_equal; apply IHd; exact H.
Qed.

Lemma trimStart_empty_blank (s : JsString) :
  Js.trimStart s = [] -> Js.blank s = true.
Proof.
  induction s as [|c r IH]; simpl; [reflexivity|].
  destruct (Js.isWhiteSpace c); [exact IH | discriminate].
Qed.

Lemma trimStart_fixed (s : JsString) :
  Js.trimStart s = []
  \/ exists c r, Js.trimStart s = c :: r /\ Js.isWhiteSpace c = false.
Proof.
  induction s as [|c r IH]; simpl; [left; reflexivity|].
  destruct (Js.isWhiteSpace c) eqn:Hc; [exact IH|].
  right. exists c, r. split; [reflexivity | exact Hc].
Qed.

Lemma blank_rev (s : JsString) : Js.blank (rev s) = Js.blank s.
Proof.
  unfold Js.blank. induction s as [|c r IH]; simpl; [reflexivity|].
  rewrite forallb_app, IH. simpl. rewrite andb_true_r. apply andb_comm.
Qed.

(** The test [!s.trim()] of the source holds exactly for the empty and the
    whitespace-only strings. *)
Lemma trim_empty_iff_blank (s : JsString) :
  Js.truthy (Js.trim s) = false <-> Js.blank s = true.
Proof.
  split.
  - intros H. destruct (Js.trim s) eqn:Htrim; [|discriminate]. clear H.
    unfold Js.trim, Js.trimEnd in Htrim.
    assert (Hrev : Js.trimStart (rev (Js.trimStart s)) = []).
    { rewrite <- (rev_involutive (Js.trimStart (rev (Js.trimStart s)))).
      rewrite Htrim. reflexivity. }
    apply trimStart_empty_blank in Hrev. rewrite blank_rev in Hrev.
    destruct (trimStart_fixed s) as [Hs | (c & r & Hs & Hc)].
    + apply trimStart_empty_blank, Hs.
    + rewrite Hs in Hrev. simpl in Hrev. rewrite Hc in Hrev. discriminate.
  - intros H. rewrite (trim_blank _ H). reflexivity.
Qed.

(** Two numbers with the same decimal rendering are equal. *)
Lemma ofNumber_inj (n m : N) : Js.ofNumber n = Js.ofNumber m -> n = m.
Proof.
  unfold Js.ofNumber. intros H.
  apply DecimalN.Unsigned.to_uint_inj, digits_inj, H.
Qed.

End JsFacts.

(* ================================================================== *)
(** ** Facts about renders and runs *)

Lemma FrontendAnalysisStatus_eqb_refl (a : FrontendAnalysisStatus) :
  FrontendAnalysisStatus_eqb a a = true.
Proof. destruct a; reflexivity. Qed.

Lemma opt_eqb_refl (a : option JsString) : opt_eqb a a = true.
Proof. destruct a; simpl; [apply JsFacts.eqb_refl|reflexivity]. Qed.

Lemma opt_eqb_eq (a b : option JsString) : opt_eqb a b = true -> a = b.
Proof.
  destruct a, b; simpl; intros H; try discriminate; [|reflexivity].
  apply JsFacts.eqb_eq in H. congruence.
Qed.

Lemma depsChanged_same (s : State) : depsChanged s s = false.
Proof.
  unfold depsChanged.
  rewrite opt_eqb_refl, FrontendAnalysisStatus_eqb_refl. reflexivity.
Qed.

(** A render with no change is the identity. *)
Lemma commit_same (s : State) : commit s s = s.
Proof. unfold commit. rewrite depsChanged_same. reflexivity. Qed.

(** Once the task identifier is null and the interval cleared, a render
    sets no interval. *)
Lemma commit_stopped (rendered s : State) :
  taskId s = None -> pollInterval s = None -> commit rendered s = s.
Proof.
  intros Ht Hp. unfold commit, pollGuard. rewrite Ht. simpl.
  destruct s; simpl in *; subst.
  destruct (depsChanged _ _); reflexivity.
Qed.

(** A render only touches the interval. *)
Lemma commit_eq (rendered s : State) :
  commit rendered s = setPollInterval (pollInterval (commit rendered s)) s.
Proof.
  unfold commit. destruct (depsChanged rendered s); [reflexivity|].
  destruct s; reflexivity.
Qed.

Lemma sameFields_refl (a : State) : sameFields a a.
Proof. repeat split. Qed.

Lemma sameFields_trans (a b c : State) :
  sameFields a b -> sameFields b c -> sameFields a c.
Proof.
  unfold sameFields. intros H1 H2.
  decompose [and] H1. decompose [and] H2. repeat split; congruence.
Qed.

Lemma sameFields_commit (rendered s : State) : sameFields (commit rendered s) s.
Proof.
  unfold commit. destruct (depsChanged rendered s);
    [|apply sameFields_refl]. repeat split.
Qed.

Lemma sameFields_applyEffect (a b : State) (e : Effect) :
  sameFields a b -> sameFields (applyEffect a e) (applyEffect b e).
Proof.
  unfold sameFields. intros H. decompose [and] H.
  destruct e; simpl; repeat split; congruence.
Qed.

Lemma sameFields_applyEffects (effs : list Effect) (a b : State) :
  sameFields a b -> sameFields (applyEffects a effs) (applyEffects b effs).
Proof.
  revert a b. induction effs as [|e effs IH]; intros a b H; simpl;
    [exact H|].
  apply IH, sameFields_applyEffect, H.
Qed.

(** Up to the interval, a run is the plain succession of its effects. *)
Lemma sameFields_run (effs : list Effect) (rendered cur : State) :
  sameFields (run rendered cur effs) (applyEffects cur effs).
Proof.
  revert rendered cur.
  induction effs as [|e effs IH]; intros rendered cur; simpl.
  - apply sameFields_commit.
  - destruct e;
      try (apply IH).
    eapply sameFields_trans; [apply IH|].
    apply sameFields_applyEffects, sameFields_commit.
Qed.

Lemma sameFields_dispatch (s : State) (effs : list Effect) :
  sameFields (dispatch s effs) (applyEffects s effs).
Proof. apply sameFields_run. Qed.

(** A run that ends by nulling the task identifier and clearing the interval
    leaves no interval set. *)
Lemma run_stops (pre : list Effect) (rendered cur : State) :
  let s' := run rendered cur (pre ++ [SetTaskId None; ClearInterval]) in
  taskId s' = None /\ pollInterval s' = None.
Proof.
  revert rendered cur.
  induction pre as [|e pre IH]; intros rendered cur.
  - simpl. rewrite commit_stopped by reflexivity. split; reflexivity.
  - simpl. destruct e; apply IH.
Qed.

(** A render keeps the interval on the task of the state. *)
Lemma commit_matches (rendered cur : State) :
  intervalMatchesTask rendered ->
  pollInterval cur = pollInterval rendered \/ pollInterval cur = None ->
  intervalMatchesTask (commit rendered cur).
Proof.
  intros Hr Hcur tid. unfold commit.
  destruct (depsChanged rendered cur) eqn:Hdeps.
  - simpl. destruct (pollGuard cur); [auto | discriminate].
  - intros Hp. unfold depsChanged in Hdeps.
    apply negb_false_iff, andb_true_iff in Hdeps.
    destruct Hdeps as [Htask _]. apply opt_eqb_eq in Htask.
    rewrite <- Htask. apply Hr.
    destruct Hcur as [Hsame | Hnone]; congruence.
Qed.

Lemma applyEffect_interval (cur : State) (e : Effect) :
  pollInterval (applyEffect cur e) = pollInterval cur
  \/ pollInterval (applyEffect cur e) = None.
Proof. destruct e; simpl; auto. Qed.

Lemma run_matches (effs : list Effect) (rendered cur : State) :
  intervalMatchesTask rendered ->
  pollInterval cur = pollInterval rendered \/ pollInterval cur = None ->
  intervalMatchesTask (run rendered cur effs).
Proof.
  revert rendered cur.
  induction effs as [|e effs IH]; intros rendered cur Hr Hcur.
  - simpl. apply commit_matches; assumption.
  - assert (Hnext : pollInterval (applyEffect cur e) = pollInterval rendered
                    \/ pollInterval (applyEffect cur e) = None).
    { destruct (applyEffect_interval cur e) as [H | H];
        [rewrite H; exact Hcur | right; exact H]. }
    destruct e; simpl; try (apply IH; [exact Hr | exact Hnext]).
    apply IH; [apply commit_matches; assumption | left; reflexivity].
Qed.

Lemma dispatch_matches (s : State) (effs : list Effect) :
  intervalMatchesTask s -> intervalMatchesTask (dispatch s effs).
Proof. intros H. apply run_matches; [exact H | left; reflexivity]. Qed.

Lemma step_matches (s : State) (ev : Event) :
  intervalMatchesTask s -> intervalMatchesTask (step s ev).
Proof.
  intros H. destruct ev; simpl; try (apply dispatch_matches; exact H).
  unfold pollTick. destruct (pollInterval s);
    [apply dispatch_matches|]; exact H.
Qed.

(** In every state of a session, the interval polls the task whose
    identifier is in the state. *)
Lemma session_interval_matches_task (events : list Event) :
  intervalMatchesTask (session events).
Proof.
  unfold session.
  assert (Hgen : forall s, intervalMatchesTask s ->
                           intervalMatchesTask (fold_left step events s)).
  { induction events as [|ev events IH]; intros s Hs; simpl; [exact Hs|].
    apply IH, step_matches, Hs. }
  apply Hgen. intros tid H. discriminate H.
Qed.

(* ================================================================== *)
(** ** Facts about the poll cycle *)

Lemma endsStopping_split (effs : list Effect) :
  endsStopping effs = true ->
  exists pre, effs = pre ++ [SetTaskId None; ClearInterval].
Proof.
  induction effs as [|e effs IH]; [discriminate|].
  intros H.
  assert (Hcases :
    (e :: effs = [SetTaskId None; ClearInterval]) \/ endsStopping effs = true).
  { simpl in H.
    destruct e; try (right; exact H).
    destruct v; try (right; exact H).
    destruct effs as [|e1 effs1]; [discriminate|].
    destruct e1; try (right; exact H).
    destruct effs1; [left; reflexivity|right; exact H]. }
  destruct Hcases as [Heq | Hrest].
  - exists []. exact Heq.
  - destruct (IH Hrest) as [pre Hpre]. exists (e :: pre).
    rewrite Hpre. reflexivity.
Qed.

Lemma pollCallback_endsStopping (tid : JsString)
    (reply : HttpReply TaskStatusResponse) :
  continues reply = false -> endsStopping (pollCallback tid reply) = true.
Proof.
  destruct reply as [e | httpStatus body | body]; simpl.
  - reflexivity.
  - destruct (httpStatus =? 404); [reflexivity|].
    destruct body; reflexivity.
  - destruct body as [e | data]; [reflexivity|].
    unfold onStatus, onCompleted, onFailed.
    destruct (status data); try discriminate; intros _.
    + destruct (Js.opt_truthy (html_content data)); [reflexivity|].
      destruct (Js.opt_truthy (html_url data)); reflexivity.
    + reflexivity.
Qed.

(** With no interval set, a tick does nothing and issues no request. *)
Lemma pollTick_idle (s : State) (reply : HttpReply TaskStatusResponse) :
  pollInterval s = None -> pollTick s reply = s.
Proof. unfold pollTick. intros H. rewrite H. reflexivity. Qed.

Lemma pollCycle_idle (replies : list (HttpReply TaskStatusResponse))
    (s : State) :
  pollInterval s = None -> pollCycle s replies = s.
Proof.
  induction replies as [|r replies IH]; intros H; simpl; [reflexivity|].
  rewrite (pollTick_idle _ r H). apply IH, H.
Qed.

Lemma pollCalls_idle (replies : list (HttpReply TaskStatusResponse))
    (s : State) :
  pollInterval s = None -> pollCalls s replies = [].
Proof.
  induction replies as [|r replies IH]; intros H; simpl; [reflexivity|].
  rewrite (pollTick_idle _ r H), H. apply IH, H.
Qed.

Lemma pollingStopped_intro (s : State) :
  taskId s = None -> pollInterval s = None -> pollingStopped s.
Proof.
  intros Ht Hp. repeat split; try assumption.
  - apply pollCycle_idle, Hp.
  - apply pollCalls_idle, Hp.
Qed.

(** Any reply other than [pending] or [processing] stops the cycle. *)
Lemma pollTick_stops (s : State) (tid : JsString)
    (reply : HttpReply TaskStatusResponse) :
  pollInterval s = Some tid -> continues reply = false ->
  pollingStopped (pollTick s reply).
Proof.
  intros Hp Hc. unfold pollTick. rewrite Hp.
  destruct (endsStopping_split _ (pollCallback_endsStopping tid _ Hc))
    as [pre Hpre].
  unfold dispatch. rewrite Hpre.
  destruct (run_stops pre s s) as [Ht Hi].
  apply pollingStopped_intro; assumption.
Qed.

Lemma pollCycle_snoc (s : State)
    (replies : list (HttpReply TaskStatusResponse))
    (reply : HttpReply TaskStatusResponse) :
  pollCycle s (replies ++ [reply]) = pollTick (pollCycle s replies) reply.
Proof. unfold pollCycle. rewrite fold_left_app. reflexivity. Qed.

Lemma live_interval (s : State) :
  pollInterval s <> None -> exists tid, pollInterval s = Some tid.
Proof. destruct (pollInterval s) as [tid|]; [eauto|congruence]. Qed.

(** What a tick does on [completed]. *)
Lemma pollTick_completed (s : State) (tid : JsString)
    (data : TaskStatusResponse) :
  pollInterval s = Some tid -> status data = task_completed ->
  let s' := pollTick s (Ok (BodyJson data)) in
  analysisStatus s' = success
  /\ errorMessage s' = errorMessage s
  /\ htmlReportContent s' =
       (if Js.opt_truthy (html_content data) then html_content data
        else if Js.opt_truthy (html_url data) then None
        else htmlReportContent s)
  /\ analysisResultUrl s' =
       (if Js.opt_truthy (html_content data) then None
        else if Js.opt_truthy (html_url data) then qualifiedUrl (html_url data)
        else analysisResultUrl s).
Proof.
  intros Hp Hs. unfold pollTick. rewrite Hp.
  destruct (sameFields_dispatch s (pollCallback tid (Ok (BodyJson data))))
    as (H1 & _ & H3 & H4 & _ & H6 & _).
  cbv zeta. rewrite H1, H3, H4, H6. clear H1 H3 H4 H6.
  unfold pollCallback, onStatus, onCompleted. rewrite Hs.
  destruct (Js.opt_truthy (html_content data));
    [|destruct (Js.opt_truthy (html_url data))];
    repeat split; reflexivity.
Qed.

(** What a tick does on [failed]. *)
Lemma pollTick_failed (s : State) (tid : JsString)
    (data : TaskStatusResponse) :
  pollInterval s = Some tid -> status data = task_failed ->
  let s' := pollTick s (Ok (BodyJson data)) in
  analysisStatus s' = error
  /\ errorMessage s' =
       Some (Js.opt_or_else (error_details data)
               (Js.or_else (message data)
                  (Js.lit "分析过程中发生未知错误。")))
  /\ htmlReportContent s' = htmlReportContent s
  /\ analysisResultUrl s' = analysisResultUrl s.
Proof.
  intros Hp Hs. unfold pollTick. rewrite Hp.
  destruct (sameFields_dispatch s (pollCallback tid (Ok (BodyJson data))))
    as (H1 & _ & H3 & H4 & _ & H6 & _).
  cbv zeta. rewrite H1, H3, H4, H6. clear H1 H3 H4 H6.
  unfold pollCallback, onStatus, onFailed. rewrite Hs.
  repeat split; reflexivity.
Qed.

(** What a tick leaves alone on [pending] and [processing]. *)
Lemma pollTick_continues (s : State)
    (reply : HttpReply TaskStatusResponse) :
  continues reply = true ->
  let s' := pollTick s reply in
  taskId s' = taskId s /\ errorMessage s' = errorMessage s
  /\ htmlReportContent s' = htmlReportContent s
  /\ analysisResultUrl s' = analysisResultUrl s.
Proof.
  intros Hc. unfold pollTick.
  destruct (pollInterval s) as [tid|]; [|repeat split].
  destruct (sameFields_dispatch s (pollCallback tid reply))
    as (_ & H2 & H3 & H4 & _ & H6 & _).
  cbv zeta. rewrite H2, H3, H4, H6. clear H2 H3 H4 H6.
  destruct reply as [e | httpStatus body | [e | data]]; try discriminate.
  simpl in Hc. unfold pollCallback, onStatus.
  destruct (status data); try discriminate; repeat split; reflexivity.
Qed.



(** What an accepted submission leaves in the state. *)
Lemma startAnalysis_accepted (s : State) (tid : option JsString) :
  Js.truthy (Js.trim (reportRequirementsInput s)) = true ->
  let s1 := startAnalysis s (Ok (BodyJson {| new_task_id := tid |})) in
  analysisStatus s1 = processing /\ taskId s1 = tid
  /\ errorMessage s1 = None /\ htmlReportContent s1 = None
  /\ analysisResultUrl s1 = None.
Proof.
  intros Hprompt. unfold startAnalysis.
  destruct (sameFields_dispatch s
              (handleStartAnalysis s (Ok (BodyJson {| new_task_id := tid |}))))
    as (H1 & H2 & H3 & H4 & _ & H6 & _).
  cbv zeta. rewrite H1, H2, H3, H4, H6.
  unfold handleStartAnalysis. rewrite Hprompt.
  repeat split; reflexivity.
Qed.


(* ================================================================== *)
(** ** The poll cycle: terminal replies *)

(** C1 (as amended). For every sequence of poll replies whose last one is
    received while the interval is still set and has status [completed]
    with a present and non-empty [html_content], the final state has the
    inline HTML set to that content, the remote URL null, the lifecycle at
    [success], polling stopped and the task identifier null. *)
Theorem completed_inline_final_state (s : State)
    (replies : list (HttpReply TaskStatusResponse))
    (data : TaskStatusResponse) (html : JsString) :
  pollInterval (pollCycle s replies) <> None ->
  status data = task_completed ->
  html_content data = Some html ->
  html <> [] ->
  let s' := pollCycle s (replies ++ [Ok (BodyJson data)]) in
  htmlReportContent s' = Some html
  /\ analysisResultUrl s' = None
  /\ analysisStatus s' = success
  /\ pollingStopped s'
  /\ taskId s' = None.
Proof.
  intros Hlive Hst Hhtml Hne. cbv zeta. rewrite pollCycle_snoc.
  destruct (live_interval _ Hlive) as [tid Htid].
  assert (Hstop : pollingStopped
                    (pollTick (pollCycle s replies) (Ok (BodyJson data)))).
  { apply (pollTick_stops _ tid _ Htid). simpl. rewrite Hst. reflexivity. }
  destruct (pollTick_completed _ tid data Htid Hst) as (Hs & _ & Hh & Hu).
  rewrite Hh, Hu, Hhtml. simpl.
  apply JsFacts.truthy_true in Hne. rewrite Hne.
  repeat split; try assumption; apply Hstop.
Qed.

Lemma completed_inline_final_state_witness :
  let s' := pollCycle Sample.submitted
              ([Sample.stillProcessing; Sample.stillProcessing]
               ++ [Ok (BodyJson Sample.okReport)]) in
  htmlReportContent s' = Some (Js.lit "<h1>OK</h1>")
  /\ analysisResultUrl s' = None
  /\ analysisStatus s' = success
  /\ pollingStopped s'
  /\ taskId s' = None.
Proof.
  apply (completed_inline_final_state Sample.submitted
           [Sample.stillProcessing; Sample.stillProcessing]
           Sample.okReport (Js.lit "<h1>OK</h1>")).
  - vm_compute. discriminate.
  - vm_compute. reflexivity.
  - vm_compute. reflexivity.
  - vm_compute. discriminate.
Defined.

(** C1 as stated fails when [html_content] is present and empty: the reply
    is received, has status [completed] and carries [html_content: ""], and
    the inline HTML field is left null instead of being set to that
    content. *)
Lemma completed_empty_inline_not_stored :
  pollInterval Sample.submitted = Some Sample.taskAbc
  /\ status Sample.emptyInline = task_completed
  /\ html_content Sample.emptyInline = Some []
  /\ htmlReportContent
       (pollCycle Sample.submitted ([] ++ [Ok (BodyJson Sample.emptyInline)]))
     <> Some [].
Proof. vm_compute. repeat split. discriminate. Qed.

(** C6 (as amended). For every sequence of poll replies whose last one is
    received while the interval is still set and has status [completed],
    no [html_content] (absent or empty) and a present and non-empty
    [html_url], the final state has the remote URL set to the backend base
    address followed by [html_url], the inline HTML null, polling stopped
    and the task identifier null. *)
Theorem completed_link_final_state (s : State)
    (replies : list (HttpReply TaskStatusResponse))
    (data : TaskStatusResponse) (url : JsString) :
  pollInterval (pollCycle s replies) <> None ->
  status data = task_completed ->
  Js.opt_truthy (html_content data) = false ->
  html_url data = Some url ->
  url <> [] ->
  let s' := pollCycle s (replies ++ [Ok (BodyJson data)]) in
  analysisResultUrl s' = Some (BACKEND_URL ++ url)
  /\ htmlReportContent s' = None
  /\ analysisStatus s' = success
  /\ pollingStopped s'
  /\ taskId s' = None.
Proof.
  intros Hlive Hst Hhtml Hurl Hne. cbv zeta. rewrite pollCycle_snoc.
  destruct (live_interval _ Hlive) as [tid Htid].
  assert (Hstop : pollingStopped
                    (pollTick (pollCycle s replies) (Ok (BodyJson data)))).
  { apply (pollTick_stops _ tid _ Htid). simpl. rewrite Hst. reflexivity. }
  destruct (pollTick_completed _ tid data Htid Hst) as (Hs & _ & Hh & Hu).
  rewrite Hh, Hu, Hhtml, Hurl. simpl.
  apply JsFacts.truthy_true in Hne. rewrite Hne.
  repeat split; try assumption; apply Hstop.
Qed.

Lemma completed_link_final_state_witness :
  let s' := pollCycle Sample.submitted
              ([Sample.stillProcessing] ++ [Ok (BodyJson Sample.linkedReport)]) in
  analysisResultUrl s'
    = Some (BACKEND_URL ++ Js.lit "/reports/abc123.html")
  /\ htmlReportContent s' = None
  /\ analysisStatus s' = success
  /\ pollingStopped s'
  /\ taskId s' = None.
Proof.
  apply (completed_link_final_state Sample.submitted
           [Sample.stillProcessing] Sample.linkedReport
           (Js.lit "/reports/abc123.html")).
  - vm_compute. discriminate.
  - vm_compute. reflexivity.
  - vm_compute. reflexivity.
  - vm_compute. reflexivity.
  - vm_compute. discriminate.
Defined.

(** C6 as stated fails when [html_url] is present and empty: the reply is
    received, has status [completed], no [html_content] and [html_url: ""],
    and the remote URL field is left null instead of being set to the base
    address followed by [html_url]. *)
Lemma completed_empty_link_not_stored :
  pollInterval Sample.submitted = Some Sample.taskAbc
  /\ status Sample.emptyLink = task_completed
  /\ html_content Sample.emptyLink = None
  /\ html_url Sample.emptyLink = Some []
  /\ analysisResultUrl
       (pollCycle Sample.submitted ([] ++ [Ok (BodyJson Sample.emptyLink)]))
     <> Some (BACKEND_URL ++ []).
Proof. vm_compute. repeat split. discriminate. Qed.

(** C4 (as amended). For every sequence of poll replies whose last one is
    received while the interval is still set and has status [failed],
    polling stops, the task identifier is null, the lifecycle is at
    [error], and the stored error is [error_details] when that is present
    and non-empty, otherwise [message] when that is non-empty, otherwise
    the fixed text of the source. *)
Theorem failed_final_state (s : State)
    (replies : list (HttpReply TaskStatusResponse))
    (data : TaskStatusResponse) :
  pollInterval (pollCycle s replies) <> None ->
  status data = task_failed ->
  let s' := pollCycle s (replies ++ [Ok (BodyJson data)]) in
  pollingStopped s'
  /\ taskId s' = None
  /\ analysisStatus s' = error
  /\ (forall details, error_details data = Some details -> details <> [] ->
      errorMessage s' = Some details)
  /\ (Js.opt_truthy (error_details data) = false -> message data <> [] ->
      errorMessage s' = Some (message data))
  /\ (Js.opt_truthy (error_details data) = false -> message data = [] ->
      errorMessage s' = Some (Js.lit "分析过程中发生未知错误。")).
Proof.
  intros Hlive Hst. cbv zeta. rewrite pollCycle_snoc.
  destruct (live_interval _ Hlive) as [tid Htid].
  assert (Hstop : pollingStopped
                    (pollTick (pollCycle s replies) (Ok (BodyJson data)))).
  { apply (pollTick_stops _ tid _ Htid). simpl. rewrite Hst. reflexivity. }
  destruct (pollTick_failed _ tid data Htid Hst) as (Hs & He & _ & _).
  rewrite He. repeat split; try assumption; try apply Hstop.
  - intros details Hd Hne. rewrite Hd. simpl. unfold Js.or_else.
    apply JsFacts.truthy_true in Hne. rewrite Hne. reflexivity.
  - intros Hd Hm. apply JsFacts.truthy_true in Hm.
    destruct (error_details data) as [d|]; simpl in *;
      unfold Js.or_else; rewrite ?Hd, Hm; reflexivity.
  - intros Hd Hm.
    destruct (error_details data) as [d|]; simpl in *;
      unfold Js.or_else; rewrite ?Hd, Hm; reflexivity.
Qed.

Lemma failed_final_state_witness :
  let s' := pollCycle Sample.submitted
              ([Sample.stillProcessing] ++ [Ok (BodyJson Sample.parseFailure)]) in
  errorMessage s' = Some (Js.lit "parse error").
Proof.
  destruct (failed_final_state Sample.submitted [Sample.stillProcessing]
              Sample.parseFailure) as (_ & _ & _ & Hdetails & _).
  - vm_compute. discriminate.
  - vm_compute. reflexivity.
  - apply Hdetails; [vm_compute; reflexivity | vm_compute; discriminate].
Defined.

(** C4 as stated fails when [error_details] is absent and [message] is
    empty: the stored error is the fixed text of the source, not the
    [message] field. *)
Lemma failed_empty_message_not_stored :
  pollInterval Sample.submitted = Some Sample.taskAbc
  /\ status Sample.silentFailure = task_failed
  /\ error_details Sample.silentFailure = None
  /\ errorMessage
       (pollCycle Sample.submitted ([] ++ [Ok (BodyJson Sample.silentFailure)]))
     <> Some (message Sample.silentFailure).
Proof. vm_compute. repeat split. discriminate. Qed.

(* ------------------------------------------------------------------ *)
(** *** The 404 reply *)






(* ------------------------------------------------------------------ *)
(** *** Result payload and error detail *)




(** The statement of C2 also fails later in the session: with the report
    of [Sample.okReport] on display, a chat turn whose request fails stores
    an error message while the result stays set and the lifecycle stays
    [success]. *)
Lemma failed_chat_turn_sets_both :
  let s' := sendMessage Scenario.asking 1000 1001
              (CreateThrows (ThrownError (Js.lit "down"))) in
  analysisStatus s' = success
  /\ resultSet s' = true
  /\ errorSet s' = true.
Proof. vm_compute. repeat split. Qed.

(* ================================================================== *)
(** ** Blank input *)

Lemma blank_not_truthy (input : JsString) :
  Js.blank input = true -> negb (Js.truthy (Js.trim input)) = true.
Proof. intros H. rewrite (JsFacts.trim_blank _ H). reflexivity. Qed.

Lemma handleStartAnalysis_blank (s : State) (reply : HttpReply StartData) :
  Js.blank (reportRequirementsInput s) = true ->
  handleStartAnalysis s reply = startReset ++ startReject.
Proof.
  intros H. unfold handleStartAnalysis.
  rewrite (blank_not_truthy _ H). reflexivity.
Qed.

Lemma handleSendMessage_blank (s : State) (now1 now2 : N)
    (reply : StreamReply) :
  Js.blank (userInput s) = true -> handleSendMessage s now1 now2 reply = [].
Proof.
  intros H. unfold handleSendMessage.
  rewrite (blank_not_truthy _ H). reflexivity.
Qed.

(** C3 (as amended). For every empty or whitespace-only input string:
    [handleStartAnalysis] on that prompt performs no network call and
    reports a validation error (the error message and the status message of
    the source); [handleSendMessage] on that chat text performs no network
    call and no effect at all, so it leaves the state as it is and reports
    nothing. *)
Theorem blank_input_no_network_call (s : State) (input : JsString)
    (startReply : HttpReply StartData) (now1 now2 : N)
    (streamReply : StreamReply) :
  Js.blank input = true ->
  let s1 := applyEffect s (SetReportRequirementsInput input) in
  let s2 := applyEffect s (SetUserInput input) in
  networkCalls (handleStartAnalysis s1 startReply) = []
  /\ errorMessage (startAnalysis s1 startReply)
     = Some (Js.lit "报告生成需求不能为空。")
  /\ statusMessage (startAnalysis s1 startReply)
     = Js.lit "请输入报告生成需求后重试。"
  /\ networkCalls (handleSendMessage s2 now1 now2 streamReply) = []
  /\ handleSendMessage s2 now1 now2 streamReply = []
  /\ sendMessage s2 now1 now2 streamReply = s2.
Proof.
  intros Hblank s1 s2.
  assert (H1 : handleStartAnalysis s1 startReply = startReset ++ startReject)
    by (apply handleStartAnalysis_blank; exact Hblank).
  assert (H2 : handleSendMessage s2 now1 now2 streamReply = [])
    by (apply handleSendMessage_blank; exact Hblank).
  destruct (sameFields_dispatch s1 (handleStartAnalysis s1 startReply))
    as (_ & _ & _ & _ & F5 & F6 & _).
  unfold startAnalysis, sendMessage. rewrite F5, F6, H1, H2.
  repeat split. apply commit_same.
Qed.

Lemma blank_input_no_network_call_witness :
  let s1 := applyEffect Sample.reportShown
              (SetReportRequirementsInput (Js.lit "  ")) in
  let s2 := applyEffect Sample.reportShown (SetUserInput (Js.lit "  ")) in
  networkCalls (handleStartAnalysis s1 (FetchThrows ThrownOther)) = []
  /\ errorMessage (startAnalysis s1 (FetchThrows ThrownOther))
     = Some (Js.lit "报告生成需求不能为空。")
  /\ statusMessage (startAnalysis s1 (FetchThrows ThrownOther))
     = Js.lit "请输入报告生成需求后重试。"
  /\ networkCalls
       (handleSendMessage s2 1000 1001 (CreateThrows ThrownOther)) = []
  /\ handleSendMessage s2 1000 1001 (CreateThrows ThrownOther) = []
  /\ sendMessage s2 1000 1001 (CreateThrows ThrownOther) = s2.
Proof.
  apply (blank_input_no_network_call Sample.reportShown (Js.lit "  ")
           (FetchThrows ThrownOther) 1000 1001 (CreateThrows ThrownOther)).
  vm_compute. reflexivity.
Defined.

(** C3 as stated fails for [handleSendMessage]: on a whitespace-only chat
    text it performs no effect, so no error is reported: the error message
    stays null and the status message is the one shown before. *)
Lemma blank_chat_text_reports_nothing :
  let s := Scenario.blankChat in
  let s' := sendMessage s 1000 1001 (Stream [] StreamDone) in
  Js.blank (userInput s) = true
  /\ handleSendMessage s 1000 1001 (Stream [] StreamDone) = []
  /\ errorMessage s' = None
  /\ statusMessage s' = statusMessage s
  /\ s' = s.
Proof. vm_compute. repeat split. Qed.

(** C10. When [handleStartAnalysis] meets an empty or whitespace-only
    prompt, its effects are those of the reset followed by those of the
    rejection: before the validation check it has set the status to
    [loading] and nulled the error message, the remote URL and the inline
    HTML; it ends with the status [idle], both result fields null whatever
    they held before, and no request issued. *)
Theorem blank_prompt_rejection_not_atomic (s : State)
    (reply : HttpReply StartData) :
  Js.blank (reportRequirementsInput s) = true ->
  handleStartAnalysis s reply = startReset ++ startReject
  /\ (let mid := applyEffects s startReset in
      analysisStatus mid = loading
      /\ errorMessage mid = None
      /\ analysisResultUrl mid = None
      /\ htmlReportContent mid = None)
  /\ (let s' := startAnalysis s reply in
      analysisStatus s' = idle
      /\ analysisResultUrl s' = None
      /\ htmlReportContent s' = None)
  /\ networkCalls (handleStartAnalysis s reply) = [].
Proof.
  intros Hblank.
  pose proof (handleStartAnalysis_blank s reply Hblank) as Heffs.
  destruct (sameFields_dispatch s (handleStartAnalysis s reply))
    as (F1 & _ & F3 & F4 & _).
  unfold startAnalysis. cbv zeta. rewrite F1, F3, F4, Heffs.
  repeat split.
Qed.

Lemma blank_prompt_rejection_not_atomic_witness :
  let s := Scenario.blankPrompt in
  htmlReportContent s = Some (Js.lit "<h1>OK</h1>")
  /\ analysisStatus s = success
  /\ analysisStatus (startAnalysis s (FetchThrows ThrownOther)) = idle
  /\ htmlReportContent (startAnalysis s (FetchThrows ThrownOther)) = None
  /\ networkCalls (handleStartAnalysis s (FetchThrows ThrownOther)) = [].
Proof.
  destruct (blank_prompt_rejection_not_atomic Scenario.blankPrompt
              (FetchThrows ThrownOther))
    as (_ & _ & (H1 & _ & H3) & H4).
  - vm_compute. reflexivity.
  - cbv zeta. rewrite H1, H3, H4.
    split; [vm_compute; reflexivity|].
    split; [vm_compute; reflexivity|]. repeat split.
Defined.

(* ================================================================== *)
(** ** The conversation controller *)

Section Transcript.

Lemma chatMessages_applyEffects (effs : list Effect) (s : State) :
  chatMessages (applyEffects s effs) = fold_left chatApply effs (chatMessages s).
Proof.
  unfold applyEffects. revert s.
  induction effs as [|e effs IH]; intros s; simpl; [reflexivity|].
  rewrite IH. destruct e; reflexivity.
Qed.

Lemma chatMessages_dispatch (s : State) (effs : list Effect) :
  chatMessages (dispatch s effs) = fold_left chatApply effs (chatMessages s).
Proof.
  destruct (sameFields_dispatch s effs) as (_ & _ & _ & _ & _ & _ & H & _).
  rewrite H. apply chatMessages_applyEffects.
Qed.

Lemma user_bot_ids_differ (now1 now2 : N) :
  Js.lit "user-" ++ Js.ofNumber now1 <> Js.lit "bot-" ++ Js.ofNumber now2.
Proof. intros H. discriminate H. Qed.

Lemma setTextById_id (target t : JsString) (msg : ChatMessage) :
  id (setTextById target t msg) = id msg.
Proof. unfold setTextById. destruct (Js.eqb (id msg) target); reflexivity. Qed.

Lemma setTextById_sender (target t : JsString) (msg : ChatMessage) :
  sender (setTextById target t msg) = sender msg.
Proof. unfold setTextById. destruct (Js.eqb (id msg) target); reflexivity. Qed.

Lemma setTextById_other (target t : JsString) (msg : ChatMessage) :
  id msg <> target -> setTextById target t msg = msg.
Proof.
  intros H. unfold setTextById. rewrite (JsFacts.eqb_neq _ _ H). reflexivity.
Qed.

Lemma setTextById_target (target t : JsString) (msg : ChatMessage) :
  id msg = target ->
  setTextById target t msg = {| id := target; sender := sender msg; text := t |}.
Proof.
  intros H. unfold setTextById. rewrite H, JsFacts.eqb_refl. reflexivity.
Qed.

Variable prior : list ChatMessage.
Variable userMessage : ChatMessage.
Variable botMessageId : JsString.
Hypothesis user_is_not_target : id userMessage <> botMessageId.

Lemma turnShape_update (accumulated t : JsString)
    (transcript : list ChatMessage) :
  turnShape prior userMessage botMessageId accumulated transcript ->
  turnShape prior userMessage botMessageId t (map (setTextById botMessageId t) transcript).
Proof.
  intros (hist & Heq & Hlen & Hsend). subst transcript.
  exists (map (setTextById botMessageId t) hist).
  rewrite map_app. simpl.
  rewrite (setTextById_other _ t _ user_is_not_target).
  rewrite setTextById_target by reflexivity. simpl.
  repeat split.
  - rewrite length_map. exact Hlen.
  - rewrite map_map. rewrite <- Hsend. apply map_ext.
    intros msg. apply setTextById_sender.
Qed.

(** Each chunk updates the one entry of the bot in place; at the end it
    holds the text accumulated before followed by the deltas in order. *)
Lemma streamLoop_turnShape (chunks : list Chunk) (accumulated : JsString)
    (transcript : list ChatMessage) :
  turnShape prior userMessage botMessageId accumulated transcript ->
  turnShape prior userMessage botMessageId
    (accumulated ++ List.concat (map contentDelta chunks))
    (fold_left chatApply (streamLoop botMessageId accumulated chunks)
       transcript).
Proof.
  revert accumulated transcript.
  induction chunks as [|chunk chunks IH]; intros accumulated transcript H.
  - simpl. rewrite app_nil_r. exact H.
  - simpl. destruct (Js.truthy (contentDelta chunk)) eqn:Hd.
    + simpl. rewrite app_assoc. apply IH.
      apply turnShape_update with (accumulated := accumulated). exact H.
    + destruct (contentDelta chunk); [|discriminate]. simpl. apply IH, H.
Qed.

End Transcript.

Lemma networkCalls_app (a b : list Effect) :
  networkCalls (a ++ b) = networkCalls a ++ networkCalls b.
Proof. apply filter_app. Qed.

Lemma networkCalls_streamLoop (botMessageId : JsString) (chunks : list Chunk)
    (accumulated : JsString) :
  networkCalls (streamLoop botMessageId accumulated chunks) = [].
Proof.
  revert accumulated. induction chunks as [|chunk chunks IH];
    intros accumulated; simpl; [reflexivity|].
  destruct (Js.truthy (contentDelta chunk)); simpl; apply IH.
Qed.

Lemma botEntries_senders (a b : list ChatMessage) :
  map sender a = map sender b -> botEntries a = botEntries b.
Proof.
  unfold botEntries. revert b.
  induction a as [|x a IH]; intros [|y b] H; simpl in *;
    try discriminate; [reflexivity|].
  injection H as Hxy Hab. rewrite Hxy.
  destruct (sender y); simpl; rewrite (IH b Hab); reflexivity.
Qed.

(** The transcript after a turn whose stream ended. *)
Lemma sendMessage_done_transcript (s : State) (now1 now2 : N)
    (chunks : list Chunk) :
  Js.truthy (Js.trim (userInput s)) = true ->
  turnShape (chatMessages s)
    {| id := Js.lit "user-" ++ Js.ofNumber now1;
       sender := user; text := userInput s |}
    (Js.lit "bot-" ++ Js.ofNumber now2)
    (List.concat (map contentDelta chunks))
    (chatMessages (sendMessage s now1 now2 (Stream chunks StreamDone))).
Proof.
  intros Hinput. unfold sendMessage. rewrite chatMessages_dispatch.
  unfold handleSendMessage. rewrite Hinput. cbn [negb].
  rewrite fold_left_app. cbn [fold_left chatApply].
  rewrite fold_left_app. cbn [fold_left chatApply].
  apply (streamLoop_turnShape (chatMessages s)
           {| id := Js.lit "user-" ++ Js.ofNumber now1;
              sender := user; text := userInput s |}
           (Js.lit "bot-" ++ Js.ofNumber now2)
           (user_bot_ids_differ now1 now2) chunks []).
  exists (chatMessages s). rewrite <- app_assoc. repeat split.
Qed.

Lemma arrivalChunk_onto (chunk : Chunk) :
  exists a, arrivalChunk a = chunk.
Proof.
  destruct chunk as [[|[[[[t|]]|]] others]].
  - exists NoChoice. reflexivity.
  - exists (WithText t others). reflexivity.
  - exists (NoContent others). reflexivity.
  - exists (NoDelta others). reflexivity.
Qed.

Lemma arrivalChunks_onto (chunks : list Chunk) :
  exists arrivals, map arrivalChunk arrivals = chunks.
Proof.
  induction chunks as [|chunk chunks [arrivals IH]]; [exists []; reflexivity|].
  destruct (arrivalChunk_onto chunk) as [a Ha].
  exists (a :: arrivals). simpl. rewrite Ha, IH. reflexivity.
Qed.

(** The handler reads from a chunk the text delta the chunk brings. *)
Lemma contentDelta_arrival (a : Arrival) :
  contentDelta (arrivalChunk a) = arrivalText a.
Proof. destruct a as [[|c t] others | | others | others]; reflexivity. Qed.

Lemma deltas_of_arrivals (arrivals : list Arrival) :
  List.concat (map contentDelta (map arrivalChunk arrivals))
  = List.concat (map arrivalText arrivals).
Proof.
  rewrite map_map. f_equal. apply map_ext. exact contentDelta_arrival.
Qed.

(** C7. For every chat turn (a non-blank text sent) whose stream delivers
    chunks and ends, the chunks being given by what they bring (every
    chunk is the chunk of some arrival): the transcript ends with the
    user's entry followed by one entry of the bot whose text is the
    concatenation, in order, of the text deltas the chunks bring (nothing
    for a chunk that brings none); the transcript has grown by exactly
    these two entries, one of the bot, whatever the number of chunks. *)
Theorem stream_reply_in_one_entry (s : State) (now1 now2 : N)
    (arrivals : list Arrival) :
  Js.truthy (Js.trim (userInput s)) = true ->
  let s' := sendMessage s now1 now2
              (Stream (map arrivalChunk arrivals) StreamDone) in
  (exists hist,
      chatMessages s'
      = hist ++ [ {| id := Js.lit "user-" ++ Js.ofNumber now1;
                     sender := user; text := userInput s |};
                  {| id := Js.lit "bot-" ++ Js.ofNumber now2;
                     sender := bot;
                     text := List.concat (map arrivalText arrivals) |} ]
      /\ List.length hist = List.length (chatMessages s))
  /\ List.length (chatMessages s') = (List.length (chatMessages s) + 2)%nat
  /\ botEntries (chatMessages s') = (botEntries (chatMessages s) + 1)%nat.
Proof.
  intros Hinput. cbv zeta.
  destruct (sendMessage_done_transcript s now1 now2
              (map arrivalChunk arrivals) Hinput)
    as (hist & Heq & Hlen & Hsend).
  rewrite deltas_of_arrivals in Heq.
  rewrite Heq. split; [|split].
  - exists hist. split; [reflexivity | exact Hlen].
  - rewrite length_app, Hlen. reflexivity.
  - unfold botEntries. rewrite filter_app, length_app.
    fold (botEntries hist). rewrite (botEntries_senders _ _ Hsend).
    reflexivity.
Qed.

Lemma stream_reply_in_one_entry_witness :
  let s := Scenario.asking in
  let s' := sendMessage s 1000 1001
              (Stream (map arrivalChunk Scenario3.threeArrivals) StreamDone) in
  ((exists hist,
       chatMessages s'
       = hist ++ [ {| id := Js.lit "user-" ++ Js.ofNumber 1000;
                      sender := user; text := userInput s |};
                   {| id := Js.lit "bot-" ++ Js.ofNumber 1001;
                      sender := bot;
                      text := List.concat
                                (map arrivalText Scenario3.threeArrivals) |} ]
       /\ List.length hist = List.length (chatMessages s))
   /\ List.length (chatMessages s') = (List.length (chatMessages s) + 2)%nat
   /\ botEntries (chatMessages s') = (botEntries (chatMessages s) + 1)%nat)
  /\ chatMessages s'
     = [ {| id := Js.lit "user-1000"; sender := user; text := Js.lit "hi" |};
         {| id := Js.lit "bot-1001"; sender := bot; text := Js.lit "ab" |} ].
Proof.
  split.
  - apply (stream_reply_in_one_entry Scenario.asking 1000 1001
             Scenario3.threeArrivals).
    vm_compute. reflexivity.
  - vm_compute. reflexivity.
Defined.

Example three_chunks_text :
  map text
    (chatMessages
       (sendMessage Scenario.asking 1000 1001
          (Stream Scenario.threeChunks StreamDone)))
  = [Js.lit "hi"; Js.lit "ab"].
Proof. vm_compute. reflexivity. Qed.

(* ------------------------------------------------------------------ *)
(** *** The history of a chat request *)

Lemma fold_pushHistory (recent : list ChatMessage)
    (apiMessages : list ApiMessage) :
  fold_left pushHistory recent apiMessages
  = apiMessages ++ map historyEntry recent.
Proof.
  revert apiMessages.
  induction recent as [|msg recent IH]; intros apiMessages; simpl.
  - rewrite app_nil_r. reflexivity.
  - rewrite IH. unfold pushHistory, push, historyEntry.
    destruct (sender msg); rewrite <- app_assoc; reflexivity.
Qed.

(** [slice(-n)] splits off the last [n] elements, or takes everything when
    there are fewer. *)
Lemma slice_last_split (A : Type) (n : nat) (arr : list A) :
  exists older,
    arr = older ++ slice_last n arr
    /\ (List.length (slice_last n arr) <= n)%nat
    /\ (older <> [] -> List.length (slice_last n arr) = n).
Proof.
  exists (firstn (List.length arr - n) arr). unfold slice_last.
  split; [symmetry; apply firstn_skipn|].
  rewrite length_skipn. split; [lia|].
  intros Hne.
  destruct (Nat.le_gt_cases (List.length arr) n) as [Hle | Hgt]; [|lia].
  exfalso. apply Hne.
  replace (List.length arr - n)%nat with 0%nat by lia. reflexivity.
Qed.

Lemma pushSystem_shape (s : State) :
  (List.length (pushSystem s []) <= 1)%nat
  /\ Forall (fun m => role m = role_system) (pushSystem s []).
Proof.
  unfold pushSystem, push.
  destruct (htmlReportContent s) as [[|c html]|];
    destruct (analysisResultUrl s) as [[|c' url]|]; simpl;
    split; auto.
Qed.

Lemma networkCalls_handleSendMessage (s : State) (now1 now2 : N)
    (streamReply : StreamReply) :
  Js.truthy (Js.trim (userInput s)) = true ->
  networkCalls (handleSendMessage s now1 now2 streamReply)
  = [ChatCompletionsCreate (buildApiMessages s (userInput s))].
Proof.
  intros Hinput. unfold handleSendMessage. rewrite Hinput. cbn [negb].
  rewrite networkCalls_app.
  assert (Hrest :
    networkCalls
      match streamReply with
      | CreateThrows e =>
          sendCatch (Js.lit "bot-" ++ Js.ofNumber now2) e
      | Stream chunks StreamDone =>
          streamLoop (Js.lit "bot-" ++ Js.ofNumber now2) [] chunks
          ++ [Await; SetStatusMessage (Js.lit "大模型已回复。")]
      | Stream chunks (StreamThrows e) =>
          streamLoop (Js.lit "bot-" ++ Js.ofNumber now2) [] chunks
          ++ Await :: sendCatch (Js.lit "bot-" ++ Js.ofNumber now2) e
      end = []).
  { destruct streamReply as [e | chunks [|e]].
    - reflexivity.
    - rewrite networkCalls_app, networkCalls_streamLoop. reflexivity.
    - rewrite networkCalls_app, networkCalls_streamLoop. reflexivity. }
  rewrite Hrest. reflexivity.
Qed.

(** The test of the [filter] of the source holds exactly for the entries
    whose text is neither empty nor made of whitespace only. *)
Lemma nonEmptyText_hasText (msg : ChatMessage) :
  nonEmptyText msg = hasText msg.
Proof.
  unfold nonEmptyText, hasText. f_equal.
  destruct (Js.blank (text msg)) eqn:Hblank.
  - rewrite (JsFacts.trim_blank _ Hblank). reflexivity.
  - destruct (Js.trim (text msg)) eqn:Htrim; [|reflexivity].
    assert (Js.blank (text msg) = true).
    { apply JsFacts.trim_empty_iff_blank. rewrite Htrim. reflexivity. }
    congruence.
Qed.

Lemma filter_nonEmptyText (transcript : list ChatMessage) :
  filter nonEmptyText transcript = filter hasText transcript.
Proof. apply filter_ext. exact nonEmptyText_hasText. Qed.

(** C8. For every chat turn (a non-blank text sent) and every prior
    transcript, the turn issues one chat request, whose messages are: at
    most one system entry, then the history, then the new user turn; the
    history consists of the last six entries among the prior transcript
    entries whose text is neither empty nor made of whitespace only (of all
    of them when there are fewer than six), of both senders, in their order
    in the transcript. *)
Theorem history_is_last_six_non_empty (s : State) (now1 now2 : N)
    (streamReply : StreamReply) :
  Js.truthy (Js.trim (userInput s)) = true ->
  exists system older recent,
    (List.length system <= 1)%nat
    /\ Forall (fun m => role m = role_system) system
    /\ filter hasText (chatMessages s) = older ++ recent
    /\ (List.length recent <= 6)%nat
    /\ (older <> [] -> List.length recent = 6%nat)
    /\ networkCalls (handleSendMessage s now1 now2 streamReply)
       = [ ChatCompletionsCreate
             (system ++ map historyEntry recent
              ++ [{| role := role_user; content := userInput s |}]) ].
Proof.
  intros Hinput.
  destruct (slice_last_split ChatMessage 6
              (filter nonEmptyText (chatMessages s)))
    as (older & Hsplit & Hlen & Hfull).
  destruct (pushSystem_shape s) as [Hsys1 Hsys2].
  exists (pushSystem s []), older,
    (slice_last 6 (filter nonEmptyText (chatMessages s))).
  rewrite <- filter_nonEmptyText.
  repeat split; try assumption.
  rewrite (networkCalls_handleSendMessage s now1 now2 streamReply Hinput).
  unfold buildApiMessages, push. rewrite fold_pushHistory.
  rewrite <- app_assoc. reflexivity.
Qed.

Lemma history_is_last_six_non_empty_witness :
  (exists system older recent,
      (List.length system <= 1)%nat
      /\ Forall (fun m => role m = role_system) system
      /\ filter hasText (chatMessages Scenario.longTranscript)
         = older ++ recent
      /\ (List.length recent <= 6)%nat
      /\ (older <> [] -> List.length recent = 6%nat)
      /\ networkCalls
           (handleSendMessage Scenario.longTranscript 1000 1001
              (Stream [] StreamDone))
         = [ ChatCompletionsCreate
               (system ++ map historyEntry recent
                ++ [{| role := role_user;
                       content := userInput Scenario.longTranscript |}]) ])
  /\ map text (chatMessages Scenario.longTranscript)
     = [ Js.lit "t0"; Js.lit "t1"; Js.lit " "; Js.lit "t3"; Js.lit "t4";
         Js.lit "t5"; Js.lit "t6"; Js.lit "t7" ]
  /\ match networkCalls
             (handleSendMessage Scenario.longTranscript 1000 1001
                (Stream [] StreamDone)) with
     | [ChatCompletionsCreate messages] =>
         map content (tl messages)
         = [ Js.lit "t1"; Js.lit "t3"; Js.lit "t4"; Js.lit "t5";
             Js.lit "t6"; Js.lit "t7"; Js.lit "next" ]
     | _ => False
     end.
Proof.
  split; [|split].
  - apply (history_is_last_six_non_empty Scenario.longTranscript 1000 1001
             (Stream [] StreamDone)).
    vm_compute. reflexivity.
  - vm_compute. reflexivity.
  - vm_compute. reflexivity.
Defined.

(** The scenario of the specification, with one of eight entries blank: the
    request holds the system entry, the last six non-blank entries and the
    new turn. *)
Example eight_entries_history :
  match networkCalls
          (handleSendMessage Scenario.longTranscript 1000 1001
             (Stream [] StreamDone)) with
  | [ChatCompletionsCreate messages] =>
      map content (tl messages)
      = [ Js.lit "t1"; Js.lit "t3"; Js.lit "t4"; Js.lit "t5"; Js.lit "t6";
          Js.lit "t7"; Js.lit "next" ]
      /\ map role messages
         = [ role_system; role_assistant; role_assistant; role_user;
             role_assistant; role_user; role_assistant; role_user ]
  | _ => False
  end.
Proof. vm_compute. split; reflexivity. Qed.

(* ================================================================== *)
(** ** Identifiers of the transcript entries *)

Lemma ids_update (target t : JsString) (transcript : list ChatMessage) :
  map id (map (setTextById target t) transcript) = map id transcript.
Proof.
  rewrite map_map. apply map_ext. intros msg. apply setTextById_id.
Qed.

Lemma ids_streamLoop (botMessageId : JsString) (chunks : list Chunk)
    (accumulated : JsString) (transcript : list ChatMessage) :
  map id (fold_left chatApply (streamLoop botMessageId accumulated chunks)
            transcript)
  = map id transcript.
Proof.
  revert accumulated transcript.
  induction chunks as [|chunk chunks IH]; intros accumulated transcript;
    simpl; [reflexivity|].
  destruct (Js.truthy (contentDelta chunk)); simpl.
  - rewrite IH. apply ids_update.
  - apply IH.
Qed.

Lemma ids_sendCatch (botMessageId : JsString) (e : Thrown)
    (transcript : list ChatMessage) :
  map id (fold_left chatApply (sendCatch botMessageId e) transcript)
  = map id transcript.
Proof. unfold sendCatch. cbn [fold_left chatApply]. apply ids_update. Qed.

(** A turn appends its two identifiers and changes no other. *)
Lemma sendMessage_ids (s : State) (now1 now2 : N) (streamReply : StreamReply) :
  Js.truthy (Js.trim (userInput s)) = true ->
  map id (chatMessages (sendMessage s now1 now2 streamReply))
  = map id (chatMessages s)
    ++ [ Js.lit "user-" ++ Js.ofNumber now1;
         Js.lit "bot-" ++ Js.ofNumber now2 ].
Proof.
  intros Hinput. unfold sendMessage. rewrite chatMessages_dispatch.
  unfold handleSendMessage. rewrite Hinput. cbn [negb].
  rewrite fold_left_app. cbn [fold_left chatApply].
  assert (Hstart :
    map id ((chatMessages s
             ++ [{| id := Js.lit "user-" ++ Js.ofNumber now1;
                    sender := user; text := userInput s |}])
            ++ [{| id := Js.lit "bot-" ++ Js.ofNumber now2;
                   sender := bot; text := [] |}])
    = map id (chatMessages s)
      ++ [ Js.lit "user-" ++ Js.ofNumber now1;
           Js.lit "bot-" ++ Js.ofNumber now2 ]).
  { rewrite !map_app, <- app_assoc. reflexivity. }
  destruct streamReply as [e | chunks [|e]].
  - rewrite ids_sendCatch. exact Hstart.
  - rewrite fold_left_app. cbn [fold_left chatApply].
    rewrite ids_streamLoop. exact Hstart.
  - rewrite fold_left_app.
    change (Await :: sendCatch (Js.lit "bot-" ++ Js.ofNumber now2) e)
      with ([Await] ++ sendCatch (Js.lit "bot-" ++ Js.ofNumber now2) e).
    rewrite fold_left_app. cbn [fold_left chatApply].
    rewrite ids_sendCatch, ids_streamLoop. exact Hstart.
Qed.

Lemma chatTurn_ids (s : State) (t : Turn) :
  map id (chatMessages (chatTurn s t))
  = map id (chatMessages s) ++ turnIds t.
Proof.
  unfold chatTurn, turnIds.
  destruct (sameFields_dispatch s [SetUserInput (typed t)])
    as (_ & _ & _ & _ & _ & _ & Hchat & Hinput & _).
  simpl in Hchat, Hinput.
  destruct (Js.truthy (Js.trim (typed t))) eqn:Htyped.
  - rewrite sendMessage_ids by (rewrite Hinput; exact Htyped).
    rewrite Hchat. reflexivity.
  - unfold sendMessage, handleSendMessage.
    rewrite Hinput, Htyped. cbn [negb].
    rewrite chatMessages_dispatch. simpl. rewrite Hchat, app_nil_r.
    reflexivity.
Qed.

Lemma chatSession_ids (turns : list Turn) (s : State) :
  map id (chatMessages (chatSession s turns))
  = map id (chatMessages s) ++ flat_map turnIds turns.
Proof.
  unfold chatSession. revert s.
  induction turns as [|t turns IH]; intros s; simpl.
  - rewrite app_nil_r. reflexivity.
  - rewrite IH, chatTurn_ids, <- app_assoc. reflexivity.
Qed.

Lemma user_ids_inj (n m : N) :
  Js.lit "user-" ++ Js.ofNumber n = Js.lit "user-" ++ Js.ofNumber m -> n = m.
Proof. intros H. apply app_inv_head in H. apply JsFacts.ofNumber_inj, H. Qed.

Lemma bot_ids_inj (n m : N) :
  Js.lit "bot-" ++ Js.ofNumber n = Js.lit "bot-" ++ Js.ofNumber m -> n = m.
Proof. intros H. apply app_inv_head in H. apply JsFacts.ofNumber_inj, H. Qed.

Lemma in_turnIds (x : JsString) (turns : list Turn) :
  In x (flat_map turnIds turns) ->
  (exists t, In t turns /\ x = Js.lit "user-" ++ Js.ofNumber (clock1 t))
  \/ (exists t, In t turns /\ x = Js.lit "bot-" ++ Js.ofNumber (clock2 t)).
Proof.
  intros H. apply in_flat_map in H. destruct H as (t & Ht & Hx).
  unfold turnIds in Hx. destruct (Js.truthy (Js.trim (typed t)));
    [|contradiction].
  destruct Hx as [Hx | [Hx | []]]; [left | right]; exists t; auto.
Qed.

Lemma turnIds_NoDup (turns : list Turn) :
  NoDup (map clock1 turns) -> NoDup (map clock2 turns) ->
  NoDup (flat_map turnIds turns).
Proof.
  induction turns as [|t turns IH]; intros H1 H2; simpl; [constructor|].
  inversion H1 as [|c1 l1 Hnot1 Hrest1]; subst.
  inversion H2 as [|c2 l2 Hnot2 Hrest2]; subst.
  specialize (IH Hrest1 Hrest2).
  unfold turnIds at 1.
  destruct (Js.truthy (Js.trim (typed t))); [|exact IH].
  cbn [app].
  constructor; [|constructor; [|exact IH]].
  - intros [Heq | Hin].
    + symmetry in Heq. exact (user_bot_ids_differ _ _ Heq).
    + destruct (in_turnIds _ _ Hin) as [(t' & Ht' & Heq) | (t' & Ht' & Heq)].
      * apply user_ids_inj in Heq. apply Hnot1. rewrite Heq.
        apply in_map, Ht'.
      * exact (user_bot_ids_differ _ _ Heq).
  - intros Hin.
    destruct (in_turnIds _ _ Hin) as [(t' & Ht' & Heq) | (t' & Ht' & Heq)].
    + symmetry in Heq. exact (user_bot_ids_differ _ _ Heq).
    + apply bot_ids_inj in Heq. apply Hnot2. rewrite Heq.
      apply in_map, Ht'.
Qed.

(** C9 (as amended). For a session of chat turns that starts from an empty
    transcript: if no two turns read the same clock value for their user
    entry, and no two turns read the same clock value for their bot entry,
    then the identifiers of the transcript entries are pairwise distinct
    (within one turn the identifier of the user entry and that of the bot
    entry always differ). *)
Theorem ids_unique_for_distinct_clock_readings (s : State)
    (turns : list Turn) :
  chatMessages s = [] ->
  NoDup (map clock1 turns) ->
  NoDup (map clock2 turns) ->
  NoDup (map id (chatMessages (chatSession s turns))).
Proof.
  intros Hempty H1 H2. rewrite chatSession_ids, Hempty. simpl.
  apply turnIds_NoDup; assumption.
Qed.

Lemma ids_unique_for_distinct_clock_readings_witness :
  NoDup (map id (chatMessages
                   (chatSession Sample.reportShown Scenario.laterClockTurns))).
Proof.
  apply (ids_unique_for_distinct_clock_readings Sample.reportShown
           Scenario.laterClockTurns).
  - vm_compute. reflexivity.
  - vm_compute. repeat constructor; simpl; intuition discriminate.
  - vm_compute. repeat constructor; simpl; intuition discriminate.
Defined.

(** C9 as stated fails when two turns read the same clock value: their
    user entries get the same identifier and so do their bot entries, and
    the streaming update of the second turn also overwrites the reply of the
    first (which was [ab]). *)
Lemma same_clock_reading_same_ids :
  let transcript :=
    chatMessages (chatSession Sample.reportShown Scenario.sameClockTurns) in
  map id transcript
  = [ Js.lit "user-1000"; Js.lit "bot-1000";
      Js.lit "user-1000"; Js.lit "bot-1000" ]
  /\ map text transcript
     = [ Js.lit "hi"; Js.lit "c"; Js.lit "yo"; Js.lit "c" ]
  /\ ~ NoDup (map id transcript).
Proof.
  vm_compute. split; [reflexivity|]. split; [reflexivity|].
  intros H. inversion H as [|x l Hnot _]. apply Hnot.
  right. left. reflexivity.
Qed.

(* ================================================================== *)
(** ** More facts about renders and runs *)

Lemma commit_interval (rendered cur : State) :
  pollInterval (commit rendered cur)
  = if depsChanged rendered cur
    then (if pollGuard cur then taskId cur else None)
    else pollInterval cur.
Proof. unfold commit. destruct (depsChanged rendered cur); reflexivity. Qed.

Lemma depsChanged_false (rendered cur : State) :
  taskId cur = taskId rendered ->
  analysisStatus cur = analysisStatus rendered ->
  depsChanged rendered cur = false.
Proof.
  intros Ht Hs. unfold depsChanged.
  rewrite Ht, Hs, opt_eqb_refl, FrontendAnalysisStatus_eqb_refl. reflexivity.
Qed.

Lemma commit_unchanged (rendered cur : State) :
  taskId cur = taskId rendered ->
  analysisStatus cur = analysisStatus rendered ->
  commit rendered cur = cur.
Proof.
  intros Ht Hs. unfold commit. rewrite (depsChanged_false _ _ Ht Hs).
  reflexivity.
Qed.

(** Without a suspension, the effects are applied and one render follows. *)
Lemma run_sets (effs : list Effect) (rendered cur : State) :
  forallb notAwait effs = true ->
  run rendered cur effs = commit rendered (applyEffects cur effs).
Proof.
  revert cur. induction effs as [|e effs IH]; intros cur H; simpl in *;
    [reflexivity|].
  apply andb_true_iff in H. destruct H as [He Heffs].
  destruct e; try discriminate; apply IH; exact Heffs.
Qed.

Lemma run_settled (effs : list Effect) (s : State) :
  settled effs = true -> run s s effs = commit s (applyEffects s effs).
Proof.
  induction effs as [|e effs IH]; intros H; [reflexivity|].
  destruct e;
    try (apply run_sets; exact H);
    simpl in H; simpl; rewrite ?commit_same; apply IH; exact H.
Qed.

(** Effects that touch neither the task identifier, nor the status, nor
    the interval go through without a change of the interval. *)
Lemma applyEffect_inert (cur : State) (e : Effect) :
  inert e = true ->
  taskId (applyEffect cur e) = taskId cur
  /\ analysisStatus (applyEffect cur e) = analysisStatus cur
  /\ pollInterval (applyEffect cur e) = pollInterval cur.
Proof. destruct e; simpl; intros H; try discriminate; repeat split. Qed.

Lemma run_inert (effs : list Effect) (rendered cur : State) :
  forallb inert effs = true ->
  taskId cur = taskId rendered ->
  analysisStatus cur = analysisStatus rendered ->
  run rendered cur effs = applyEffects cur effs.
Proof.
  revert rendered cur.
  induction effs as [|e effs IH]; intros rendered cur H Ht Hs.
  - simpl. apply commit_unchanged; assumption.
  - simpl in H. apply andb_true_iff in H. destruct H as [He Heffs].
    destruct (applyEffect_inert cur e He) as (Et & Es & _).
    destruct e; try discriminate He; simpl;
      try (apply IH; [exact Heffs | simpl in *; congruence
                      | simpl in *; congruence]).
    rewrite (commit_unchanged _ _ Ht Hs). apply IH; auto.
Qed.

Lemma applyEffects_inert (effs : list Effect) (cur : State) :
  forallb inert effs = true ->
  taskId (applyEffects cur effs) = taskId cur
  /\ analysisStatus (applyEffects cur effs) = analysisStatus cur
  /\ pollInterval (applyEffects cur effs) = pollInterval cur.
Proof.
  unfold applyEffects. revert cur.
  induction effs as [|e effs IH]; intros cur H; simpl; [repeat split|].
  simpl in H. apply andb_true_iff in H. destruct H as [He Heffs].
  destruct (applyEffect_inert cur e He) as (Et & Es & Ep).
  destruct (IH (applyEffect cur e) Heffs) as (It & Is & Ip).
  repeat split; congruence.
Qed.

Lemma dispatch_inert (s : State) (effs : list Effect) :
  forallb inert effs = true -> dispatch s effs = applyEffects s effs.
Proof. intros H. apply run_inert; [exact H | reflexivity | reflexivity]. Qed.

Lemma pollCallback_settled (tid : JsString)
    (reply : HttpReply TaskStatusResponse) :
  settled (pollCallback tid reply) = true.
Proof.
  destruct reply as [e | httpStatus body | body]; simpl.
  - reflexivity.
  - destruct (httpStatus =? 404); [reflexivity|].
    destruct body; reflexivity.
  - destruct body as [e | data]; [reflexivity|].
    unfold onStatus, onCompleted, onFailed.
    destruct (status data); try reflexivity.
    destruct (Js.opt_truthy (html_content data)); [reflexivity|].
    destruct (Js.opt_truthy (html_url data)); reflexivity.
Qed.

(** A tick of a set interval: the effects of the callback, then one
    render. *)
Lemma pollTick_eq (s : State) (tid : JsString)
    (reply : HttpReply TaskStatusResponse) :
  pollInterval s = Some tid ->
  pollTick s reply = commit s (applyEffects s (pollCallback tid reply)).
Proof.
  intros Hp. unfold pollTick. rewrite Hp.
  apply run_settled, pollCallback_settled.
Qed.

Lemma networkCalls_pollCallback (tid : JsString)
    (reply : HttpReply TaskStatusResponse) :
  networkCalls (pollCallback tid reply) = [statusRequest tid].
Proof.
  unfold statusRequest.
  destruct reply as [e | httpStatus body | body]; simpl.
  - reflexivity.
  - destruct (httpStatus =? 404); [reflexivity|].
    destruct body; reflexivity.
  - destruct body as [e | data]; [reflexivity|].
    unfold onStatus, onCompleted, onFailed.
    destruct (status data); try reflexivity.
    destruct (Js.opt_truthy (html_content data)); [reflexivity|].
    destruct (Js.opt_truthy (html_url data)); reflexivity.
Qed.

Lemma pollGuard_sameFields (a b : State) :
  sameFields a b -> pollGuard a = pollGuard b.
Proof.
  intros (H1 & H2 & _). unfold pollGuard. rewrite H1, H2. reflexivity.
Qed.

(** Up to the first suspension, the effects are applied and one render
    follows. *)
Lemma run_until_await (pre rest : list Effect) (rendered cur : State) :
  forallb notAwait pre = true ->
  run rendered cur (pre ++ Await :: rest)
  = run (commit rendered (applyEffects cur pre))
        (commit rendered (applyEffects cur pre)) rest.
Proof.
  revert cur. induction pre as [|e pre IH]; intros cur H; [reflexivity|].
  simpl in H. apply andb_true_iff in H. destruct H as [He Hpre].
  destruct e; try discriminate; simpl; apply IH; exact Hpre.
Qed.

(** The run of a submission that goes out: the reset, a render while the
    request is out, then the effects [tail] that follow the reply and a
    last render. *)
Lemma run_start (s : State) (req : Request) (tail : list Effect) :
  forallb notAwait tail = true ->
  let c1 := commit s (applyEffects s startReset) in
  run s s (startReset ++ Fetch req :: Await :: tail)
  = commit c1 (applyEffects c1 tail)
  /\ run s s (startReset ++ Fetch req :: Await :: Await :: tail)
     = commit c1 (applyEffects c1 tail).
Proof.
  intros Htail c1.
  assert (Hpre : forallb notAwait (startReset ++ [Fetch req]) = true)
    by reflexivity.
  assert (Happ : applyEffects s (startReset ++ [Fetch req])
                 = applyEffects s startReset).
  { unfold applyEffects. rewrite fold_left_app. reflexivity. }
  split.
  - change (startReset ++ Fetch req :: Await :: tail)
      with ((startReset ++ [Fetch req]) ++ Await :: tail).
    rewrite (run_until_await _ tail s s Hpre), Happ. fold c1.
    apply run_sets, Htail.
  - change (startReset ++ Fetch req :: Await :: Await :: tail)
      with ((startReset ++ [Fetch req]) ++ Await :: Await :: tail).
    rewrite (run_until_await _ (Await :: tail) s s Hpre), Happ. fold c1.
    cbn [run]. rewrite commit_same. apply run_sets, Htail.
Qed.

(** After a submission that went out, the interval is set exactly when the
    condition of the polling effect holds, and then for the task of the
    state, provided the handler ends with a status other than [loading]. *)
Lemma run_start_interval (s : State) (req : Request) (tail : list Effect)
    (s' : State) :
  forallb notAwait tail = true ->
  s' = run s s (startReset ++ Fetch req :: Await :: tail)
  \/ s' = run s s (startReset ++ Fetch req :: Await :: Await :: tail) ->
  analysisStatus s' <> loading ->
  pollInterval s' = if pollGuard s' then taskId s' else None.
Proof.
  intros Htail Hs' Hstatus.
  destruct (run_start s req tail Htail) as [E1 E2].
  set (c1 := commit s (applyEffects s startReset)) in *.
  assert (Heq : s' = commit c1 (applyEffects c1 tail))
    by (destruct Hs' as [H | H]; rewrite H; assumption).
  clear E1 E2 Hs'.
  pose proof (sameFields_commit c1 (applyEffects c1 tail)) as Hsame.
  rewrite <- Heq in Hsame.
  rewrite (pollGuard_sameFields _ _ Hsame).
  destruct Hsame as (Hst & Htid & _).
  rewrite Htid, Heq, commit_interval.
  assert (Hc1 : analysisStatus c1 = loading).
  { unfold c1. destruct (sameFields_commit s (applyEffects s startReset))
      as (H & _). rewrite H. reflexivity. }
  assert (Hdeps : depsChanged c1 (applyEffects c1 tail) = true).
  { unfold depsChanged. rewrite Hc1, <- Hst.
    destruct (analysisStatus s'); try contradiction;
      rewrite andb_false_r; reflexivity. }
  rewrite Hdeps. reflexivity.
Qed.

(** The shape of the effects of a submission with a non-blank prompt. *)
Lemma handleStartAnalysis_shape (s : State) (reply : HttpReply StartData) :
  Js.truthy (Js.trim (reportRequirementsInput s)) = true ->
  exists tail,
    forallb notAwait tail = true
    /\ (handleStartAnalysis s reply
        = startReset
          ++ Fetch (PostJson (BACKEND_URL ++ Js.lit "/api/start-analysis")
                      (reportRequirementsInput s))
          :: Await :: tail
        \/ handleStartAnalysis s reply
           = startReset
             ++ Fetch (PostJson (BACKEND_URL ++ Js.lit "/api/start-analysis")
                         (reportRequirementsInput s))
             :: Await :: Await :: tail).
Proof.
  intros Hprompt. unfold handleStartAnalysis. rewrite Hprompt. cbn [negb].
  destruct reply as [e | httpStatus [e | errorData] | [e | data]];
    eexists; split; revgoals;
    try ((right; reflexivity) || (left; reflexivity)); reflexivity.
Qed.

(** After a submission with a non-blank prompt the status is never left at
    [loading], and the interval is set exactly when the condition of the
    polling effect holds. *)
Lemma startAnalysis_interval (s : State) (reply : HttpReply StartData) :
  Js.truthy (Js.trim (reportRequirementsInput s)) = true ->
  let s' := startAnalysis s reply in
  analysisStatus s' <> loading
  /\ pollInterval s' = if pollGuard s' then taskId s' else None.
Proof.
  intros Hprompt s'.
  assert (Hstatus : analysisStatus s' <> loading).
  { unfold s', startAnalysis.
    destruct (sameFields_dispatch s (handleStartAnalysis s reply)) as (H & _).
    rewrite H. unfold handleStartAnalysis. rewrite Hprompt.
    destruct reply as [e | httpStatus [e | errorData] | [e | data]];
      discriminate. }
  split; [exact Hstatus|].
  destruct (handleStartAnalysis_shape s reply Hprompt) as (tail & Htail & Hs).
  apply (run_start_interval s
           (PostJson (BACKEND_URL ++ Js.lit "/api/start-analysis")
              (reportRequirementsInput s)) tail s' Htail);
    [|exact Hstatus].
  unfold s', startAnalysis, dispatch.
  destruct Hs as [H | H]; rewrite H; [left | right]; reflexivity.
Qed.

(* ================================================================== *)
(** ** The submission *)

(** X1. A submission with a non-blank prompt issues exactly one request,
    whatever the backend answers: a POST to the start address of the
    backend carrying the prompt as typed, untrimmed. *)
Theorem start_issues_one_request (s : State) (reply : HttpReply StartData) :
  Js.truthy (Js.trim (reportRequirementsInput s)) = true ->
  networkCalls (handleStartAnalysis s reply)
  = [ Fetch (PostJson (BACKEND_URL ++ Js.lit "/api/start-analysis")
               (reportRequirementsInput s)) ].
Proof.
  intros Hprompt. unfold handleStartAnalysis. rewrite Hprompt.
  destruct reply as [e | httpStatus [e | errorData] | [e | data]];
    reflexivity.
Qed.

Lemma start_issues_one_request_witness :
  networkCalls
    (handleStartAnalysis
       (applyEffect initialState (SetReportRequirementsInput (Js.lit " a ")))
       (FetchThrows ThrownOther))
  = [ Fetch (PostJson (BACKEND_URL ++ Js.lit "/api/start-analysis")
               (Js.lit " a ")) ].
Proof.
  apply (start_issues_one_request
           (applyEffect initialState
              (SetReportRequirementsInput (Js.lit " a ")))
           (FetchThrows ThrownOther)).
  vm_compute. reflexivity.
Defined.

Lemma startAnalysis_fields (s : State) (reply : HttpReply StartData) :
  sameFields (startAnalysis s reply)
    (applyEffects s (handleStartAnalysis s reply)).
Proof. apply sameFields_dispatch. Qed.

(** X2. A submission with a non-blank prompt that the backend accepts with
    a non-empty task identifier starts the poll cycle: the status is
    [processing], the task identifier is stored, the interval is set for
    this task, result and error are null, the spinner is shown, and the
    next tick asks the backend for the status of this task. *)
Theorem start_accepted_begins_polling (s : State) (tid : JsString) :
  Js.truthy (Js.trim (reportRequirementsInput s)) = true ->
  tid <> [] ->
  let s1 := startAnalysis s (Ok (BodyJson {| new_task_id := Some tid |})) in
  polling s1 tid
  /\ analysisStatus s1 = processing
  /\ errorMessage s1 = None
  /\ htmlReportContent s1 = None
  /\ analysisResultUrl s1 = None
  /\ statusMessage s1 = Js.lit "分析任务已启动，正在处理中..."
  /\ showsSpinner s1 = true
  /\ forall reply, pollCalls s1 [reply] = [statusRequest tid].
Proof.
  intros Hprompt Htid s1.
  destruct (startAnalysis_accepted s (Some tid) Hprompt)
    as (Hst & Ht & He & Hh & Hu).
  fold s1 in Hst, Ht, He, Hh, Hu.
  destruct (startAnalysis_interval s
              (Ok (BodyJson {| new_task_id := Some tid |})) Hprompt)
    as [_ Hi].
  fold s1 in Hi.
  assert (Hguard : pollGuard s1 = true).
  { unfold pollGuard. rewrite Ht, Hst. simpl.
    apply JsFacts.truthy_true in Htid. rewrite Htid. reflexivity. }
  rewrite Hguard, Ht in Hi.
  assert (Hmsg : statusMessage s1 = Js.lit "分析任务已启动，正在处理中...").
  { destruct (startAnalysis_fields s
                (Ok (BodyJson {| new_task_id := Some tid |})))
      as (_ & _ & _ & _ & H & _).
    fold s1 in H. rewrite H. unfold handleStartAnalysis. rewrite Hprompt.
    reflexivity. }
  repeat split; try assumption.
  - unfold showsSpinner. rewrite Hst, Hh, Hu. reflexivity.
  - intros reply. simpl. rewrite Hi, app_nil_r.
    apply networkCalls_pollCallback.
Qed.

Lemma start_accepted_begins_polling_witness :
  let s1 := startAnalysis initialState
              (Ok (BodyJson {| new_task_id := Some Sample.taskAbc |})) in
  polling s1 Sample.taskAbc
  /\ analysisStatus s1 = processing
  /\ errorMessage s1 = None
  /\ htmlReportContent s1 = None
  /\ analysisResultUrl s1 = None
  /\ statusMessage s1 = Js.lit "分析任务已启动，正在处理中..."
  /\ showsSpinner s1 = true
  /\ forall reply, pollCalls s1 [reply] = [statusRequest Sample.taskAbc].
Proof.
  apply (start_accepted_begins_polling initialState Sample.taskAbc).
  - vm_compute. reflexivity.
  - vm_compute. discriminate.
Defined.



(* ================================================================== *)
(** ** The poll cycle: replies that continue, failures, requests *)

Lemma or_else_left (a b : JsString) : a <> [] -> Js.or_else a b = a.
Proof.
  intros H. unfold Js.or_else. apply JsFacts.truthy_true in H.
  rewrite H. reflexivity.
Qed.

(** A reply with status [pending] or [processing] keeps the interval on
    its task. *)
Lemma pollTick_keeps_polling (s : State) (tid : JsString)
    (reply : HttpReply TaskStatusResponse) :
  polling s tid -> continues reply = true ->
  polling (pollTick s reply) tid
  /\ analysisStatus (pollTick s reply) = processing.
Proof.
  intros (Hp & Ht & Hne) Hc.
  rewrite (pollTick_eq s tid reply Hp).
  destruct reply as [e | httpStatus body | [e | data]]; try discriminate.
  simpl in Hc.
  set (cur := applyEffects s (pollCallback tid (Ok (BodyJson data)))).
  assert (Hcur : taskId cur = Some tid /\ analysisStatus cur = processing
                 /\ pollInterval cur = Some tid).
  { unfold cur, pollCallback, onStatus.
    destruct (status data); try discriminate; simpl; auto. }
  destruct Hcur as (Ct & Cs & Cp).
  destruct (sameFields_commit s cur) as (F1 & F2 & _).
  unfold polling. rewrite F1, F2, Ct, Cs, commit_interval.
  assert (Hguard : pollGuard cur = true).
  { unfold pollGuard. rewrite Ct, Cs. simpl.
    apply JsFacts.truthy_true in Hne. rewrite Hne. reflexivity. }
  rewrite Hguard, Ct, Cp.
  destruct (depsChanged s cur); repeat split; assumption.
Qed.

(** X4. A reply with status [pending] or [processing], received while the
    interval is set for the task of the state, keeps the cycle going: the
    interval stays set for the same task, the status is [processing], and
    task identifier, result fields and error message are as before. *)
Theorem continuing_reply_keeps_polling (s : State) (tid : JsString)
    (reply : HttpReply TaskStatusResponse) :
  polling s tid ->
  continues reply = true ->
  let s' := pollTick s reply in
  polling s' tid
  /\ analysisStatus s' = processing
  /\ errorMessage s' = errorMessage s
  /\ htmlReportContent s' = htmlReportContent s
  /\ analysisResultUrl s' = analysisResultUrl s.
Proof.
  intros Hpoll Hc s'.
  destruct (pollTick_keeps_polling s tid reply Hpoll Hc) as [H1 H2].
  destruct (pollTick_continues s reply Hc) as (_ & He & Hh & Hu).
  repeat split; try assumption; apply H1.
Qed.

Lemma polling_submitted : polling Sample.submitted Sample.taskAbc.
Proof. vm_compute. repeat split. discriminate. Qed.

Lemma continuing_reply_keeps_polling_witness :
  let s' := pollTick Sample.submitted Sample.stillProcessing in
  polling s' Sample.taskAbc
  /\ analysisStatus s' = processing
  /\ errorMessage s' = errorMessage Sample.submitted
  /\ htmlReportContent s' = htmlReportContent Sample.submitted
  /\ analysisResultUrl s' = analysisResultUrl Sample.submitted.
Proof.
  apply (continuing_reply_keeps_polling Sample.submitted Sample.taskAbc
           Sample.stillProcessing).
  - exact polling_submitted.
  - vm_compute. reflexivity.
Defined.

(** Up to and including the first reply that is neither [pending] nor
    [processing], each reply is asked for once; the replies after it are
    neither asked for nor handled. *)
Lemma pollCalls_until_terminal (s : State) (tid : JsString)
    (pre : list (HttpReply TaskStatusResponse))
    (reply : HttpReply TaskStatusResponse)
    (post : list (HttpReply TaskStatusResponse)) :
  polling s tid ->
  Forall (fun r => continues r = true) pre ->
  continues reply = false ->
  pollCalls s (pre ++ reply :: post)
  = repeat (statusRequest tid) (List.length pre + 1)
  /\ pollCycle s (pre ++ reply :: post) = pollCycle s (pre ++ [reply])
  /\ taskId (pollCycle s (pre ++ [reply])) = None
  /\ pollInterval (pollCycle s (pre ++ [reply])) = None.
Proof.
  intros Hpolling Hcontinue Hstop. revert s Hpolling Hcontinue Hstop.
  induction pre as [|r pre IH]; intros s Hpoll Hpre Hc.
  - destruct Hpoll as (Hp & _).
    destruct (pollTick_stops s tid reply Hp Hc) as (Ht & Hi & Hmore).
    cbn [app pollCalls]. rewrite Hp, networkCalls_pollCallback.
    destruct (Hmore post) as [Hcycle Hcalls].
    rewrite Hcalls. split; [reflexivity|].
    unfold pollCycle in *. cbn [fold_left].
    split; [exact Hcycle|]. split; assumption.
  - inversion Hpre as [|r' pre' Hr Hrest]; subst.
    destruct (pollTick_keeps_polling s tid r Hpoll Hr) as [Hnext _].
    destruct (IH (pollTick s r) Hnext Hrest Hc) as (Hcalls & Hcycle & Hend).
    destruct Hpoll as (Hp & _).
    cbn [app pollCalls]. rewrite Hp, networkCalls_pollCallback, Hcalls.
    split; [reflexivity|].
    unfold pollCycle in *. cbn [app fold_left].
    split; [exact Hcycle | exact Hend].
Qed.

(** The interval fires with nothing out, and the reply arrives before
    anything else happens: that is one tick of the poll cycle. *)
Lemma occur_in_turn (s : State) (reply : HttpReply TaskStatusResponse) :
  occurAll {| shown := s; inFlight := [] |} [IntervalFires; ReplyArrives 0 reply]
  = {| shown := pollTick s reply; inFlight := [] |}.
Proof.
  unfold occurAll, pollTick. cbn [fold_left occur shown inFlight].
  destruct (pollInterval s) as [tid|] eqn:Hp.
  - cbn [shown inFlight app nth_error dropNth firstn skipn]. reflexivity.
  - cbn [shown inFlight nth_error]. reflexivity.
Qed.

(** When every reply arrives before the next tick, the page goes through
    the poll cycle, with its requests, and nothing stays out. *)
Lemma inTurn_pollCycle (replies : list (HttpReply TaskStatusResponse))
    (s : State) :
  occurAll {| shown := s; inFlight := [] |} (inTurn replies)
  = {| shown := pollCycle s replies; inFlight := [] |}
  /\ statusRequests {| shown := s; inFlight := [] |} (inTurn replies)
     = pollCalls s replies
  /\ repliesInTime {| shown := s; inFlight := [] |} (inTurn replies) = true.
Proof.
  revert s. induction replies as [|reply replies IH]; intros s.
  - repeat split.
  - destruct (IH (pollTick s reply)) as (Hall & Hreq & Htime).
    pose proof (occur_in_turn s reply) as Hturn.
    unfold occurAll in *. unfold inTurn in *.
    cbn [flat_map app fold_left statusRequests repliesInTime pollCycle
         pollCalls] in *.
    rewrite Hturn, Hall, Hreq, Htime.
    cbn [shown inFlight andb].
    destruct (pollInterval s) as [tid|] eqn:Hp;
      rewrite ?networkCalls_pollCallback; repeat split.
Qed.

(** X5. From a page where the interval is set for the task of the state and
    no request is out, when every reply arrives before the next tick and
    the first reply not to be [pending] or [processing] is [reply]: one
    status request goes out per reply up to and including [reply], all for
    the same task; after [reply] the task identifier is null, no interval
    is set and no request is out; and the ticks that would have brought the
    replies after it do not happen: no request goes out for them and the
    page stays as it is. *)
Theorem poll_requests_until_terminal (s : State) (tid : JsString)
    (pre : list (HttpReply TaskStatusResponse))
    (reply : HttpReply TaskStatusResponse)
    (post : list (HttpReply TaskStatusResponse)) :
  polling s tid ->
  Forall (fun r => continues r = true) pre ->
  continues reply = false ->
  let p := {| shown := s; inFlight := [] |} in
  let p' := occurAll p (inTurn (pre ++ [reply])) in
  repliesInTime p (inTurn (pre ++ reply :: post)) = true
  /\ statusRequests p (inTurn (pre ++ reply :: post))
     = repeat (statusRequest tid) (List.length pre + 1)
  /\ taskId (shown p') = None
  /\ pollInterval (shown p') = None
  /\ inFlight p' = []
  /\ occurAll p (inTurn (pre ++ reply :: post)) = p'.
Proof.
  intros Hpolling Hcontinue Hstop p p'.
  destruct (pollCalls_until_terminal s tid pre reply post
              Hpolling Hcontinue Hstop) as (Hcalls & Hcycle & Ht & Hi).
  destruct (inTurn_pollCycle (pre ++ reply :: post) s)
    as (Hall & Hreq & Htime).
  destruct (inTurn_pollCycle (pre ++ [reply]) s) as (Hlast & _).
  fold p in Hall, Hreq, Htime, Hlast. fold p' in Hlast.
  rewrite Hreq, Hall, Hlast, Hcalls, Hcycle.
  cbn [shown inFlight].
  repeat split; assumption.
Qed.

Lemma poll_requests_until_terminal_witness :
  let pre := [Sample.stillProcessing; Sample.stillProcessing] in
  let reply := Ok (BodyJson Sample.okReport) in
  let post := [Sample.stillProcessing; Ok (BodyJson Sample.parseFailure)] in
  let p := {| shown := Sample.submitted; inFlight := [] |} in
  let p' := occurAll p (inTurn (pre ++ [reply])) in
  statusRequests p (inTurn (pre ++ reply :: post))
  = repeat
      (Fetch (Get (Js.lit "http://localhost:5001/api/analysis-status/abc123")))
      3
  /\ analysisStatus (shown p') = success
  /\ htmlReportContent (shown p') = Some (Js.lit "<h1>OK</h1>")
  /\ taskId (shown p') = None
  /\ pollInterval (shown p') = None
  /\ inFlight p' = []
  /\ occurAll p (inTurn (pre ++ reply :: post)) = p'.
Proof.
  destruct (poll_requests_until_terminal Sample.submitted Sample.taskAbc
              [Sample.stillProcessing; Sample.stillProcessing]
              (Ok (BodyJson Sample.okReport))
              [Sample.stillProcessing; Ok (BodyJson Sample.parseFailure)])
    as (_ & Hreq & Ht & Hi & Hout & Hsame).
  - exact polling_submitted.
  - repeat constructor.
  - vm_compute. reflexivity.
  - cbv zeta. rewrite Hreq, Ht, Hi, Hout, Hsame.
    split; [vm_compute; reflexivity|].
    split; [vm_compute; reflexivity|].
    split; [vm_compute; reflexivity|].
    repeat split.
Defined.

Lemma pollTick_fields (s : State) (tid : JsString)
    (reply : HttpReply TaskStatusResponse) :
  pollInterval s = Some tid ->
  sameFields (pollTick s reply) (applyEffects s (pollCallback tid reply)).
Proof.
  intros Hp. unfold pollTick. rewrite Hp. apply sameFields_dispatch.
Qed.

Lemma transportFailure_stops (reply : HttpReply TaskStatusResponse)
    (e : Thrown) :
  transportFailure reply e -> continues reply = false.
Proof. intros H. destruct H; reflexivity. Qed.

(** X6. A tick whose request fails otherwise than with a 404 (the request
    throws, the body cannot be read, or the status is not a success) is
    terminal: the status is [error], the error message is the message of
    the failure (the fixed text of the source when the caught value is no
    [Error]), the task identifier is null, polling has stopped, and the
    result fields are as before. *)
Theorem poll_transport_failure_terminal (s : State) (tid : JsString)
    (reply : HttpReply TaskStatusResponse) (e : Thrown) :
  pollInterval s = Some tid ->
  transportFailure reply e ->
  (forall body, reply <> NotOk 404 body) ->
  let s' := pollTick s reply in
  analysisStatus s' = error
  /\ errorMessage s' = Some (messageOf e (Js.lit "获取分析状态失败。"))
  /\ statusMessage s' = Js.lit "获取分析状态时出错。"
  /\ taskId s' = None
  /\ pollingStopped s'
  /\ htmlReportContent s' = htmlReportContent s
  /\ analysisResultUrl s' = analysisResultUrl s.
Proof.
  intros Hp Hfail Hnot404 s'.
  assert (Hstop : pollingStopped s')
    by (apply (pollTick_stops s tid reply Hp),
          (transportFailure_stops reply e Hfail)).
  destruct (pollTick_fields s tid reply Hp) as (F1 & _ & F3 & F4 & F5 & F6 & _).
  fold s' in F1, F3, F4, F5, F6.
  rewrite F1, F3, F4, F5, F6. clear F1 F3 F4 F5 F6.
  unfold pollCallback.
  destruct Hfail as [e | e | httpStatus e | httpStatus errorData];
    try (repeat split; try reflexivity; apply Hstop);
    (destruct (N.eqb_spec httpStatus 404) as [Heq | Hneq];
     [ subst httpStatus; exfalso; eapply Hnot404; reflexivity
     | repeat split; try reflexivity; apply Hstop ]).
Qed.

Lemma poll_transport_failure_terminal_witness :
  let s' := pollTick Sample.submitted
              (NotOk 503 (BodyJson {| err := Some (Js.lit "busy") |})) in
  analysisStatus s' = error
  /\ errorMessage s' = Some (Js.lit "busy")
  /\ taskId s' = None
  /\ pollingStopped s'.
Proof.
  destruct (poll_transport_failure_terminal Sample.submitted Sample.taskAbc
              (NotOk 503 (BodyJson {| err := Some (Js.lit "busy") |}))
              (httpError 503 {| err := Some (Js.lit "busy") |}))
    as (H1 & H2 & _ & H4 & H5 & _).
  - vm_compute. reflexivity.
  - apply failure_status.
  - intros body H. discriminate H.
  - cbv zeta. rewrite H1, H2, H4.
    split; [reflexivity|]. split; [vm_compute; reflexivity|].
    split; [reflexivity | exact H5].
Defined.

(** X7. Whatever the status of a parsed reply, a non-empty [message] of the
    backend is the status message shown after the tick. *)
Theorem backend_message_is_shown (s : State) (tid : JsString)
    (data : TaskStatusResponse) :
  pollInterval s = Some tid ->
  message data <> [] ->
  statusMessage (pollTick s (Ok (BodyJson data))) = message data.
Proof.
  intros Hp Hmsg.
  destruct (pollTick_fields s tid (Ok (BodyJson data)) Hp)
    as (_ & _ & _ & _ & F5 & _).
  rewrite F5. unfold pollCallback, onStatus, onCompleted, onFailed.
  destruct (status data); simpl;
    try (destruct (Js.opt_truthy (html_content data));
         [|destruct (Js.opt_truthy (html_url data))]; simpl);
    apply (or_else_left _ _ Hmsg).
Qed.

Lemma backend_message_is_shown_witness :
  statusMessage (pollTick Sample.submitted (Ok (BodyJson Sample.noReport)))
  = Js.lit "done".
Proof.
  apply (backend_message_is_shown Sample.submitted Sample.taskAbc
           Sample.noReport).
  - vm_compute. reflexivity.
  - vm_compute. discriminate.
Defined.

(* ================================================================== *)
(** ** What each controller leaves alone *)

Lemma applyEffects_lifecycleOnly (effs : list Effect) (s : State) :
  forallb lifecycleOnly effs = true ->
  chatMessages (applyEffects s effs) = chatMessages s
  /\ userInput (applyEffects s effs) = userInput s
  /\ reportRequirementsInput (applyEffects s effs) = reportRequirementsInput s.
Proof.
  unfold applyEffects. revert s.
  induction effs as [|e effs IH]; intros s H; simpl; [repeat split|].
  simpl in H. apply andb_true_iff in H. destruct H as [He Heffs].
  destruct (IH (applyEffect s e) Heffs) as (I1 & I2 & I3).
  rewrite I1, I2, I3.
  destruct e; try discriminate He; repeat split.
Qed.

Lemma handleStartAnalysis_lifecycleOnly (s : State)
    (reply : HttpReply StartData) :
  forallb lifecycleOnly (handleStartAnalysis s reply) = true.
Proof.
  unfold handleStartAnalysis.
  destruct (negb (Js.truthy (Js.trim (reportRequirementsInput s))));
    [reflexivity|].
  destruct reply as [e | httpStatus [e | errorData] | [e | data]];
    reflexivity.
Qed.

Lemma pollCallback_lifecycleOnly (tid : JsString)
    (reply : HttpReply TaskStatusResponse) :
  forallb lifecycleOnly (pollCallback tid reply) = true.
Proof.
  destruct reply as [e | httpStatus body | body]; simpl.
  - reflexivity.
  - destruct (httpStatus =? 404); [reflexivity|].
    destruct body; reflexivity.
  - destruct body as [e | data]; [reflexivity|].
    unfold onStatus, onCompleted, onFailed.
    destruct (status data); try reflexivity.
    destruct (Js.opt_truthy (html_content data)); [reflexivity|].
    destruct (Js.opt_truthy (html_url data)); reflexivity.
Qed.

Lemma dispatch_lifecycleOnly (s : State) (effs : list Effect) :
  forallb lifecycleOnly effs = true ->
  chatMessages (dispatch s effs) = chatMessages s
  /\ userInput (dispatch s effs) = userInput s
  /\ reportRequirementsInput (dispatch s effs) = reportRequirementsInput s.
Proof.
  intros H.
  destruct (sameFields_dispatch s effs)
    as (_ & _ & _ & _ & _ & _ & F7 & F8 & F9).
  rewrite F7, F8, F9. apply applyEffects_lifecycleOnly, H.
Qed.

Lemma pollTick_lifecycleOnly (s : State)
    (reply : HttpReply TaskStatusResponse) :
  chatMessages (pollTick s reply) = chatMessages s
  /\ userInput (pollTick s reply) = userInput s
  /\ reportRequirementsInput (pollTick s reply) = reportRequirementsInput s.
Proof.
  unfold pollTick. destruct (pollInterval s) as [tid|]; [|repeat split].
  apply dispatch_lifecycleOnly, pollCallback_lifecycleOnly.
Qed.

(** X8. The task lifecycle controller never writes to the conversation:
    whatever the backend answers, a submission and a tick of the interval
    leave the transcript, the chat box and the requirements box as they
    were. *)
Theorem lifecycle_leaves_conversation_alone (s : State)
    (startReply : HttpReply StartData)
    (pollReply : HttpReply TaskStatusResponse) :
  (chatMessages (startAnalysis s startReply) = chatMessages s
   /\ userInput (startAnalysis s startReply) = userInput s
   /\ reportRequirementsInput (startAnalysis s startReply)
      = reportRequirementsInput s)
  /\ (chatMessages (pollTick s pollReply) = chatMessages s
      /\ userInput (pollTick s pollReply) = userInput s
      /\ reportRequirementsInput (pollTick s pollReply)
         = reportRequirementsInput s).
Proof.
  split.
  - apply dispatch_lifecycleOnly, handleStartAnalysis_lifecycleOnly.
  - apply pollTick_lifecycleOnly.
Qed.

Lemma applyEffects_conversationOnly (effs : list Effect) (s : State) :
  forallb conversationOnly effs = true ->
  analysisStatus (applyEffects s effs) = analysisStatus s
  /\ taskId (applyEffects s effs) = taskId s
  /\ analysisResultUrl (applyEffects s effs) = analysisResultUrl s
  /\ htmlReportContent (applyEffects s effs) = htmlReportContent s
  /\ reportRequirementsInput (applyEffects s effs) = reportRequirementsInput s
  /\ pollInterval (applyEffects s effs) = pollInterval s.
Proof.
  unfold applyEffects. revert s.
  induction effs as [|e effs IH]; intros s H; simpl; [repeat split|].
  simpl in H. apply andb_true_iff in H. destruct H as [He Heffs].
  destruct (IH (applyEffect s e) Heffs) as (I1 & I2 & I3 & I4 & I5 & I6).
  rewrite I1, I2, I3, I4, I5, I6.
  destruct e; try discriminate He; repeat split.
Qed.

Lemma conversationOnly_inert (effs : list Effect) :
  forallb conversationOnly effs = true -> forallb inert effs = true.
Proof.
  induction effs as [|e effs IH]; simpl; [reflexivity|].
  intros H. apply andb_true_iff in H. destruct H as [He Heffs].
  rewrite (IH Heffs). destruct e; try discriminate He; reflexivity.
Qed.

Lemma streamLoop_conversationOnly (botMessageId : JsString)
    (chunks : list Chunk) (accumulated : JsString) :
  forallb conversationOnly (streamLoop botMessageId accumulated chunks)
  = true.
Proof.
  revert accumulated. induction chunks as [|chunk chunks IH];
    intros accumulated; simpl; [reflexivity|].
  destruct (Js.truthy (contentDelta chunk)); simpl; apply IH.
Qed.

Lemma handleSendMessage_conversationOnly (s : State) (now1 now2 : N)
    (streamReply : StreamReply) :
  forallb conversationOnly (handleSendMessage s now1 now2 streamReply) = true.
Proof.
  unfold handleSendMessage.
  destruct (negb (Js.truthy (Js.trim (userInput s)))); [reflexivity|].
  cbv zeta. rewrite forallb_app. apply andb_true_iff. split; [reflexivity|].
  destruct streamReply as [e | chunks [|e]].
  - reflexivity.
  - rewrite forallb_app, streamLoop_conversationOnly. reflexivity.
  - rewrite forallb_app, streamLoop_conversationOnly. reflexivity.
Qed.

(** A chat turn is the plain succession of its effects: no render changes
    the interval. *)
Lemma sendMessage_eq (s : State) (now1 now2 : N) (streamReply : StreamReply) :
  sendMessage s now1 now2 streamReply
  = applyEffects s (handleSendMessage s now1 now2 streamReply).
Proof.
  apply dispatch_inert, conversationOnly_inert,
    handleSendMessage_conversationOnly.
Qed.

(** X9. The conversation controller never writes to the task lifecycle:
    whatever the chat endpoint does, a chat turn leaves the status, the
    task identifier, both result fields, the requirements box and the
    interval as they were, and it sends no request to the backend. *)
Theorem chat_leaves_lifecycle_alone (s : State) (now1 now2 : N)
    (streamReply : StreamReply) :
  let s' := sendMessage s now1 now2 streamReply in
  analysisStatus s' = analysisStatus s
  /\ taskId s' = taskId s
  /\ analysisResultUrl s' = analysisResultUrl s
  /\ htmlReportContent s' = htmlReportContent s
  /\ reportRequirementsInput s' = reportRequirementsInput s
  /\ pollInterval s' = pollInterval s
  /\ forall req,
       ~ In (Fetch req) (handleSendMessage s now1 now2 streamReply).
Proof.
  cbv zeta. rewrite sendMessage_eq.
  pose proof (handleSendMessage_conversationOnly s now1 now2 streamReply)
    as Hconv.
  destruct (applyEffects_conversationOnly _ s Hconv)
    as (H1 & H2 & H3 & H4 & H5 & H6).
  repeat split; try assumption.
  intros req Hin.
  rewrite forallb_forall in Hconv. specialize (Hconv _ Hin).
  discriminate Hconv.
Qed.

(* ================================================================== *)
(** ** Sessions of the page *)

Lemma FrontendAnalysisStatus_eqb_eq (a b : FrontendAnalysisStatus) :
  FrontendAnalysisStatus_eqb a b = true <-> a = b.
Proof. destruct a, b; simpl; split; intros H; congruence. Qed.

Lemma coherent_initial : coherent initialState.
Proof.
  constructor; simpl.
  - discriminate.
  - intros H. exfalso. apply H. reflexivity.
  - reflexivity.
  - intros H. discriminate H.
  - intros H. exfalso. apply H. reflexivity.
Qed.

(** Coherence only looks at the lifecycle fields and at whether there is a
    transcript. *)
Lemma coherent_same_lifecycle (s s' : State) :
  coherent s ->
  analysisStatus s' = analysisStatus s ->
  taskId s' = taskId s ->
  pollInterval s' = pollInterval s ->
  htmlReportContent s' = htmlReportContent s ->
  analysisResultUrl s' = analysisResultUrl s ->
  (chatMessages s' <> [] -> analysisStatus s' = success) ->
  coherent s'.
Proof.
  intros [C1 C2 C3 C4 C5] Hs Ht Hp Hh Hu Hchat.
  constructor.
  - rewrite Hs. exact C1.
  - rewrite Hs, Ht. exact C2.
  - rewrite Hs, Ht, Hp. exact C3.
  - unfold resultSet in *. rewrite Hs, Hh, Hu. exact C4.
  - exact Hchat.
Qed.

Lemma coherent_inert_dispatch (s : State) (effs : list Effect) :
  coherent s ->
  forallb conversationOnly effs = true ->
  (chatMessages (applyEffects s effs) <> [] -> analysisStatus s = success) ->
  coherent (dispatch s effs).
Proof.
  intros Hc Hconv Hchat.
  rewrite (dispatch_inert s effs (conversationOnly_inert effs Hconv)).
  destruct (applyEffects_conversationOnly effs s Hconv)
    as (H1 & H2 & H3 & H4 & _ & H6).
  apply (coherent_same_lifecycle s); try assumption.
  rewrite H1. exact Hchat.
Qed.

(** What a submission that goes out leaves in the lifecycle fields. *)
Lemma startAnalysis_cases (s : State) (reply : HttpReply StartData) :
  Js.truthy (Js.trim (reportRequirementsInput s)) = true ->
  let s' := startAnalysis s reply in
  htmlReportContent s' = None
  /\ analysisResultUrl s' = None
  /\ (analysisStatus s' = processing
      \/ (analysisStatus s' = error /\ taskId s' = taskId s)).
Proof.
  intros Hprompt s'.
  destruct (startAnalysis_fields s reply) as (F1 & F2 & F3 & F4 & _).
  fold s' in F1, F2, F3, F4. rewrite F1, F2, F3, F4.
  unfold handleStartAnalysis. rewrite Hprompt.
  destruct reply as [e | httpStatus [e | errorData] | [e | data]];
    repeat split; auto.
Qed.

(** What a reply that ends the cycle leaves in the lifecycle fields. *)
Lemma pollTick_stop_cases (s : State) (tid : JsString)
    (reply : HttpReply TaskStatusResponse) :
  pollInterval s = Some tid ->
  continues reply = false ->
  let s' := pollTick s reply in
  analysisStatus s' = success
  \/ (analysisStatus s' = error
      /\ htmlReportContent s' = htmlReportContent s
      /\ analysisResultUrl s' = analysisResultUrl s).
Proof.
  intros Hp Hc s'.
  destruct (pollTick_fields s tid reply Hp) as (F1 & _ & F3 & F4 & _).
  fold s' in F1, F3, F4. rewrite F1, F3, F4.
  unfold pollCallback.
  destruct reply as [e | httpStatus body | [e | data]].
  - right. repeat split.
  - destruct (httpStatus =? 404); [right; repeat split|].
    destruct body; right; repeat split.
  - right. repeat split.
  - simpl in Hc. unfold onStatus, onCompleted, onFailed.
    destruct (status data); try discriminate.
    + left.
      destruct (Js.opt_truthy (html_content data)); [reflexivity|].
      destruct (Js.opt_truthy (html_url data)); reflexivity.
    + right. repeat split.
Qed.

Lemma coherent_polling (s : State) (tid : JsString) :
  coherent s -> pollInterval s = Some tid ->
  polling s tid /\ analysisStatus s = processing.
Proof.
  intros [_ _ C3 _ _] Hp. rewrite Hp in C3.
  destruct (FrontendAnalysisStatus_eqb (analysisStatus s) processing) eqn:Hs;
    [|discriminate].
  destruct (Js.opt_truthy (taskId s)) eqn:Ht; [|discriminate].
  simpl in C3. apply FrontendAnalysisStatus_eqb_eq in Hs.
  split; [|exact Hs].
  split; [exact Hp|]. split; [symmetry; exact C3|].
  rewrite <- C3 in Ht. simpl in Ht. apply JsFacts.truthy_true, Ht.
Qed.

Lemma pollTick_coherent (s : State) (reply : HttpReply TaskStatusResponse) :
  coherent s -> coherent (pollTick s reply).
Proof.
  intros Hc.
  destruct (pollInterval s) as [tid|] eqn:Hp;
    [|rewrite (pollTick_idle s reply Hp); exact Hc].
  destruct (coherent_polling s tid Hc Hp) as [Hpoll Hs].
  destruct (pollTick_lifecycleOnly s reply) as (Hchat & _).
  destruct Hc as [C1 C2 C3 C4 C5].
  assert (Hnochat : chatMessages (pollTick s reply) = []).
  { rewrite Hchat. destruct (chatMessages s) as [|m l] eqn:E;
      [reflexivity|].
    assert (analysisStatus s = success) by (apply C5; discriminate).
    congruence. }
  assert (Hnores : resultSet s = false).
  { destruct (resultSet s) eqn:E; [|reflexivity].
    assert (analysisStatus s = success) by (apply C4; reflexivity).
    congruence. }
  destruct (continues reply) eqn:Hcont.
  - destruct (pollTick_keeps_polling s tid reply Hpoll Hcont)
      as [(P1 & P2 & P3) Hst].
    destruct (pollTick_continues s reply Hcont) as (_ & _ & Hh & Hu).
    constructor.
    + rewrite Hst. discriminate.
    + intros _. exact Hst.
    + rewrite Hst, P1, P2. simpl.
      apply JsFacts.truthy_true in P3. rewrite P3. reflexivity.
    + unfold resultSet in *. rewrite Hh, Hu, Hnores. discriminate.
    + rewrite Hnochat. congruence.
  - destruct (pollTick_stops s tid reply Hp Hcont) as (Ht & Hi & _).
    destruct (pollTick_stop_cases s tid reply Hp Hcont)
      as [Hst | (Hst & Hh & Hu)].
    + constructor.
      * rewrite Hst. discriminate.
      * rewrite Ht. congruence.
      * rewrite Hst, Hi. reflexivity.
      * intros _. exact Hst.
      * intros _. exact Hst.
    + constructor.
      * rewrite Hst. discriminate.
      * rewrite Ht. congruence.
      * rewrite Hst, Hi. reflexivity.
      * unfold resultSet in *. rewrite Hh, Hu, Hnores. discriminate.
      * rewrite Hnochat. congruence.
Qed.

Lemma offered_start (s : State) (reply : HttpReply StartData) :
  offered s (PressStart reply) = true ->
  analysisStatus s <> success /\ analysisStatus s <> processing
  /\ Js.truthy (Js.trim (reportRequirementsInput s)) = true.
Proof.
  unfold offered, showsStartControls, startButtonDisabled.
  intros H. apply andb_true_iff in H. destruct H as [H1 H2].
  apply negb_true_iff in H2. apply orb_false_iff in H2.
  destruct H2 as [H2 H3]. apply orb_false_iff in H2. destruct H2 as [_ H2].
  apply negb_false_iff in H3.
  repeat split; try exact H3; intros E; rewrite E in *; discriminate.
Qed.

Lemma startAnalysis_coherent (s : State) (reply : HttpReply StartData) :
  coherent s ->
  offered s (PressStart reply) = true ->
  coherent (startAnalysis s reply).
Proof.
  intros [C1 C2 C3 C4 C5] Hoff.
  destruct (offered_start s reply Hoff) as (Hns & Hnp & Hprompt).
  assert (Htask : taskId s = None).
  { destruct (taskId s) eqn:E; [|reflexivity].
    exfalso. apply Hnp, C2. discriminate. }
  assert (Hchat : chatMessages (startAnalysis s reply) = []).
  { destruct (dispatch_lifecycleOnly s _
                (handleStartAnalysis_lifecycleOnly s reply)) as (H & _).
    unfold startAnalysis. rewrite H.
    destruct (chatMessages s) eqn:E; [reflexivity|].
    exfalso. apply Hns, C5. discriminate. }
  destruct (startAnalysis_interval s reply Hprompt) as [Hnl Hi].
  destruct (startAnalysis_cases s reply Hprompt)
    as (Hh & Hu & [Hst | [Hst Ht]]); cbv zeta in *.
  - constructor.
    + exact Hnl.
    + intros _. exact Hst.
    + rewrite Hi. unfold pollGuard. rewrite Hst. simpl.
      rewrite andb_true_r. reflexivity.
    + unfold resultSet. rewrite Hh, Hu. discriminate.
    + rewrite Hchat. congruence.
  - constructor.
    + exact Hnl.
    + rewrite Ht, Htask. congruence.
    + rewrite Hi. unfold pollGuard. rewrite Hst. simpl.
      rewrite andb_false_r. reflexivity.
    + unfold resultSet. rewrite Hh, Hu. discriminate.
    + rewrite Hchat. congruence.
Qed.

Lemma typing_conversationOnly_chat (v : JsString) :
  forallb conversationOnly [SetUserInput v] = true.
Proof. reflexivity. Qed.

Lemma pageStep_coherent (s : State) (ev : Event) :
  coherent s -> coherent (pageStep s ev).
Proof.
  intros Hc. unfold pageStep.
  destruct (offered s ev) eqn:Hoff; [|exact Hc].
  destruct ev as [v | v | startReply | pollReply | now1 now2 streamReply];
    simpl.
  - rewrite (dispatch_inert s [SetReportRequirementsInput v])
      by reflexivity.
    apply (coherent_same_lifecycle s); try reflexivity; try exact Hc.
    apply Hc.
  - apply coherent_inert_dispatch; [exact Hc | reflexivity |].
    intros _. simpl in Hoff. unfold showsChat in Hoff.
    apply FrontendAnalysisStatus_eqb_eq, Hoff.
  - apply startAnalysis_coherent; assumption.
  - apply pollTick_coherent, Hc.
  - apply coherent_inert_dispatch;
      [exact Hc | apply handleSendMessage_conversationOnly |].
    intros _. simpl in Hoff. unfold showsChat in Hoff.
    apply FrontendAnalysisStatus_eqb_eq, Hoff.
Qed.

Lemma pageSteps_coherent (events : list Event) (s : State) :
  coherent s -> coherent (fold_left pageStep events s).
Proof.
  revert s. induction events as [|ev events IH]; intros s Hc; simpl;
    [exact Hc|].
  apply IH, pageStep_coherent, Hc.
Qed.

(** While the status is [processing], nothing the user does touches the
    interval. *)
Lemma busy_step (s : State) (ev : Event) :
  analysisStatus s = processing ->
  (forall pollReply, ev <> Tick pollReply) ->
  pollInterval (pageStep s ev) = pollInterval s.
Proof.
  intros Hs Hev. unfold pageStep.
  destruct ev as [v | v | startReply | pollReply | now1 now2 streamReply];
    cbn [offered step];
    unfold showsStartControls, showsChat, startButtonDisabled;
    rewrite ?Hs; cbn [FrontendAnalysisStatus_eqb negb andb orb];
    try reflexivity.
  - rewrite (dispatch_inert s [SetReportRequirementsInput v]) by reflexivity.
    reflexivity.
  - exfalso. apply (Hev pollReply). reflexivity.
Qed.

(** The callback that handles the reply to the one request that is out,
    while the interval is still set, is the tick of the poll cycle. *)
Lemma dispatch_pollTick (s : State) (tid : JsString)
    (reply : HttpReply TaskStatusResponse) :
  pollInterval s = Some tid ->
  dispatch s (pollCallback tid reply) = pollTick s reply.
Proof. intros Hp. unfold pollTick. rewrite Hp. reflexivity. Qed.

Lemma nth_error_single {A : Type} (x y : A) (n : nat) :
  nth_error [x] n = Some y -> n = 0%nat /\ y = x.
Proof.
  destruct n as [|n]; simpl.
  - intros H. injection H as H. split; [reflexivity | symmetry; exact H].
  - destruct n; discriminate.
Qed.

(** An occurrence on a coherent page with at most one request out, other
    than the interval firing while that request is out. *)
Lemma occur_coherent (p : Page) (o : Occurrence) :
  coherent (shown p) -> oneAtMost p ->
  repliesInTime p [o] = true ->
  coherent (shown (occur p o)) /\ oneAtMost (occur p o).
Proof.
  intros Hc Hone Htime.
  assert (Huser : forall ev,
             (forall pollReply, ev <> Tick pollReply) ->
             coherent (pageStep (shown p) ev)
             /\ oneAtMost {| shown := pageStep (shown p) ev;
                             inFlight := inFlight p |}).
  { intros ev Hev. split; [apply pageStep_coherent, Hc|].
    destruct Hone as [Hnone | (tid & Hout & Hp)]; [left; exact Hnone|].
    right. exists tid. split; [exact Hout|]. cbn [shown].
    destruct (coherent_polling (shown p) tid Hc Hp) as [_ Hs].
    rewrite (busy_step (shown p) ev Hs Hev). exact Hp. }
  destruct o as [v | v | startReply | now1 now2 streamReply | | n pollReply];
    cbn [occur]; try (apply Huser; intros pollReply H; discriminate H).
  - destruct (pollInterval (shown p)) as [tid|] eqn:Hp;
      [|split; assumption].
    cbn [shown inFlight]. split; [exact Hc|].
    right. exists tid. cbn [repliesInTime] in Htime.
    destruct (inFlight p); [|discriminate].
    split; [reflexivity | exact Hp].
  - destruct (nth_error (inFlight p) n) as [tid|] eqn:Hn;
      [|split; assumption].
    destruct Hone as [Hnone | (tid' & Hout & Hp)].
    + rewrite Hnone in Hn. destruct n; discriminate.
    + rewrite Hout in Hn.
      destruct (nth_error_single tid' tid n Hn) as [-> ->].
      cbn [shown inFlight]. rewrite Hout.
      rewrite (dispatch_pollTick (shown p) tid' pollReply Hp).
      split; [apply pollTick_coherent, Hc | left; reflexivity].
Qed.

Lemma repliesInTime_cons (p : Page) (o : Occurrence)
    (os : list Occurrence) :
  repliesInTime p (o :: os) = true ->
  repliesInTime p [o] = true /\ repliesInTime (occur p o) os = true.
Proof.
  cbn [repliesInTime]. intros H. apply andb_true_iff in H.
  destruct H as [H1 H2]. rewrite H1. split; [reflexivity | exact H2].
Qed.

(** When the interval never fires while a request is out, the page stays
    coherent and at most one request is out. *)
Lemma occurAll_coherent (os : list Occurrence) (p : Page) :
  coherent (shown p) -> oneAtMost p ->
  repliesInTime p os = true ->
  coherent (shown (occurAll p os)) /\ oneAtMost (occurAll p os).
Proof.
  revert p. induction os as [|o os IH]; intros p Hc Hone Htime;
    [split; assumption|].
  destruct (repliesInTime_cons p o os Htime) as [Ho Hos].
  destruct (occur_coherent p o Hc Hone Ho) as [Hc' Hone'].
  apply (IH (occur p o) Hc' Hone' Hos).
Qed.

(** X10. From the first render, the user's handlers taken as one step each
    and only for what the page offers, and as long as the interval never
    fires while a status request is out (every reply arrives before the
    next tick), in every state: the status is never left at [loading]; a
    task identifier is only held while the status is [processing]; the
    interval is set exactly when the status is [processing] and the task
    identifier is non-empty, and then for that task; a result payload is
    only held, and the transcript is only non-empty, when the status is
    [success]; and at most one status request is out, for the task of the
    interval. *)
Theorem page_session_is_coherent (os : list Occurrence) :
  repliesInTime firstPage os = true ->
  let p := occurAll firstPage os in
  let s := shown p in
  analysisStatus s <> loading
  /\ (taskId s <> None -> analysisStatus s = processing)
  /\ pollInterval s
     = (if FrontendAnalysisStatus_eqb (analysisStatus s) processing
           && Js.opt_truthy (taskId s)
        then taskId s else None)
  /\ (resultSet s = true -> analysisStatus s = success)
  /\ (chatMessages s <> [] -> analysisStatus s = success)
  /\ (inFlight p = []
      \/ exists tid, inFlight p = [tid] /\ pollInterval s = Some tid).
Proof.
  intros Htime. cbv zeta.
  destruct (occurAll_coherent os firstPage coherent_initial
              (or_introl eq_refl) Htime) as [[C1 C2 C3 C4 C5] Hone].
  repeat split; assumption.
Qed.

Lemma page_session_is_coherent_witness :
  let os := Scenario4.orderly ++ Scenario4.afterwards in
  let p := occurAll firstPage os in
  let s := shown p in
  repliesInTime firstPage os = true
  /\ analysisStatus s = success
  /\ analysisStatus s <> loading
  /\ (taskId s <> None -> analysisStatus s = processing)
  /\ pollInterval s
     = (if FrontendAnalysisStatus_eqb (analysisStatus s) processing
           && Js.opt_truthy (taskId s)
        then taskId s else None)
  /\ (resultSet s = true -> analysisStatus s = success)
  /\ (chatMessages s <> [] -> analysisStatus s = success)
  /\ (inFlight p = []
      \/ exists tid, inFlight p = [tid] /\ pollInterval s = Some tid).
Proof.
  cbv zeta.
  split; [vm_compute; reflexivity|].
  split; [vm_compute; reflexivity|].
  apply (page_session_is_coherent (Scenario4.orderly ++ Scenario4.afterwards)).
  vm_compute. reflexivity.
Defined.

(** The condition on the replies is needed: when the interval fires twice
    before the first reply, a [completed] reply to the first request
    followed by a 404 to the second leaves the page in [error] with the
    report still held. *)
Lemma overlapping_replies_leave_error_with_report :
  let s := shown (occurAll firstPage Scenario4.overlapping) in
  repliesInTime firstPage Scenario4.overlapping = false
  /\ analysisStatus s = error
  /\ htmlReportContent s = Some (Js.lit "<h1>OK</h1>")
  /\ resultSet s = true.
Proof. vm_compute. repeat split. Qed.


Lemma success_step (s : State) (ev : Event) :
  analysisStatus s = success -> pollInterval s = None ->
  let s' := pageStep s ev in
  analysisStatus s' = success /\ pollInterval s' = None
  /\ htmlReportContent s' = htmlReportContent s
  /\ analysisResultUrl s' = analysisResultUrl s.
Proof.
  intros Hs Hp. unfold pageStep.
  destruct ev as [v | v | startReply | pollReply | now1 now2 streamReply];
    cbn [offered step]; unfold showsStartControls, showsChat;
    rewrite ?Hs; cbn [FrontendAnalysisStatus_eqb negb andb];
    try (repeat split; assumption).
  - rewrite (dispatch_inert s [SetUserInput v]) by reflexivity.
    repeat split; assumption.
  - rewrite (pollTick_idle s pollReply Hp). repeat split; assumption.
  - rewrite sendMessage_eq.
    destruct (applyEffects_conversationOnly _ s
                (handleSendMessage_conversationOnly s now1 now2 streamReply))
      as (H1 & _ & H3 & H4 & _ & H6).
    rewrite H1, H3, H4, H6. repeat split; assumption.
Qed.

(** With the report on display and no request out, nothing that occurs
    changes the lifecycle or sends a status request. *)
Lemma success_occurs (more : list Occurrence) (p : Page) :
  analysisStatus (shown p) = success -> pollInterval (shown p) = None ->
  inFlight p = [] ->
  let p' := occurAll p more in
  analysisStatus (shown p') = success /\ pollInterval (shown p') = None
  /\ htmlReportContent (shown p') = htmlReportContent (shown p)
  /\ analysisResultUrl (shown p') = analysisResultUrl (shown p)
  /\ inFlight p' = []
  /\ statusRequests p more = [].
Proof.
  revert p. induction more as [|o more IH]; intros p Hs Hp Hout;
    [repeat split; assumption|].
  assert (Hnext : analysisStatus (shown (occur p o)) = success
                  /\ pollInterval (shown (occur p o)) = None
                  /\ htmlReportContent (shown (occur p o))
                     = htmlReportContent (shown p)
                  /\ analysisResultUrl (shown (occur p o))
                     = analysisResultUrl (shown p)
                  /\ inFlight (occur p o) = []).
  { destruct o as [v | v | startReply | now1 now2 streamReply | | n pollReply];
      cbn [occur shown inFlight];
      try (destruct (success_step (shown p) (TypePrompt v) Hs Hp)
             as (S1 & S2 & S3 & S4); repeat split; assumption);
      try (destruct (success_step (shown p) (TypeChat v) Hs Hp)
             as (S1 & S2 & S3 & S4); repeat split; assumption);
      try (destruct (success_step (shown p) (PressStart startReply) Hs Hp)
             as (S1 & S2 & S3 & S4); repeat split; assumption);
      try (destruct (success_step (shown p) (Send now1 now2 streamReply)
                       Hs Hp)
             as (S1 & S2 & S3 & S4); repeat split; assumption).
    - rewrite Hp. repeat split; assumption.
    - rewrite Hout. destruct n; cbn [nth_error]; repeat split; assumption. }
  destruct Hnext as (N1 & N2 & N3 & N4 & N5).
  destruct (IH (occur p o) N1 N2 N5) as (I1 & I2 & I3 & I4 & I5 & I6).
  unfold occurAll in *. cbn [fold_left statusRequests].
  rewrite I6, Hp.
  repeat split; try assumption; try congruence.
  destruct o; reflexivity.
Qed.

(** X11. From the first render, the user's handlers taken as one step each
    and only for what the page offers: when the status is [success] after
    occurrences during which the interval never fired while a status
    request was out (so that no reply is still to come), [success] is
    final. Whatever occurs afterwards, the status stays [success], both
    result fields keep their values, no interval is set, no status request
    goes out, and the start button is not offered again. *)
Theorem success_is_final (os more : list Occurrence) :
  repliesInTime firstPage os = true ->
  analysisStatus (shown (occurAll firstPage os)) = success ->
  let p := occurAll firstPage os in
  let p' := occurAll p more in
  analysisStatus (shown p') = success
  /\ htmlReportContent (shown p') = htmlReportContent (shown p)
  /\ analysisResultUrl (shown p') = analysisResultUrl (shown p)
  /\ pollInterval (shown p') = None
  /\ statusRequests p more = []
  /\ forall startReply, offered (shown p') (PressStart startReply) = false.
Proof.
  intros Htime Hs p p'.
  destruct (occurAll_coherent os firstPage coherent_initial
              (or_introl eq_refl) Htime) as [[_ _ C3 _ _] Hone].
  fold p in C3, Hone, Hs.
  assert (Hp : pollInterval (shown p) = None)
    by (rewrite C3, Hs; reflexivity).
  assert (Hout : inFlight p = []).
  { destruct Hone as [H | (tid & _ & H)]; [exact H | congruence]. }
  destruct (success_occurs more p Hs Hp Hout)
    as (H1 & H2 & H3 & H4 & _ & H6).
  fold p' in H1, H2, H3, H4.
  repeat split; try assumption.
  intros startReply. simpl. unfold showsStartControls. rewrite H1.
  reflexivity.
Qed.

Lemma success_is_final_witness :
  let p := occurAll firstPage Scenario4.orderly in
  let p' := occurAll p Scenario4.afterwards in
  htmlReportContent (shown p) = Some (Js.lit "<h1>OK</h1>")
  /\ analysisStatus (shown p') = success
  /\ htmlReportContent (shown p') = htmlReportContent (shown p)
  /\ analysisResultUrl (shown p') = analysisResultUrl (shown p)
  /\ pollInterval (shown p') = None
  /\ statusRequests p Scenario4.afterwards = []
  /\ forall startReply, offered (shown p') (PressStart startReply) = false.
Proof.
  cbv zeta. split; [vm_compute; reflexivity|].
  apply (success_is_final Scenario4.orderly Scenario4.afterwards);
    vm_compute; reflexivity.
Defined.

(** The condition is needed: with a request of an earlier tick still out
    when the report is displayed, a late [processing] reply puts the status
    back to [processing], with the report held and no interval set. *)
Lemma late_reply_undoes_success :
  let p := Scenario4.lateReplyPending in
  let p' := occur p (ReplyArrives 0 Sample.stillProcessing) in
  analysisStatus (shown p) = success
  /\ inFlight p = [Sample.taskAbc]
  /\ analysisStatus (shown p') = processing
  /\ htmlReportContent (shown p') = Some (Js.lit "<h1>OK</h1>")
  /\ pollInterval (shown p') = None.
Proof. vm_compute. repeat split. Qed.





(* ------------------------------------------------------------------ *)
(** *** What is shown *)

(** X13. With a blank prompt the start button is disabled, so the page
    never offers the submission; and if [handleStartAnalysis] runs all the
    same, the validation error it stores is not shown as error detail,
    because the status it leaves is [idle], not [error]. *)
Theorem validation_error_detail_is_not_shown (s : State)
    (reply : HttpReply StartData) :
  Js.blank (reportRequirementsInput s) = true ->
  startButtonDisabled s = true
  /\ offered s (PressStart reply) = false
  /\ errorMessage (startAnalysis s reply)
     = Some (Js.lit "报告生成需求不能为空。")
  /\ showsErrorDetail (startAnalysis s reply) = false.
Proof.
  intros Hblank.
  pose proof (blank_not_truthy _ Hblank) as Hnot.
  assert (Hdis : startButtonDisabled s = true).
  { unfold startButtonDisabled. rewrite Hnot. apply orb_true_r. }
  destruct (startAnalysis_fields s reply) as (F1 & _ & _ & _ & _ & F6 & _).
  rewrite (handleStartAnalysis_blank s reply Hblank) in F1, F6.
  repeat split.
  - exact Hdis.
  - simpl. rewrite Hdis. apply andb_false_r.
  - rewrite F6. reflexivity.
  - unfold showsErrorDetail. rewrite F1. reflexivity.
Qed.

Lemma validation_error_detail_is_not_shown_witness :
  startButtonDisabled Scenario.blankPrompt = true
  /\ offered Scenario.blankPrompt (PressStart (FetchThrows ThrownOther))
     = false
  /\ errorMessage (startAnalysis Scenario.blankPrompt (FetchThrows ThrownOther))
     = Some (Js.lit "报告生成需求不能为空。")
  /\ showsErrorDetail
       (startAnalysis Scenario.blankPrompt (FetchThrows ThrownOther))
     = false.
Proof.
  apply (validation_error_detail_is_not_shown Scenario.blankPrompt
           (FetchThrows ThrownOther)).
  vm_compute. reflexivity.
Defined.

Lemma BACKEND_URL_truthy (url : JsString) :
  Js.truthy (BACKEND_URL ++ url) = true.
Proof. reflexivity. Qed.

(** X14. After a reply with status [completed], received while the interval
    is set: the chat is shown and the start controls and the spinner are
    not; the result frame displays the inline content when [html_content]
    is non-empty, else the page at the backend address followed by
    [html_url] when that is non-empty; with neither, and no result held
    before, no result frame is shown at all. *)
Theorem completed_reply_display (s : State) (tid : JsString)
    (data : TaskStatusResponse) :
  pollInterval s = Some tid ->
  status data = task_completed ->
  let s' := pollTick s (Ok (BodyJson data)) in
  showsChat s' = true
  /\ showsStartControls s' = false
  /\ showsSpinner s' = false
  /\ (forall html, html_content data = Some html -> html <> [] ->
      resultFrame s' = Some (SrcDoc html) /\ showsResult s' = true)
  /\ (forall url, Js.opt_truthy (html_content data) = false ->
      html_url data = Some url -> url <> [] ->
      resultFrame s' = Some (Src (BACKEND_URL ++ url))
      /\ showsResult s' = true)
  /\ (completedWithoutReport data = true ->
      htmlReportContent s = None -> analysisResultUrl s = None ->
      resultFrame s' = None /\ showsResult s' = false).
Proof.
  intros Hp Hst s'.
  destruct (pollTick_completed s tid data Hp Hst) as (Hs & _ & Hh & Hu).
  fold s' in Hs, Hh, Hu.
  unfold showsChat, showsStartControls, showsSpinner, showsResult,
    resultFrame.
  rewrite Hs, Hh, Hu. simpl.
  split; [reflexivity|]. split; [reflexivity|]. split; [reflexivity|].
  split; [|split].
  - intros html Hc Hne. apply JsFacts.truthy_true in Hne.
    rewrite Hc. simpl. repeat (rewrite Hne; simpl). split; reflexivity.
  - intros url Hc Hurl Hne. apply JsFacts.truthy_true in Hne.
    rewrite Hc, Hurl. simpl. repeat (rewrite Hne; simpl).
    rewrite ?BACKEND_URL_truthy. split; reflexivity.
  - intros Hnone Hh0 Hu0. unfold completedWithoutReport in Hnone.
    rewrite Hst in Hnone. apply andb_true_iff in Hnone.
    destruct Hnone as [N1 N2].
    apply negb_true_iff in N1. apply negb_true_iff in N2.
    rewrite N1, N2, Hh0, Hu0. split; reflexivity.
Qed.

Lemma completed_reply_display_witness :
  let s' := pollTick Sample.submitted (Ok (BodyJson Sample.linkedReport)) in
  showsChat s' = true
  /\ resultFrame s'
     = Some (Src (Js.lit "http://localhost:5001/reports/abc123.html")).
Proof.
  destruct (completed_reply_display Sample.submitted Sample.taskAbc
              Sample.linkedReport)
    as (H1 & _ & _ & _ & Hlink & _).
  - vm_compute. reflexivity.
  - vm_compute. reflexivity.
  - destruct (Hlink (Js.lit "/reports/abc123.html")) as [Hframe _].
    + vm_compute. reflexivity.
    + vm_compute. reflexivity.
    + vm_compute. discriminate.
    + cbv zeta. rewrite H1, Hframe.
      split; [reflexivity | vm_compute; reflexivity].
Defined.

(* ================================================================== *)
(** ** More on the conversation controller *)

Lemma applyEffects_app (a b : list Effect) (s : State) :
  applyEffects s (a ++ b) = applyEffects (applyEffects s a) b.
Proof. unfold applyEffects. apply fold_left_app. Qed.

Lemma applyEffects_streamLoop_triple (botMessageId : JsString)
    (chunks : list Chunk) (accumulated : JsString) (s : State) :
  let s' := applyEffects s (streamLoop botMessageId accumulated chunks) in
  (userInput s', statusMessage s', errorMessage s')
  = (userInput s, statusMessage s, errorMessage s).
Proof.
  unfold applyEffects. revert accumulated s.
  induction chunks as [|chunk chunks IH]; intros accumulated s;
    cbn [streamLoop]; [reflexivity|].
  destruct (Js.truthy (contentDelta chunk)); cbn [fold_left applyEffect];
    cbv zeta in IH; rewrite IH; reflexivity.
Qed.

Lemma applyEffects_streamLoop (botMessageId : JsString) (chunks : list Chunk)
    (accumulated : JsString) (s : State) :
  let s' := applyEffects s (streamLoop botMessageId accumulated chunks) in
  userInput s' = userInput s
  /\ statusMessage s' = statusMessage s
  /\ errorMessage s' = errorMessage s.
Proof.
  pose proof (applyEffects_streamLoop_triple botMessageId chunks
                accumulated s) as H.
  cbv zeta in *. injection H as H1 H2 H3. repeat split; assumption.
Qed.

(** The transcript after a turn, whatever the chat endpoint did. *)
Lemma sendMessage_transcript (s : State) (now1 now2 : N)
    (streamReply : StreamReply) :
  Js.truthy (Js.trim (userInput s)) = true ->
  turnShape (chatMessages s)
    {| id := Js.lit "user-" ++ Js.ofNumber now1;
       sender := user; text := userInput s |}
    (Js.lit "bot-" ++ Js.ofNumber now2)
    (finalBotText streamReply)
    (chatMessages (sendMessage s now1 now2 streamReply)).
Proof.
  intros Hinput.
  destruct streamReply as [e | chunks [|e]];
    [| apply sendMessage_done_transcript; exact Hinput |].
  - unfold sendMessage. rewrite chatMessages_dispatch.
    unfold handleSendMessage. rewrite Hinput. cbn [negb].
    rewrite fold_left_app. unfold sendCatch.
    cbn [fold_left chatApply finalBotText].
    apply (turnShape_update (chatMessages s)
             {| id := Js.lit "user-" ++ Js.ofNumber now1;
                sender := user; text := userInput s |}
             (Js.lit "bot-" ++ Js.ofNumber now2)
             (user_bot_ids_differ now1 now2) []).
    exists (chatMessages s). rewrite <- app_assoc. repeat split.
  - unfold sendMessage. rewrite chatMessages_dispatch.
    unfold handleSendMessage. rewrite Hinput. cbn [negb].
    rewrite fold_left_app, fold_left_app. unfold sendCatch.
    cbn [fold_left chatApply finalBotText].
    apply (turnShape_update (chatMessages s)
             {| id := Js.lit "user-" ++ Js.ofNumber now1;
                sender := user; text := userInput s |}
             (Js.lit "bot-" ++ Js.ofNumber now2)
             (user_bot_ids_differ now1 now2)
             ([] ++ List.concat (map contentDelta chunks))).
    apply (streamLoop_turnShape (chatMessages s)
             {| id := Js.lit "user-" ++ Js.ofNumber now1;
                sender := user; text := userInput s |}
             (Js.lit "bot-" ++ Js.ofNumber now2)
             (user_bot_ids_differ now1 now2) chunks []).
    exists (chatMessages s). rewrite <- app_assoc. repeat split.
Qed.

Lemma sendCatch_fields (botMessageId : JsString) (e : Thrown) (s : State) :
  let s' := applyEffects s (sendCatch botMessageId e) in
  userInput s' = userInput s
  /\ errorMessage s'
     = Some (messageOf e (Js.lit "与大模型通信失败或处理回复时出错。"))
  /\ statusMessage s' = Js.lit "消息发送或处理回复失败。".
Proof. repeat split. Qed.

Lemma await_sendCatch_fields (botMessageId : JsString) (e : Thrown)
    (s : State) :
  let s' := applyEffects s (Await :: sendCatch botMessageId e) in
  userInput s' = userInput s
  /\ errorMessage s'
     = Some (messageOf e (Js.lit "与大模型通信失败或处理回复时出错。"))
  /\ statusMessage s' = Js.lit "消息发送或处理回复失败。".
Proof. repeat split. Qed.

Lemma replied_fields (s : State) :
  let s' := applyEffects s
              [Await; SetStatusMessage (Js.lit "大模型已回复。")] in
  userInput s' = userInput s
  /\ errorMessage s' = errorMessage s
  /\ statusMessage s' = Js.lit "大模型已回复。".
Proof. repeat split. Qed.

(** The status line, the error and the chat box after a turn. *)
Lemma sendMessage_bookkeeping (s : State) (now1 now2 : N)
    (streamReply : StreamReply) :
  Js.truthy (Js.trim (userInput s)) = true ->
  let s' := sendMessage s now1 now2 streamReply in
  userInput s' = []
  /\ (forall chunks, streamReply = Stream chunks StreamDone ->
      errorMessage s' = None
      /\ statusMessage s' = Js.lit "大模型已回复。")
  /\ (forall e, streamFailure streamReply e ->
      errorMessage s'
      = Some (messageOf e (Js.lit "与大模型通信失败或处理回复时出错。"))
      /\ statusMessage s' = Js.lit "消息发送或处理回复失败。").
Proof.
  intros Hinput. cbv zeta. rewrite sendMessage_eq.
  unfold handleSendMessage. rewrite Hinput. cbn [negb].
  rewrite applyEffects_app.
  match goal with
  | |- context [applyEffects s ?pre] =>
      assert (H1 : userInput (applyEffects s pre) = []
                   /\ errorMessage (applyEffects s pre) = None)
        by (split; reflexivity);
      generalize dependent (applyEffects s pre)
  end.
  intros s1 [U1 E1].
  destruct streamReply as [e | chunks [|e]].
  - destruct (sendCatch_fields (Js.lit "bot-" ++ Js.ofNumber now2) e s1)
      as (C1 & C2 & C3).
    rewrite C1, C2, C3. split; [exact U1|]. split.
    + intros chunks H. discriminate H.
    + intros e' H. inversion H; subst. split; reflexivity.
  - rewrite applyEffects_app.
    destruct (applyEffects_streamLoop (Js.lit "bot-" ++ Js.ofNumber now2)
                chunks [] s1) as (L1 & L2 & L3).
    destruct (replied_fields
                (applyEffects s1
                   (streamLoop (Js.lit "bot-" ++ Js.ofNumber now2) []
                      chunks))) as (C1 & C2 & C3).
    rewrite C1, C2, C3, L1, L3. split; [exact U1|]. split.
    + intros chunks' _. split; [exact E1 | reflexivity].
    + intros e H. inversion H.
  - rewrite applyEffects_app.
    destruct (applyEffects_streamLoop (Js.lit "bot-" ++ Js.ofNumber now2)
                chunks [] s1) as (L1 & L2 & L3).
    destruct (await_sendCatch_fields (Js.lit "bot-" ++ Js.ofNumber now2) e
                (applyEffects s1
                   (streamLoop (Js.lit "bot-" ++ Js.ofNumber now2) []
                      chunks))) as (C1 & C2 & C3).
    rewrite C1, C2, C3, L1. split; [exact U1|]. split.
    + intros chunks' H. discriminate H.
    + intros e' H. inversion H; subst. split; reflexivity.
Qed.

(** X15. A chat turn (a non-blank text sent) whose request fails, at once
    or in the middle of the stream, still leaves exactly two new transcript
    entries: the user's, then one entry of the bot whose text is the error
    marker followed by the message of the failure, in place of whatever
    was streamed before. The same message is stored as error message, the
    status message reports the failure, and since the status of the page
    does not change, the error detail line is not shown on a page that
    shows the chat. *)
Theorem failed_turn_marks_entry (s : State) (now1 now2 : N)
    (streamReply : StreamReply) (e : Thrown) :
  Js.truthy (Js.trim (userInput s)) = true ->
  streamFailure streamReply e ->
  let failure := messageOf e (Js.lit "与大模型通信失败或处理回复时出错。") in
  let s' := sendMessage s now1 now2 streamReply in
  (exists hist,
      chatMessages s'
      = hist ++ [ {| id := Js.lit "user-" ++ Js.ofNumber now1;
                     sender := user; text := userInput s |};
                  {| id := Js.lit "bot-" ++ Js.ofNumber now2;
                     sender := bot; text := Js.lit "错误: " ++ failure |} ]
      /\ List.length hist = List.length (chatMessages s))
  /\ errorMessage s' = Some failure
  /\ statusMessage s' = Js.lit "消息发送或处理回复失败。"
  /\ (showsChat s = true -> showsErrorDetail s' = false).
Proof.
  intros Hinput Hfail failure s'.
  destruct (sendMessage_transcript s now1 now2 streamReply Hinput)
    as (hist & Heq & Hlen & _).
  destruct (sendMessage_bookkeeping s now1 now2 streamReply Hinput)
    as (_ & _ & Hbook).
  destruct (Hbook e Hfail) as [He Hs].
  fold s' in Heq, He, Hs.
  assert (Htext : finalBotText streamReply = Js.lit "错误: " ++ failure)
    by (destruct Hfail; reflexivity).
  rewrite Htext in Heq.
  split; [exists hist; split; assumption|].
  split; [exact He|]. split; [exact Hs|].
  intros Hchat. unfold showsChat in Hchat. unfold showsErrorDetail, s'.
  rewrite sendMessage_eq.
  destruct (applyEffects_conversationOnly _ s
              (handleSendMessage_conversationOnly s now1 now2 streamReply))
    as (H1 & _).
  rewrite H1.
  destruct (analysisStatus s); try discriminate Hchat. reflexivity.
Qed.

Lemma failed_turn_marks_entry_witness :
  let s' := sendMessage Scenario.asking 1000 1001
              (Stream Scenario.threeChunks
                 (StreamThrows (ThrownError (Js.lit "reset")))) in
  map text (chatMessages s') = [Js.lit "hi"; Js.lit "错误: reset"]
  /\ errorMessage s' = Some (Js.lit "reset")
  /\ showsErrorDetail s' = false.
Proof.
  destruct (failed_turn_marks_entry Scenario.asking 1000 1001
              (Stream Scenario.threeChunks
                 (StreamThrows (ThrownError (Js.lit "reset"))))
              (ThrownError (Js.lit "reset")))
    as (_ & He & _ & Hshow).
  - vm_compute. reflexivity.
  - apply failure_stream.
  - cbv zeta in *. rewrite He, Hshow by (vm_compute; reflexivity).
    split; [vm_compute; reflexivity|]. split; reflexivity.
Defined.

(** X16. Every chat turn (a non-blank text sent) empties the chat box,
    whatever the chat endpoint does; when the stream ends normally, the
    error message is null afterwards and the status message says that the
    model has replied. *)
Theorem sent_turn_clears_input (s : State) (now1 now2 : N)
    (streamReply : StreamReply) :
  Js.truthy (Js.trim (userInput s)) = true ->
  let s' := sendMessage s now1 now2 streamReply in
  userInput s' = []
  /\ (forall chunks, streamReply = Stream chunks StreamDone ->
      errorMessage s' = None
      /\ statusMessage s' = Js.lit "大模型已回复。").
Proof.
  intros Hinput s'.
  destruct (sendMessage_bookkeeping s now1 now2 streamReply Hinput)
    as (H1 & H2 & _).
  split; assumption.
Qed.

Lemma sent_turn_clears_input_witness :
  let s' := sendMessage Scenario.asking 1000 1001
              (Stream Scenario.threeChunks StreamDone) in
  userInput s' = []
  /\ (forall chunks,
        Stream Scenario.threeChunks StreamDone = Stream chunks StreamDone ->
        errorMessage s' = None
        /\ statusMessage s' = Js.lit "大模型已回复。").
Proof.
  apply (sent_turn_clears_input Scenario.asking 1000 1001
           (Stream Scenario.threeChunks StreamDone)).
  vm_compute. reflexivity.
Defined.

(* ------------------------------------------------------------------ *)
(** *** The chat request and what is on display *)

(** The system entry of a chat request is made from what the result frame
    displays. *)
Lemma pushSystem_frame (s : State) :
  pushSystem s []
  = match resultFrame s with
    | Some (SrcDoc html) =>
        [ {| role := role_system; content := systemInline ++ html |} ]
    | Some (Src url) =>
        [ {| role := role_system;
             content := systemLinkBefore ++ url ++ systemLinkAfter |} ]
    | None => []
    end.
Proof.
  unfold pushSystem, resultFrame, push.
  destruct (htmlReportContent s) as [[|c html]|];
    destruct (analysisResultUrl s) as [[|c' url]|]; reflexivity.
Qed.

Lemma slice_last_length (A : Type) (n : nat) (arr : list A) :
  List.length (slice_last n arr) = Nat.min n (List.length arr).
Proof. unfold slice_last. rewrite length_skipn. lia. Qed.

Lemma buildApiMessages_eq (s : State) (currentUserInput : JsString) :
  buildApiMessages s currentUserInput
  = pushSystem s []
    ++ map historyEntry (slice_last 6 (filter nonEmptyText (chatMessages s)))
    ++ [ {| role := role_user; content := currentUserInput |} ].
Proof.
  unfold buildApiMessages, push. rewrite fold_pushHistory.
  rewrite <- app_assoc. reflexivity.
Qed.

(** X17. A chat turn (a non-blank text sent) issues one chat request; the
    number of its messages is one for the new turn, plus the number of
    prior transcript entries whose text is neither empty nor made of
    whitespace only, capped at six, plus one system entry when the page has
    a report to display: eight at most. *)
Theorem chat_request_size (s : State) (now1 now2 : N)
    (streamReply : StreamReply) :
  Js.truthy (Js.trim (userInput s)) = true ->
  exists messages,
    networkCalls (handleSendMessage s now1 now2 streamReply)
    = [ChatCompletionsCreate messages]
    /\ List.length messages
       = (systemEntries s
          + Nat.min 6 (List.length (filter hasText (chatMessages s)))
          + 1)%nat
    /\ (List.length messages <= 8)%nat.
Proof.
  intros Hinput.
  exists (buildApiMessages s (userInput s)).
  split; [apply networkCalls_handleSendMessage, Hinput|].
  rewrite buildApiMessages_eq, !length_app, length_map, slice_last_length,
    pushSystem_frame, filter_nonEmptyText.
  unfold systemEntries.
  destruct (resultFrame s) as [[html | url]|]; cbn [List.length];
    split; lia.
Qed.

Lemma chat_request_size_witness :
  (exists messages,
      networkCalls
        (handleSendMessage Scenario.longTranscript 1000 1001
           (Stream [] StreamDone))
      = [ChatCompletionsCreate messages]
      /\ List.length messages
         = (systemEntries Scenario.longTranscript
            + Nat.min 6
                (List.length
                   (filter hasText (chatMessages Scenario.longTranscript)))
            + 1)%nat
      /\ (List.length messages <= 8)%nat)
  /\ List.length (chatMessages Scenario.longTranscript) = 8%nat
  /\ List.length (filter hasText (chatMessages Scenario.longTranscript))
     = 7%nat
  /\ match networkCalls
             (handleSendMessage Scenario.longTranscript 1000 1001
                (Stream [] StreamDone)) with
     | [ChatCompletionsCreate messages] => List.length messages = 8%nat
     | _ => False
     end
  /\ match networkCalls
             (handleSendMessage
                (applyEffect Scenario.asking
                   (SetChatMessages
                      (fun _ =>
                         [ {| id := Js.lit "m-0"; sender := user;
                              text := Js.lit " " |};
                           {| id := Js.lit "m-1"; sender := bot;
                              text := Js.lit "t1" |} ])))
                1000 1001 (Stream [] StreamDone)) with
     | [ChatCompletionsCreate messages] => List.length messages = 3%nat
     | _ => False
     end.
Proof.
  split.
  - apply (chat_request_size Scenario.longTranscript 1000 1001
             (Stream [] StreamDone)).
    vm_compute. reflexivity.
  - vm_compute. repeat split.
Defined.

Lemma historyEntry_not_system (msg : ChatMessage) :
  role (historyEntry msg) <> role_system.
Proof. unfold historyEntry. destruct (sender msg); discriminate. Qed.

(** X18. The context given to the model is what the page displays: when
    the result frame shows the inline content, the chat request starts
    with one system entry that embeds this content; when it shows a page
    by its address, with one system entry that quotes this address; when
    there is no result frame, the request has no system entry at all. *)
Theorem system_entry_matches_display (s : State) (now1 now2 : N)
    (streamReply : StreamReply) :
  Js.truthy (Js.trim (userInput s)) = true ->
  exists messages,
    networkCalls (handleSendMessage s now1 now2 streamReply)
    = [ChatCompletionsCreate messages]
    /\ match resultFrame s with
       | Some (SrcDoc html) =>
           exists rest,
             messages
             = {| role := role_system; content := systemInline ++ html |}
               :: rest
             /\ Forall (fun m => role m <> role_system) rest
       | Some (Src url) =>
           exists rest,
             messages
             = {| role := role_system;
                  content := systemLinkBefore ++ url ++ systemLinkAfter |}
               :: rest
             /\ Forall (fun m => role m <> role_system) rest
       | None => Forall (fun m => role m <> role_system) messages
       end.
Proof.
  intros Hinput.
  exists (buildApiMessages s (userInput s)).
  split; [apply networkCalls_handleSendMessage, Hinput|].
  rewrite buildApiMessages_eq, pushSystem_frame.
  assert (Hrest :
    Forall (fun m => role m <> role_system)
      (map historyEntry
         (slice_last 6 (filter nonEmptyText (chatMessages s)))
       ++ [ {| role := role_user; content := userInput s |} ])).
  { apply Forall_app. split.
    - apply Forall_map, Forall_forall. intros msg _.
      apply historyEntry_not_system.
    - constructor; [discriminate | constructor]. }
  destruct (resultFrame s) as [[html | url]|].
  - eexists. split; [reflexivity | exact Hrest].
  - eexists. split; [reflexivity | exact Hrest].
  - exact Hrest.
Qed.

Lemma system_entry_matches_display_witness :
  exists messages,
    networkCalls
      (handleSendMessage Scenario.asking 1000 1001 (Stream [] StreamDone))
    = [ChatCompletionsCreate messages]
    /\ match resultFrame Scenario.asking with
       | Some (SrcDoc html) =>
           exists rest,
             messages
             = {| role := role_system; content := systemInline ++ html |}
               :: rest
             /\ Forall (fun m => role m <> role_system) rest
       | Some (Src url) =>
           exists rest,
             messages
             = {| role := role_system;
                  content := systemLinkBefore ++ url ++ systemLinkAfter |}
               :: rest
             /\ Forall (fun m => role m <> role_system) rest
       | None => Forall (fun m => role m <> role_system) messages
       end.
Proof.
  apply (system_entry_matches_display Scenario.asking 1000 1001
           (Stream [] StreamDone)).
  vm_compute. reflexivity.
Defined.

(* ------------------------------------------------------------------ *)
(** *** The streamed text and the other entries *)

Lemma lastText_turnShape (prior : list ChatMessage) (userMessage : ChatMessage)
    (botMessageId accumulated : JsString) (transcript : list ChatMessage) :
  turnShape prior userMessage botMessageId accumulated transcript ->
  lastText transcript = accumulated.
Proof.
  intros (hist & Heq & _). unfold lastText. rewrite Heq, map_app.
  change (map text [userMessage;
                    {| id := botMessageId; sender := bot;
                       text := accumulated |}])
    with ([text userMessage] ++ [accumulated]).
  rewrite app_assoc. apply last_last.
Qed.

(** X19. The text of the bot's entry only grows while the reply streams
    in: for a chat turn (a non-blank text sent), the last transcript entry
    after the chunks [first] followed by further chunks, given by what they
    bring, holds the text it holds after the chunks [first] alone, followed
    by the text deltas the further chunks bring, in order. *)
Theorem streamed_text_grows (s : State) (now1 now2 : N)
    (first : list Chunk) (next : list Arrival) :
  Js.truthy (Js.trim (userInput s)) = true ->
  lastText
    (chatMessages
       (sendMessage s now1 now2
          (Stream (first ++ map arrivalChunk next) StreamDone)))
  = lastText
      (chatMessages (sendMessage s now1 now2 (Stream first StreamDone)))
    ++ List.concat (map arrivalText next).
Proof.
  intros Hinput.
  rewrite (lastText_turnShape _ _ _ _ _
             (sendMessage_done_transcript s now1 now2
                (first ++ map arrivalChunk next) Hinput)).
  rewrite (lastText_turnShape _ _ _ _ _
             (sendMessage_done_transcript s now1 now2 first Hinput)).
  rewrite map_app, concat_app, deltas_of_arrivals. reflexivity.
Qed.

Lemma streamed_text_grows_witness :
  (lastText
     (chatMessages
        (sendMessage Scenario.asking 1000 1001
           (Stream ([Sample.chunkOf (Js.lit "x")]
                    ++ map arrivalChunk Scenario3.threeArrivals)
              StreamDone)))
   = lastText
       (chatMessages
          (sendMessage Scenario.asking 1000 1001
             (Stream [Sample.chunkOf (Js.lit "x")] StreamDone)))
     ++ List.concat (map arrivalText Scenario3.threeArrivals))
  /\ lastText
       (chatMessages
          (sendMessage Scenario.asking 1000 1001
             (Stream [Sample.chunkOf (Js.lit "x")] StreamDone)))
     = Js.lit "x"
  /\ lastText
       (chatMessages
          (sendMessage Scenario.asking 1000 1001
             (Stream ([Sample.chunkOf (Js.lit "x")]
                      ++ map arrivalChunk Scenario3.threeArrivals)
                StreamDone)))
     = Js.lit "xab".
Proof.
  split.
  - apply (streamed_text_grows Scenario.asking 1000 1001
             [Sample.chunkOf (Js.lit "x")] Scenario3.threeArrivals).
    vm_compute. reflexivity.
  - vm_compute. split; reflexivity.
Defined.

Lemma map_setTextById_fresh (target t : JsString)
    (transcript : list ChatMessage) :
  Forall (fun msg => id msg <> target) transcript ->
  map (setTextById target t) transcript = transcript.
Proof.
  induction 1 as [|msg rest Hmsg _ IH]; simpl; [reflexivity|].
  rewrite IH, (setTextById_other target t msg Hmsg). reflexivity.
Qed.

Section FreshTurn.

Variable prior : list ChatMessage.
Variable userMessage : ChatMessage.
Variable botMessageId : JsString.
Hypothesis user_is_not_target : id userMessage <> botMessageId.
Hypothesis prior_is_fresh : Forall (fun msg => id msg <> botMessageId) prior.

Lemma fresh_update (accumulated t : JsString) :
  map (setTextById botMessageId t)
    (prior ++ [ userMessage;
                {| id := botMessageId; sender := bot; text := accumulated |} ])
  = prior ++ [ userMessage;
               {| id := botMessageId; sender := bot; text := t |} ].
Proof.
  rewrite map_app, (map_setTextById_fresh _ _ _ prior_is_fresh).
  cbn [map].
  rewrite (setTextById_other _ t _ user_is_not_target).
  rewrite setTextById_target by reflexivity. reflexivity.
Qed.

Lemma streamLoop_fresh (chunks : list Chunk) (accumulated : JsString) :
  fold_left chatApply (streamLoop botMessageId accumulated chunks)
    (prior ++ [ userMessage;
                {| id := botMessageId; sender := bot; text := accumulated |} ])
  = prior ++ [ userMessage;
               {| id := botMessageId; sender := bot;
                  text := accumulated
                          ++ List.concat (map contentDelta chunks) |} ].
Proof.
  revert accumulated.
  induction chunks as [|chunk chunks IH]; intros accumulated;
    cbn [streamLoop map List.concat].
  - rewrite app_nil_r. reflexivity.
  - destruct (Js.truthy (contentDelta chunk)) eqn:Hd;
      cbn [fold_left chatApply].
    + rewrite fresh_update, IH, app_assoc. reflexivity.
    + destruct (contentDelta chunk); [|discriminate].
      rewrite IH. reflexivity.
Qed.

End FreshTurn.

(** X20. A chat turn (a non-blank text sent) touches no other entry than
    its own, provided no prior entry has the identifier of its bot entry:
    whatever the chat endpoint does, the transcript afterwards is the prior
    transcript, unchanged, followed by the user's entry and the entry of
    the bot with its final text. *)
Theorem turn_keeps_prior_entries (s : State) (now1 now2 : N)
    (streamReply : StreamReply) :
  Js.truthy (Js.trim (userInput s)) = true ->
  Forall (fun msg => id msg <> Js.lit "bot-" ++ Js.ofNumber now2)
    (chatMessages s) ->
  chatMessages (sendMessage s now1 now2 streamReply)
  = chatMessages s
    ++ [ {| id := Js.lit "user-" ++ Js.ofNumber now1;
            sender := user; text := userInput s |};
         {| id := Js.lit "bot-" ++ Js.ofNumber now2;
            sender := bot; text := finalBotText streamReply |} ].
Proof.
  intros Hinput Hfresh.
  unfold sendMessage. rewrite chatMessages_dispatch.
  unfold handleSendMessage. rewrite Hinput. cbn [negb].
  rewrite fold_left_app. cbn [fold_left chatApply].
  rewrite <- app_assoc. cbn [app].
  pose proof (user_bot_ids_differ now1 now2) as Hdiff.
  destruct streamReply as [e | chunks [|e]]; cbn [finalBotText].
  - unfold sendCatch. cbn [fold_left chatApply].
    apply (fresh_update (chatMessages s)
             {| id := Js.lit "user-" ++ Js.ofNumber now1;
                sender := user; text := userInput s |}
             (Js.lit "bot-" ++ Js.ofNumber now2) Hdiff Hfresh).
  - rewrite fold_left_app. cbn [fold_left chatApply].
    apply (streamLoop_fresh (chatMessages s)
             {| id := Js.lit "user-" ++ Js.ofNumber now1;
                sender := user; text := userInput s |}
             (Js.lit "bot-" ++ Js.ofNumber now2) Hdiff Hfresh chunks []).
  - rewrite fold_left_app. unfold sendCatch. cbn [fold_left chatApply].
    rewrite (streamLoop_fresh (chatMessages s)
               {| id := Js.lit "user-" ++ Js.ofNumber now1;
                  sender := user; text := userInput s |}
               (Js.lit "bot-" ++ Js.ofNumber now2) Hdiff Hfresh chunks []).
    apply (fresh_update (chatMessages s)
             {| id := Js.lit "user-" ++ Js.ofNumber now1;
                sender := user; text := userInput s |}
             (Js.lit "bot-" ++ Js.ofNumber now2) Hdiff Hfresh).
Qed.

Lemma turn_keeps_prior_entries_witness :
  chatMessages
    (sendMessage Scenario.longTranscript 1000 1001
       (Stream Scenario.threeChunks StreamDone))
  = chatMessages Scenario.longTranscript
    ++ [ {| id := Js.lit "user-" ++ Js.ofNumber 1000;
            sender := user; text := userInput Scenario.longTranscript |};
         {| id := Js.lit "bot-" ++ Js.ofNumber 1001;
            sender := bot;
            text := finalBotText (Stream Scenario.threeChunks StreamDone) |} ].
Proof.
  apply (turn_keeps_prior_entries Scenario.longTranscript 1000 1001
           (Stream Scenario.threeChunks StreamDone)).
  - vm_compute. reflexivity.
  - vm_compute. repeat constructor; discriminate.
Defined.

(* ================================================================== *)
(** ** The uploaded files *)

Module UploadFacts.

Import Upload.

Lemma removeFile_files (fileName : JsString) (u : UploadState) :
  uploadedFiles (removeFile fileName u)
  = filter (fun file => negb (Js.eqb (name file) fileName)) (uploadedFiles u).
Proof. reflexivity. Qed.

Lemma filter_filter (A : Type) (f g : A -> bool) (l : list A) :
  filter f (filter g l) = filter (fun x => g x && f x) l.
Proof.
  induction l as [|x l IH]; simpl; [reflexivity|].
  destruct (g x); simpl; [destruct (f x)|]; rewrite IH; reflexivity.
Qed.

Lemma filter_all (A : Type) (f : A -> bool) (l : list A) :
  Forall (fun x => f x = true) l -> filter f l = l.
Proof.
  induction 1 as [|x l Hx _ IH]; simpl; [reflexivity|].
  rewrite Hx, IH. reflexivity.
Qed.

Lemma filter_none (A : Type) (f : A -> bool) (l : list A) :
  Forall (fun x => f x = false) l -> filter f l = [].
Proof.
  induction 1 as [|x l Hx _ IH]; simpl; [reflexivity|].
  rewrite Hx, IH. reflexivity.
Qed.

Lemma act_files (u : UploadState) (a : Action) :
  (forall fileName, a <> Remove fileName) ->
  uploadedFiles (act u a) = uploadedFiles u ++ brought a.
Proof.
  intros Hkeep.
  destruct a as [[files|] | | | [[|f rest]|] | fileName]; simpl;
    rewrite ?app_nil_r; try reflexivity.
  exfalso. apply (Hkeep fileName). reflexivity.
Qed.

End UploadFacts.

(** X21. Removing a file goes by its name and keeps the order: the list
    after the removal is the list before it with every file of that name
    taken out and the others at their places (it is empty for an empty
    list, it is the removal from the first part followed by the removal
    from the second part for a list in two parts, and a single file stays
    exactly when it has another name), so no file of that name is left,
    even when it had been picked several times. Removing the same name
    again, or a name that no file has, changes nothing; two removals can be
    done in either order; the drag flag is untouched. *)
Theorem removeFile_by_name (fileName other : JsString)
    (u : Upload.UploadState) :
  (forall file, In file (Upload.uploadedFiles (Upload.removeFile fileName u))
                <-> In file (Upload.uploadedFiles u)
                    /\ Upload.name file <> fileName)
  /\ (forall dragging,
        Upload.uploadedFiles
          (Upload.removeFile fileName
             {| Upload.uploadedFiles := [];
                Upload.isDraggingOver := dragging |})
        = [])
  /\ (forall before after dragging,
        Upload.uploadedFiles
          (Upload.removeFile fileName
             {| Upload.uploadedFiles := before ++ after;
                Upload.isDraggingOver := dragging |})
        = Upload.uploadedFiles
            (Upload.removeFile fileName
               {| Upload.uploadedFiles := before;
                  Upload.isDraggingOver := dragging |})
          ++ Upload.uploadedFiles
               (Upload.removeFile fileName
                  {| Upload.uploadedFiles := after;
                     Upload.isDraggingOver := dragging |}))
  /\ (forall file dragging,
        (Upload.name file = fileName ->
         Upload.uploadedFiles
           (Upload.removeFile fileName
              {| Upload.uploadedFiles := [file];
                 Upload.isDraggingOver := dragging |})
         = [])
        /\ (Upload.name file <> fileName ->
            Upload.uploadedFiles
              (Upload.removeFile fileName
                 {| Upload.uploadedFiles := [file];
                    Upload.isDraggingOver := dragging |})
            = [file]))
  /\ Upload.removeFile fileName (Upload.removeFile fileName u)
     = Upload.removeFile fileName u
  /\ Upload.removeFile fileName (Upload.removeFile other u)
     = Upload.removeFile other (Upload.removeFile fileName u)
  /\ (Forall (fun file => Upload.name file <> fileName)
        (Upload.uploadedFiles u) ->
      Upload.removeFile fileName u = u)
  /\ Upload.isDraggingOver (Upload.removeFile fileName u)
     = Upload.isDraggingOver u.
Proof.
  split; [|split; [|split; [|split; [|split; [|split; [|split]]]]]].
  - intros file. rewrite UploadFacts.removeFile_files, filter_In.
    split; intros [Hin Hname]; split; try exact Hin.
    + intros Heq. apply JsFacts.eqb_eq in Heq. rewrite Heq in Hname.
      discriminate Hname.
    + rewrite (JsFacts.eqb_neq _ _ Hname). reflexivity.
  - intros dragging. reflexivity.
  - intros before after dragging.
    rewrite !UploadFacts.removeFile_files. cbn [Upload.uploadedFiles].
    apply filter_app.
  - intros file dragging.
    rewrite !UploadFacts.removeFile_files. cbn [Upload.uploadedFiles filter].
    split; intros Hname.
    + rewrite Hname, JsFacts.eqb_refl. reflexivity.
    + rewrite (JsFacts.eqb_neq _ _ Hname). reflexivity.
  - unfold Upload.removeFile. simpl. f_equal.
    rewrite UploadFacts.filter_filter. apply filter_ext.
    intros file. apply andb_diag.
  - unfold Upload.removeFile. simpl. f_equal.
    rewrite !UploadFacts.filter_filter. apply filter_ext.
    intros file. apply andb_comm.
  - intros Hnone. destruct u as [files dragging].
    unfold Upload.removeFile. simpl in *. f_equal.
    apply UploadFacts.filter_all.
    apply Forall_impl with (2 := Hnone). intros file Hname.
    rewrite (JsFacts.eqb_neq _ _ Hname). reflexivity.
  - reflexivity.
Qed.

Lemma removeFile_by_name_witness :
  Upload.removeFile (Js.lit "x.doc") UploadSample.twoFiles
  = UploadSample.twoFiles
  /\ Upload.uploadedFiles
       (Upload.removeFile (Js.lit "report.pdf") UploadSample2.fourFiles)
     = [UploadSample.notesTxt; UploadSample2.dataCsv].
Proof.
  destruct (removeFile_by_name (Js.lit "x.doc") (Js.lit "y.doc")
              UploadSample.twoFiles)
    as (_ & _ & _ & _ & _ & _ & Hnone & _).
  split.
  - apply Hnone. vm_compute. repeat constructor; discriminate.
  - vm_compute. reflexivity.
Defined.

(** X22. Picking files and removing them again is a round trip on the list:
    if no listed file has the name [fileName] and all the files picked or
    dropped have it, then removing [fileName] gives back the list as it was
    before they were added. *)
Theorem add_then_remove_round_trip (fileName : JsString)
    (files : list Upload.File) (u : Upload.UploadState) :
  Forall (fun file => Upload.name file <> fileName)
    (Upload.uploadedFiles u) ->
  Forall (fun file => Upload.name file = fileName) files ->
  Upload.uploadedFiles
    (Upload.removeFile fileName (Upload.handleFileSelect (Some files) u))
  = Upload.uploadedFiles u
  /\ Upload.uploadedFiles
       (Upload.removeFile fileName (Upload.handleDrop (Some files) u))
     = Upload.uploadedFiles u.
Proof.
  intros Hold Hnew.
  assert (Hgen :
    filter (fun file => negb (Js.eqb (Upload.name file) fileName))
      (Upload.uploadedFiles u ++ files)
    = Upload.uploadedFiles u).
  { rewrite filter_app.
    rewrite UploadFacts.filter_all, UploadFacts.filter_none.
    - apply app_nil_r.
    - apply Forall_impl with (2 := Hnew). intros file Hname.
      rewrite Hname, JsFacts.eqb_refl. reflexivity.
    - apply Forall_impl with (2 := Hold). intros file Hname.
      rewrite (JsFacts.eqb_neq _ _ Hname). reflexivity. }
  split; [exact Hgen|].
  destruct files as [|f rest]; [|exact Hgen].
  simpl. rewrite app_nil_r in Hgen. exact Hgen.
Qed.

Lemma add_then_remove_round_trip_witness :
  Upload.uploadedFiles
    (Upload.removeFile (Js.lit "report.pdf")
       (Upload.handleFileSelect
          (Some [UploadSample.reportPdf; UploadSample.reportPdfAgain])
          UploadSample.twoFiles))
  = Upload.uploadedFiles UploadSample.twoFiles
  /\ Upload.uploadedFiles
       (Upload.removeFile (Js.lit "report.pdf")
          (Upload.handleDrop
             (Some [UploadSample.reportPdf; UploadSample.reportPdfAgain])
             UploadSample.twoFiles))
     = Upload.uploadedFiles UploadSample.twoFiles.
Proof.
  apply (add_then_remove_round_trip (Js.lit "report.pdf")
           [UploadSample.reportPdf; UploadSample.reportPdfAgain]
           UploadSample.twoFiles).
  - vm_compute. repeat constructor; discriminate.
  - vm_compute. repeat constructor.
Defined.

(** X23. Only a removal takes files off the list: after any actions in the
    upload area among which none is a removal, the list is the list from
    before followed by the files picked or dropped, in the order they
    came. *)
Theorem files_accumulate (actions : list Upload.Action)
    (u : Upload.UploadState) :
  (forall a fileName, In a actions -> a <> Upload.Remove fileName) ->
  Upload.uploadedFiles (fold_left Upload.act actions u)
  = Upload.uploadedFiles u ++ flat_map Upload.brought actions.
Proof.
  revert u. induction actions as [|a actions IH]; intros u Hkeep; simpl.
  - rewrite app_nil_r. reflexivity.
  - rewrite IH, UploadFacts.act_files, <- app_assoc.
    + reflexivity.
    + intros fileName. apply Hkeep. left. reflexivity.
    + intros b fileName Hin. apply Hkeep. right. exact Hin.
Qed.

Lemma files_accumulate_witness :
  Upload.uploadedFiles
    (fold_left Upload.act
       [ Upload.DragOver; Upload.Drop (Some [UploadSample.reportPdf]);
         Upload.Select None; Upload.Drop (Some []);
         Upload.Select (Some [UploadSample.reportPdfAgain]) ]
       UploadSample.twoFiles)
  = Upload.uploadedFiles UploadSample.twoFiles
    ++ flat_map Upload.brought
         [ Upload.DragOver; Upload.Drop (Some [UploadSample.reportPdf]);
           Upload.Select None; Upload.Drop (Some []);
           Upload.Select (Some [UploadSample.reportPdfAgain]) ].
Proof.
  apply (files_accumulate
           [ Upload.DragOver; Upload.Drop (Some [UploadSample.reportPdf]);
             Upload.Select None; Upload.Drop (Some []);
             Upload.Select (Some [UploadSample.reportPdfAgain]) ]
           UploadSample.twoFiles).
  intros a fileName Hin.
  repeat (destruct Hin as [Hin | Hin]; [subst a; discriminate|]).
  destruct Hin.
Defined.

(* ================================================================== *)
(** ** Replies that arrive late *)

Lemma commit_no_task (rendered cur : State) :
  taskId cur = None -> pollInterval cur = None ->
  taskId (commit rendered cur) = None
  /\ pollInterval (commit rendered cur) = None.
Proof.
  intros Ht Hp. unfold commit, pollGuard.
  destruct (depsChanged rendered cur); [|split; assumption].
  rewrite Ht. simpl. split; [exact Ht | reflexivity].
Qed.

Lemma applyEffect_no_task (cur : State) (e : Effect) :
  setsNoTask e = true ->
  taskId cur = None -> pollInterval cur = None ->
  taskId (applyEffect cur e) = None
  /\ pollInterval (applyEffect cur e) = None.
Proof.
  intros He Ht Hp. destruct e; simpl; try (split; assumption).
  - destruct v; [discriminate He | split; [reflexivity | exact Hp]].
  - split; [exact Ht | reflexivity].
Qed.

(** Effects that set no task identifier leave the page without task and
    without interval, whatever their order and wherever the renders
    fall. *)
Lemma run_no_task (effs : list Effect) (rendered cur : State) :
  forallb setsNoTask effs = true ->
  taskId cur = None -> pollInterval cur = None ->
  taskId (run rendered cur effs) = None
  /\ pollInterval (run rendered cur effs) = None.
Proof.
  revert rendered cur.
  induction effs as [|e effs IH]; intros rendered cur Heffs Ht Hp.
  - apply commit_no_task; assumption.
  - cbn [forallb] in Heffs. apply andb_true_iff in Heffs.
    destruct Heffs as [He Hrest].
    destruct (applyEffect_no_task cur e He Ht Hp) as [Ht' Hp'].
    destruct (commit_no_task rendered cur Ht Hp) as [Ht'' Hp''].
    destruct e; cbn [run]; try (apply IH; assumption).
Qed.

Lemma pollCallback_setsNoTask (tid : JsString)
    (reply : HttpReply TaskStatusResponse) :
  forallb setsNoTask (pollCallback tid reply) = true.
Proof.
  destruct reply as [e | httpStatus body | body]; simpl.
  - reflexivity.
  - destruct (httpStatus =? 404); [reflexivity|].
    destruct body; reflexivity.
  - destruct body as [e | data]; [reflexivity|].
    unfold onStatus, onCompleted, onFailed.
    destruct (status data); try reflexivity.
    destruct (Js.opt_truthy (html_content data)); [reflexivity|].
    destruct (Js.opt_truthy (html_url data)); reflexivity.
Qed.

Lemma conversationOnly_setsNoTask (effs : list Effect) :
  forallb conversationOnly effs = true -> forallb setsNoTask effs = true.
Proof.
  induction effs as [|e effs IH]; [reflexivity|].
  cbn [forallb]. intros H. apply andb_true_iff in H. destruct H as [He Hrest].
  rewrite (IH Hrest), andb_true_r. destruct e; try reflexivity.
  discriminate He.
Qed.

Lemma pageStep_no_task (s : State) (ev : Event) :
  (forall startReply, ev <> PressStart startReply) ->
  taskId s = None -> pollInterval s = None ->
  taskId (pageStep s ev) = None /\ pollInterval (pageStep s ev) = None.
Proof.
  intros Hev Ht Hp. unfold pageStep.
  destruct (offered s ev); [|split; assumption].
  destruct ev as [v | v | startReply | pollReply | now1 now2 streamReply];
    cbn [step].
  - apply run_no_task; [reflexivity | assumption | assumption].
  - apply run_no_task; [reflexivity | assumption | assumption].
  - exfalso. apply (Hev startReply). reflexivity.
  - rewrite (pollTick_idle s pollReply Hp). split; assumption.
  - apply run_no_task; [|assumption|assumption].
    apply conversationOnly_setsNoTask, handleSendMessage_conversationOnly.
Qed.

Lemma occur_no_task (p : Page) (o : Occurrence) :
  noSubmission o = true ->
  taskId (shown p) = None -> pollInterval (shown p) = None ->
  taskId (shown (occur p o)) = None
  /\ pollInterval (shown (occur p o)) = None.
Proof.
  intros Ho Ht Hp.
  destruct o as [v | v | startReply | now1 now2 streamReply | | n pollReply];
    cbn [occur shown]; try discriminate Ho;
    try (apply pageStep_no_task;
         [intros startReply H; discriminate H | assumption | assumption]).
  - rewrite Hp. split; assumption.
  - destruct (nth_error (inFlight p) n) as [tid|]; [|split; assumption].
    cbn [shown]. apply run_no_task;
      [apply pollCallback_setsNoTask | assumption | assumption].
Qed.

(** X25. Once the task identifier is null and no interval is set, and
    until the start button is pressed again (the user's handlers taken as
    one step each): whatever replies to earlier status requests still
    arrive, in whatever order, and whatever else the user does, no status
    request goes out, the task identifier stays null and no interval is
    set. *)
Theorem no_request_without_submission (p : Page) (os : list Occurrence) :
  taskId (shown p) = None ->
  pollInterval (shown p) = None ->
  forallb noSubmission os = true ->
  statusRequests p os = []
  /\ taskId (shown (occurAll p os)) = None
  /\ pollInterval (shown (occurAll p os)) = None.
Proof.
  revert p. induction os as [|o os IH]; intros p Ht Hp Hos;
    [repeat split; assumption|].
  cbn [forallb] in Hos. apply andb_true_iff in Hos.
  destruct Hos as [Ho Hrest].
  destruct (occur_no_task p o Ho Ht Hp) as [Ht' Hp'].
  destruct (IH (occur p o) Ht' Hp' Hrest) as (I1 & I2 & I3).
  unfold occurAll in *. cbn [fold_left statusRequests].
  rewrite I1, Hp. repeat split; try assumption.
  destruct o; reflexivity.
Qed.

Lemma no_request_without_submission_witness :
  let p := Scenario4.lateReplyPending in
  let p' := occurAll p Scenario4.lateReplies in
  inFlight p = [Sample.taskAbc]
  /\ analysisStatus (shown p') = processing
  /\ inFlight p' = []
  /\ statusRequests p Scenario4.lateReplies = []
  /\ taskId (shown p') = None
  /\ pollInterval (shown p') = None.
Proof.
  cbv zeta.
  split; [vm_compute; reflexivity|].
  split; [vm_compute; reflexivity|].
  split; [vm_compute; reflexivity|].
  apply (no_request_without_submission Scenario4.lateReplyPending
           Scenario4.lateReplies); vm_compute; reflexivity.
Defined.

(** Whatever the overlap of ticks and replies, the interval, when set, is
    for the task whose identifier is in the state. *)
Lemma occurAll_interval_matches_task (os : list Occurrence) :
  intervalMatchesTask (shown (occurAll firstPage os)).
Proof.
  assert (Hstep : forall s ev, intervalMatchesTask s ->
                               intervalMatchesTask (pageStep s ev)).
  { intros s ev Hs. unfold pageStep.
    destruct (offered s ev); [apply step_matches|]; exact Hs. }
  assert (Hgen : forall p, intervalMatchesTask (shown p) ->
                           intervalMatchesTask (shown (occurAll p os))).
  { unfold occurAll.
    induction os as [|o os IH]; intros p Hp; [exact Hp|].
    cbn [fold_left]. apply IH.
    destruct o as [v | v | startReply | now1 now2 streamReply | | n pollReply];
      cbn [occur shown]; try (apply Hstep; exact Hp).
    - destruct (pollInterval (shown p)); exact Hp.
    - destruct (nth_error (inFlight p) n); [|exact Hp].
      cbn [shown]. apply dispatch_matches, Hp. }
  apply Hgen. intros tid H. discriminate H.
Qed.

(* ================================================================== *)
(** ** The earlier revision of the submission *)

Lemma run_skip_fetch (pre rest : list Effect) (req : Request)
    (rendered cur : State) :
  forallb notAwait pre = true ->
  run rendered cur (pre ++ Fetch req :: rest)
  = run rendered cur (pre ++ rest).
Proof.
  revert cur. induction pre as [|e pre IH]; intros cur H; [reflexivity|].
  simpl in H. apply andb_true_iff in H. destruct H as [He Hpre].
  destruct e; try discriminate He; simpl; apply IH; exact Hpre.
Qed.

Lemma effectsOf_app (a b : list TestUi.Step) :
  TestUi.effectsOf (a ++ b) = TestUi.effectsOf a ++ TestUi.effectsOf b.
Proof.
  induction a as [|[e | url] a IH]; simpl; rewrite ?IH; reflexivity.
Qed.

Lemma effectsOf_Do (effs : list Effect) :
  TestUi.effectsOf (map TestUi.Do effs) = effs.
Proof. induction effs as [|e effs IH]; simpl; rewrite ?IH; reflexivity. Qed.

Lemma requestsOf_app (a b : list TestUi.Step) :
  TestUi.requestsOf (a ++ b) = TestUi.requestsOf a ++ TestUi.requestsOf b.
Proof.
  induction a as [|[e | url] a IH]; simpl; rewrite ?IH; reflexivity.
Qed.

Lemma requestsOf_Do (effs : list Effect) :
  TestUi.requestsOf (map TestUi.Do effs) = [].
Proof. induction effs as [|e effs IH]; simpl; rewrite ?IH; reflexivity. Qed.

(** X24. The submission of the earlier revision of the page has no
    validation: whatever the state and the reply, it issues exactly one
    request, a POST to the dummy start address; and for a non-blank prompt
    the submission of the current revision, which differs in the address
    and in sending the prompt, leaves the very same state. *)
Theorem earlier_submission_agrees (s : State) (reply : HttpReply StartData) :
  TestUi.requestsOf (TestUi.handleStartAnalysis reply)
  = [BACKEND_URL ++ Js.lit "/api/start-dummy-analysis"]
  /\ (Js.truthy (Js.trim (reportRequirementsInput s)) = true ->
      startAnalysis s reply = TestUi.startAnalysis s reply).
Proof.
  split.
  - unfold TestUi.handleStartAnalysis.
    rewrite requestsOf_app, requestsOf_Do.
    cbn [TestUi.requestsOf app]. rewrite requestsOf_Do. reflexivity.
  - intros Hprompt.
    unfold startAnalysis, TestUi.startAnalysis, dispatch,
      TestUi.handleStartAnalysis, handleStartAnalysis.
    rewrite Hprompt. cbn [negb].
    rewrite effectsOf_app, effectsOf_Do.
    cbn [TestUi.effectsOf]. rewrite effectsOf_Do.
    apply run_skip_fetch. reflexivity.
Qed.

Lemma earlier_submission_agrees_witness :
  TestUi.requestsOf
    (TestUi.handleStartAnalysis (NotOk 500 (BodyThrows ThrownOther)))
  = [BACKEND_URL ++ Js.lit "/api/start-dummy-analysis"]
  /\ startAnalysis initialState (NotOk 500 (BodyThrows ThrownOther))
     = TestUi.startAnalysis initialState (NotOk 500 (BodyThrows ThrownOther)).
Proof.
  destruct (earlier_submission_agrees initialState
              (NotOk 500 (BodyThrows ThrownOther))) as [H1 H2].
  split; [exact H1|]. apply H2. vm_compute. reflexivity.
Defined.
